(** * Spark Extent report parser and analysis boundary: a shallow embedding

  The development follows the TypeScript sources:
  - the report parser [parseSparkExtentReport] (both variants that the
    repository contains),
  - the [analyze-report] request handler.

  Strings are byte strings ([String.string]); case folding, white space and
  digits are the ASCII ones.  The browser's DOM is an interface ([Dom]); a
  tree model of HTML elements ([TreeDom]) implements it and serves to run the
  parser on concrete documents. *)

From Stdlib Require Import String Ascii List Bool Arith NArith ZArith QArith Qround Lia.
From Stdlib Require Import DecimalString.
Import ListNotations.
Local Close Scope Q_scope.
Local Open Scope nat_scope.
Local Open Scope string_scope.
Local Open Scope list_scope.

Set Implicit Arguments.

(* ================================================================== *)
(** * JavaScript string primitives *)
(* ================================================================== *)

Module Js.

(** The double quote character, written by its code. *)
Definition dquote : ascii := "034"%char.
Definition newline : ascii := "010"%char.

Definition isDigit (c : ascii) : bool :=
  let n := nat_of_ascii c in ((48 <=? n) && (n <=? 57))%nat.

(** White space and line terminators in the ASCII range. *)
Definition isSpace (c : ascii) : bool :=
  let n := nat_of_ascii c in (((9 <=? n) && (n <=? 13)) || (n =? 32))%nat.

Definition isUpper (c : ascii) : bool :=
  let n := nat_of_ascii c in ((65 <=? n) && (n <=? 90))%nat.

Definition isLower (c : ascii) : bool :=
  let n := nat_of_ascii c in ((97 <=? n) && (n <=? 122))%nat.

Definition lowerChar (c : ascii) : ascii :=
  if isUpper c then ascii_of_nat (nat_of_ascii c + 32) else c.

Definition upperChar (c : ascii) : ascii :=
  if isLower c then ascii_of_nat (nat_of_ascii c - 32) else c.

(** [s.toLowerCase()] *)
Fixpoint toLowerCase (s : string) : string :=
  match s with
  | EmptyString => EmptyString
  | String c s' => String (lowerChar c) (toLowerCase s')
  end.

(** [s.startsWith(p)] *)
Fixpoint startsWith (s p : string) : bool :=
  match p, s with
  | EmptyString, _ => true
  | String _ _, EmptyString => false
  | String a p', String b s' => Ascii.eqb a b && startsWith s' p'
  end.

(** [s.includes(sub)] *)
Fixpoint includes (s sub : string) : bool :=
  startsWith s sub ||
  match s with
  | EmptyString => false
  | String _ s' => includes s' sub
  end.

Fixpoint trimStart (s : string) : string :=
  match s with
  | String c s' => if isSpace c then trimStart s' else s
  | EmptyString => EmptyString
  end.

Fixpoint trimEnd (s : string) : string :=
  match s with
  | EmptyString => EmptyString
  | String c s' =>
      match trimEnd s' with
      | EmptyString => if isSpace c then EmptyString else String c EmptyString
      | t => String c t
      end
  end.

(** [s.trim()] *)
Definition trim (s : string) : string := trimEnd (trimStart s).

(** [s.split('\n')[0]]: the text before the first line feed. *)
Fixpoint firstLine (s : string) : string :=
  match s with
  | EmptyString => EmptyString
  | String c s' => if Ascii.eqb c newline then EmptyString else String c (firstLine s')
  end.

(** [s.substring(0, n)] *)
Definition substring0 (n : nat) (s : string) : string := String.substring 0 n s.

(** Truthiness of a string: the empty string is falsy. *)
Definition truthy (s : string) : bool :=
  match s with EmptyString => false | _ => true end.

(** [s || d] on strings. *)
Definition orElse (s d : string) : string := if truthy s then s else d.

(** [s || undefined] on strings. *)
Definition orUndefined (s : string) : option string :=
  if truthy s then Some s else None.

(** [a.join(sep)] *)
Fixpoint join (sep : string) (l : list string) : string :=
  match l with
  | [] => EmptyString
  | [x] => x
  | x :: rest => x ++ sep ++ join sep rest
  end.

(** Decimal rendering of a number inside a template literal. *)
Definition showNat (n : nat) : string := NilEmpty.string_of_uint (Nat.to_uint n).

(** Value of the longest prefix of decimal digits, [acc] being the value read
    so far; returns the value and the rest of the text. *)
Fixpoint readDigits (acc : N) (s : string) : N * string :=
  match s with
  | String c s' =>
      if isDigit c
      then readDigits (acc * 10 + N.of_nat (nat_of_ascii c - 48))%N s'
      else (acc, s)
  | EmptyString => (acc, s)
  end.

Definition startsWithDigit (s : string) : bool :=
  match s with String c _ => isDigit c | EmptyString => false end.

(** [parseInt(s)] on unsigned decimal text: leading white space is skipped
    and the longest digit prefix is read.  The sources apply it to the text
    of a [(\d+)] group only, so the NaN case (no digit) does not arise; it is
    rendered as 0. *)
Definition parseInt (s : string) : N := fst (readDigits 0%N (trimStart s)).

Fixpoint countDigits (s : string) : nat :=
  match s with
  | String c s' => if isDigit c then S (countDigits s') else 0
  | EmptyString => 0
  end.

(** [parseFloat(s)] on text made of digits and dots (what is left after
    [replace(/[^0-9.]/g, '')]): integer digits, then optionally a dot and
    fraction digits; at least one digit is needed.  The result is the exact
    decimal value, of which the JavaScript number is the nearest double;
    [None] stands for NaN. *)
Definition parseFloat (s : string) : option Q :=
  let '(ip, rest) := readDigits 0%N s in
  let ni := countDigits s in
  match rest with
  | String "." frac =>
      let '(fp, _) := readDigits 0%N frac in
      let nf := countDigits frac in
      if (ni + nf =? 0)%nat then None
      else Some (Qred (Qplus (Qmake (Z.of_N ip) 1) (Qmake (Z.of_N fp) (Pos.of_nat (10 ^ nf)))))
  | _ => if (ni =? 0)%nat then None else Some (Qmake (Z.of_N ip) 1)
  end.

(** The text without its first [n] characters. *)
Fixpoint dropChars (n : nat) (s : string) : string :=
  match n, s with
  | S n', String _ s' => dropChars n' s'
  | _, _ => s
  end.

(** A proper, non-empty suffix of [kw] starts [y]: an occurrence of [kw] may
    begin before [y] and end inside it. *)
Fixpoint straddles (y kw : string) : bool :=
  match kw with
  | EmptyString => false
  | String _ kw' => (truthy kw' && startsWith y kw') || straddles y kw'
  end.

(** [x || 0] on numbers: NaN and 0 are falsy. *)
Definition orZero (x : option Q) : Q :=
  match x with Some q => q | None => 0%Q end.

End Js.

(* ================================================================== *)
(** * Regular expressions *)
(* ================================================================== *)

(** The regular expression literals of the sources repeat single-character
  atoms only ([\s*], [\d+], [[^<\n]+], [.+], [[\s\S]*?]), so the syntax
  below has repetition on atoms; the matcher is the backtracking one of
  the language: leftmost start, greedy (or lazy) repetition, first success. *)
Module Regex.
Import Js.

Inductive citem : Type :=
| CChar (c : ascii)          (* a character *)
| CRange (lo hi : ascii)     (* [lo-hi] *)
| CSpace                     (* \s *)
| CNonSpace                  (* \S *)
| CDigit.                    (* \d *)

Inductive atom : Type :=
| AChar (c : ascii)
| ADot                                   (* . : anything but a line terminator *)
| ASet (negated : bool) (items : list citem).

Inductive regex : Type :=
| Eps
| Atom (a : atom)
| Seq (r1 r2 : regex)
| Alt (r1 r2 : regex)                    (* r1|r2 *)
| Opt (r : regex)                        (* r? *)
| Star (a : atom)                        (* a*  greedy *)
| StarLazy (a : atom)                    (* a*? *)
| Group (n : nat) (r : regex).           (* n-th capturing group *)

Definition Plus (a : atom) : regex := Seq (Atom a) (Star a).

Definition aSpace : atom := ASet false [CSpace].   (* \s *)
Definition aDigit : atom := ASet false [CDigit].   (* \d *)

(** Literal text as a sequence of character atoms. *)
Fixpoint Lit (s : string) : regex :=
  match s with
  | EmptyString => Eps
  | String c s' => Seq (Atom (AChar c)) (Lit s')
  end.

Fixpoint seqs (l : list regex) : regex :=
  match l with
  | [] => Eps
  | [r] => r
  | r :: l' => Seq r (seqs l')
  end.

Definition inRange (lo hi x : ascii) : bool :=
  ((nat_of_ascii lo <=? nat_of_ascii x) && (nat_of_ascii x <=? nat_of_ascii hi))%nat.

(** Under the [i] flag two characters match when their case foldings agree. *)
Definition charOk (ci : bool) (c x : ascii) : bool :=
  if ci then Ascii.eqb (lowerChar c) (lowerChar x) else Ascii.eqb c x.

Definition itemOk (ci : bool) (it : citem) (x : ascii) : bool :=
  match it with
  | CChar c => charOk ci c x
  | CRange lo hi =>
      inRange lo hi x ||
      (ci && (inRange lo hi (lowerChar x) || inRange lo hi (upperChar x)))
  | CSpace => isSpace x
  | CNonSpace => negb (isSpace x)
  | CDigit => isDigit x
  end.

Definition isLineTerminator (x : ascii) : bool :=
  let n := nat_of_ascii x in ((n =? 10) || (n =? 13))%nat.

Definition atomOk (ci : bool) (a : atom) (x : ascii) : bool :=
  match a with
  | AChar c => charOk ci c x
  | ADot => negb (isLineTerminator x)
  | ASet negated items => xorb negated (existsb (fun it => itemOk ci it x) items)
  end.

(** Captures recorded so far, most recent first. *)
Definition captures : Type := list (nat * string).

Fixpoint capture (n : nat) (caps : captures) : option string :=
  match caps with
  | [] => None
  | (m, s) :: rest => if (m =? n)%nat then Some s else capture n rest
  end.

Section Matcher.
Variable R : Type.
Variable ci : bool.

(** The matcher is written with a continuation [k], called with the number
    of characters consumed since the start of the attempt and with the text
    that remains; [None] from [k] makes the matcher backtrack. *)
Fixpoint starGreedy (ok : ascii -> bool) (pos : nat) (s : string)
         (k : nat -> string -> option R) : option R :=
  match s with
  | String c s' =>
      if ok c
      then match starGreedy ok (S pos) s' k with
           | Some r => Some r
           | None => k pos s
           end
      else k pos s
  | EmptyString => k pos s
  end.

Fixpoint starLazy (ok : ascii -> bool) (pos : nat) (s : string)
         (k : nat -> string -> option R) : option R :=
  match k pos s with
  | Some r => Some r
  | None =>
      match s with
      | String c s' => if ok c then starLazy ok (S pos) s' k else None
      | EmptyString => None
      end
  end.

Fixpoint rmatch (r : regex) (pos : nat) (s : string) (caps : captures)
         (k : nat -> string -> captures -> option R) : option R :=
  match r with
  | Eps => k pos s caps
  | Atom a =>
      match s with
      | String c s' => if atomOk ci a c then k (S pos) s' caps else None
      | EmptyString => None
      end
  | Seq r1 r2 => rmatch r1 pos s caps (fun p1 s1 c1 => rmatch r2 p1 s1 c1 k)
  | Alt r1 r2 =>
      match rmatch r1 pos s caps k with
      | Some x => Some x
      | None => rmatch r2 pos s caps k
      end
  | Opt r1 =>
      match rmatch r1 pos s caps k with
      | Some x => Some x
      | None => k pos s caps
      end
  | Star a => starGreedy (atomOk ci a) pos s (fun p s' => k p s' caps)
  | StarLazy a => starLazy (atomOk ci a) pos s (fun p s' => k p s' caps)
  | Group n r1 =>
      rmatch r1 pos s caps
        (fun p s' c' => k p s' ((n, substring0 (p - pos) s) :: c'))
  end.
End Matcher.

(** A successful match: the text before it, the matched text, the captures
    and the text after it. *)
Record MatchResult : Type := mkMatch {
  before : string;
  matched : string;
  groups : captures;
  after : string
}.

Definition matchAt (ci : bool) (r : regex) (s : string) : option MatchResult :=
  rmatch ci r 0 s []
    (fun p rest caps => Some (mkMatch EmptyString (substring0 p s) caps rest)).

Definition shift (c : ascii) (m : MatchResult) : MatchResult :=
  mkMatch (String c (before m)) (matched m) (groups m) (after m).

(** [re.exec(s)] for a regex without the [g] flag: the leftmost match. *)
Fixpoint search (ci : bool) (r : regex) (s : string) : option MatchResult :=
  match matchAt ci r s with
  | Some m => Some m
  | None =>
      match s with
      | String c s' => option_map (shift c) (search ci r s')
      | EmptyString => None
      end
  end.

(** [s.match(re)[n]] for a regex without the [g] flag. *)
Definition matchGroup (ci : bool) (r : regex) (n : nat) (s : string) : option string :=
  match search ci r s with
  | Some m => capture n (groups m)
  | None => None
  end.

(** [s.match(re)] for a regex with the [g] flag: all matched texts, left to
    right, each search starting where the previous match ended (one
    character further after an empty match).  [|| []] is folded in: no
    match gives the empty list. *)
Fixpoint matchAllFuel (fuel : nat) (ci : bool) (r : regex) (s : string) : list string :=
  match fuel with
  | O => []
  | S fuel' =>
      match search ci r s with
      | None => []
      | Some m =>
          matched m ::
          match matched m, after m with
          | EmptyString, String _ rest => matchAllFuel fuel' ci r rest
          | EmptyString, EmptyString => []
          | _, rest => matchAllFuel fuel' ci r rest
          end
      end
  end.

Definition matchAll (ci : bool) (r : regex) (s : string) : list string :=
  matchAllFuel (S (String.length s)) ci r s.

(** [s.replace(re, '')] for a regex without the [g] flag. *)
Definition removeFirst (ci : bool) (r : regex) (s : string) : string :=
  match search ci r s with
  | Some m => before m ++ after m
  | None => s
  end.

(** [s.replace(/[set]/g, '')] for a one-character pattern. *)
Fixpoint removeAllChars (ci : bool) (a : atom) (s : string) : string :=
  match s with
  | EmptyString => EmptyString
  | String c s' =>
      if atomOk ci a c then removeAllChars ci a s' else String c (removeAllChars ci a s')
  end.

End Regex.

(* ================================================================== *)
(** * The DOM, as far as the parser uses it *)
(* ================================================================== *)

(** Selectors are the strings of the sources; inside attribute selectors
    the value is written between single quotes, which selectors treat like
    double quotes.  Elements are HTML elements: [textContent], [className]
    and [innerHTML] are strings; [src] and [href] are the resolved
    properties, absent on elements that do not have them. *)
Class Dom : Type := {
  Document : Type;
  Element : Type;
  docQuerySelectorAll : Document -> string -> list Element;
  body : Document -> option Element;
  querySelectorAll : Element -> string -> list Element;
  textContent : Element -> string;
  className : Element -> string;
  innerHTML : Element -> string;
  src : Element -> option string;
  href : Element -> option string
}.

(** [node.querySelector(sel)]: the first element of
    [node.querySelectorAll(sel)], if any. *)
Definition querySelector `{Dom} (node : Element) (sel : string) : option Element :=
  hd_error (querySelectorAll node sel).

(* ================================================================== *)
(** * Test case records *)
(* ================================================================== *)

Inductive Status : Type := Pass | Fail | Skip.

Definition Status_eqb (a b : Status) : bool :=
  match a, b with
  | Pass, Pass | Fail, Fail | Skip, Skip => true
  | _, _ => false
  end.

Record Screenshot : Type := mkScreenshot {
  shotName : string;
  mimeType : string;
  base64Data : string
}.

(** Optional fields are [None] when the property is absent or [undefined]. *)
Record TestCase : Type := mkTestCase {
  id : string;
  name : string;
  className_ : string;
  status : Status;
  duration : Q;
  errorMessage : option string;
  stackTrace : option string;
  logs : option (list string);
  stepsToReproduce : option (list string);
  screenshots : option (list Screenshot);
  timestamp : option string
}.

(** A record with its timestamp left out. *)
Definition withoutTimestamp (t : TestCase) : TestCase :=
  mkTestCase (id t) (name t) (className_ t) (status t) (duration t)
             (errorMessage t) (stackTrace t) (logs t) (stepsToReproduce t)
             (screenshots t) None.

(** [l.length > 0 ? l : undefined] *)
Definition nonEmpty {A : Type} (l : list A) : option (list A) :=
  match l with [] => None | _ => Some l end.

(** The numeric-only text of a duration: [replace(/[^0-9.]/g, '')]. *)
Definition notNumeric : Regex.atom :=
  Regex.ASet true [Regex.CRange "0" "9"; Regex.CChar "."].

(** [parseFloat(durationText.replace(/[^0-9.]/g, '')) || 0] *)
Definition parseDuration (durationText : string) : Q :=
  Js.orZero (Js.parseFloat (Regex.removeAllChars false notNumeric durationText)).

(* ================================================================== *)
(** * The report parser (the variant with steps and screenshots) *)
(* ================================================================== *)

Module ParseReport.
Import Js Regex.

(** [/pass(?:ed)?\s*[:\s]*(\d+)/i] *)
Definition passRe : regex :=
  seqs [Lit "pass"; Opt (Lit "ed"); Star aSpace;
        Star (ASet false [CChar ":"; CSpace]); Group 1 (Plus aDigit)].

(** [/fail(?:ed|ure)?\s*[:\s]*(\d+)/i] *)
Definition failRe : regex :=
  seqs [Lit "fail"; Opt (Alt (Lit "ed") (Lit "ure")); Star aSpace;
        Star (ASet false [CChar ":"; CSpace]); Group 1 (Plus aDigit)].

(** [/skip(?:ped)?\s*[:\s]*(\d+)/i] *)
Definition skipRe : regex :=
  seqs [Lit "skip"; Opt (Lit "ped"); Star aSpace;
        Star (ASet false [CChar ":"; CSpace]); Group 1 (Plus aDigit)].

(** [/test[_\s-]?name[Q']?\s*[>:]\s*/i], where Q is the double quote
    character: the prefix that [replace] removes. *)
Definition testNamePrefixRe : regex :=
  seqs [Lit "test"; Opt (Atom (ASet false [CChar "_"; CSpace; CChar "-"]));
        Lit "name"; Opt (Atom (ASet false [CChar dquote; CChar "'"]));
        Star aSpace; Atom (ASet false [CChar ">"; CChar ":"]); Star aSpace].

(** [/test[_\s-]?name[Q']?\s*[>:]\s*([^<\n]+)/gi] *)
Definition testNameRe : regex :=
  Seq testNamePrefixRe (Group 1 (Plus (ASet true [CChar "<"; CChar newline]))).

(** [/data:([^;]+);base64,(.+)/] *)
Definition dataUriRe : regex :=
  seqs [Lit "data:"; Group 1 (Plus (ASet true [CChar ";"])); Lit ";base64,";
        Group 2 (Plus ADot)].

Section WithDom.
Context `{D : Dom}.

(** The clock: [now i] is what [new Date().toISOString()] returns while the
    node of index [i] is processed. *)
Variable now : nat -> string.

Definition selectors : list string :=
  [ ".test"; ".test-content"; ".card.test-card"; "li.test"; "div[class*='test']";
    "table tbody tr"; ".table-responsive tbody tr";
    ".node"; ".category-content .test-detail";
    ".test-item"; ".test-row" ].

Definition statusIndicatorSelector : string :=
  "[class*='pass'], [class*='fail'], [class*='skip'], [class*='error']".

(** The loop over [selectors]: the nodes of the first selector that matches
    at least one element; [sels] is what remains of the list. *)
Fixpoint firstNonEmpty (doc : Document) (sels : list string) : list Element :=
  match sels with
  | [] => []
  | selector :: rest =>
      let nodes := docQuerySelectorAll doc selector in
      if (0 <? List.length nodes)%nat then nodes else firstNonEmpty doc rest
  end.

(** The node selector cascade (lines 27 to 41). *)
Definition selectTestNodes (doc : Document) : list Element :=
  let testNodes := firstNonEmpty doc selectors in
  if (List.length testNodes =? 0)%nat
  then docQuerySelectorAll doc statusIndicatorSelector
  else testNodes.

(** [for (const sel of sels) { const el = node.querySelector(sel);
      if (el?.textContent?.trim()) { x = el.textContent.trim(); break; } }]
    starting from [x = '']. *)
Fixpoint firstText (node : Element) (sels : list string) : string :=
  match sels with
  | [] => EmptyString
  | sel :: rest =>
      match querySelector node sel with
      | Some el =>
          if truthy (trim (textContent el)) then trim (textContent el)
          else firstText node rest
      | None => firstText node rest
      end
  end.

Definition nameSelectors : list string :=
  [".test-name"; ".name"; "td:first-child"; "h5"; ".card-title"; ".test-title"; "a"].

Definition extractName (node : Element) (index : nat) : string :=
  let name := firstText node nameSelectors in
  if truthy name then name
  else orElse (substring0 100 (firstLine (trim (textContent node))))
              ("Test " ++ showNat (index + 1)).

(** Status from the node as a whole (lines 59 to 74). *)
Definition wholeNodeStatus (node : Element) : Status :=
  let status := Pass in
  let nodeText := toLowerCase (textContent node) in
  let nodeClass := toLowerCase (className node) in
  let nodeHtml := toLowerCase (innerHTML node) in
  if includes nodeClass "fail" || includes nodeClass "error" ||
     includes nodeHtml "fail" || includes nodeHtml "error" ||
     includes nodeText "failed" || includes nodeText "exception"
  then Fail
  else if includes nodeClass "skip" || includes nodeHtml "skip" ||
          includes nodeText "skipped"
  then Skip
  else if includes nodeClass "pass" || includes nodeHtml "pass" ||
          includes nodeHtml "✓" || includes nodeHtml "success"
  then Pass
  else status.

Definition statusBadgeSelector : string :=
  ".status, .badge, [class*='status'], .test-status".

(** The status badge stage (lines 76 to 86): [status] is the verdict so far,
    [statusEl] the badge element if there is one. *)
Definition badgeStatus (status : Status) (statusEl : option Element) : Status :=
  match statusEl with
  | Some el =>
      let statusText := toLowerCase (textContent el) in
      let statusClass := toLowerCase (className el) in
      if includes statusText "fail" || includes statusClass "fail" ||
         includes statusClass "danger"
      then Fail
      else if includes statusText "skip" || includes statusClass "skip" ||
              includes statusClass "warning"
      then Skip
      else status
  | None => status
  end.

(** The status classifier. *)
Definition classifyStatus (node : Element) : Status :=
  badgeStatus (wholeNodeStatus node) (querySelector node statusBadgeSelector).

(** [errorMessage], [stackTrace] and [logs] while the error elements are
    scanned. *)
Record ErrorScan : Type := mkErrorScan {
  scanErrorMessage : string;
  scanStackTrace : string;
  scanLogs : list string
}.

Definition errorSelectors : list string :=
  [".exception"; ".error"; ".stacktrace"; ".stack-trace"; "pre"; "code"; ".log";
   ".step-details"].

(** The body of the inner [forEach] of lines 96 to 109. *)
Definition scanErrorElement (st : ErrorScan) (el : Element) : ErrorScan :=
  let text := trim (textContent el) in
  if truthy text then
    let logs := scanLogs st ++ [text] in
    let stackTrace :=
      if includes text "Exception" || includes text "Error" || includes text "at "
      then (if negb (truthy (scanStackTrace st)) then text else scanStackTrace st)
      else scanStackTrace st in
    let errorMessage :=
      if negb (truthy (scanErrorMessage st)) &&
         (includes text "Assert" || includes text "Expected" || includes text "Error:")
      then firstLine text
      else scanErrorMessage st in
    mkErrorScan errorMessage stackTrace logs
  else st.

(** [sels.forEach(sel => node.querySelectorAll(sel).forEach(el => ...))] *)
Definition forEachMatch {S : Type} (node : Element) (sels : list string)
           (f : S -> Element -> S) (init : S) : S :=
  fold_left (fun st sel => fold_left f (querySelectorAll node sel) st) sels init.

Definition scanErrors (node : Element) : ErrorScan :=
  forEachMatch node errorSelectors scanErrorElement
               (mkErrorScan EmptyString EmptyString []).

Definition stepSelectors : list string :=
  [".step"; ".test-step"; ".log-step"; ".step-name"; ".step-details"; ".node-step";
   "li.step"].

Definition pushStep (limit : nat) (noException : bool)
           (steps : list string) (el : Element) : list string :=
  let stepText := trim (textContent el) in
  if truthy stepText && (5 <? String.length stepText)%nat &&
     (String.length stepText <? limit)%nat &&
     (negb noException || negb (includes stepText "Exception"))
  then steps ++ [stepText] else steps.

(** Steps to reproduce (lines 113 to 134). *)
Definition extractSteps (node : Element) : list string :=
  let stepsToReproduce := forEachMatch node stepSelectors (pushStep 500 false) [] in
  if (List.length stepsToReproduce =? 0)%nat
  then fold_left (pushStep 300 true)
                 (querySelectorAll node ".log, .test-log, [class*='step']")
                 stepsToReproduce
  else stepsToReproduce.

Definition imgSelectors : list string :=
  ["img[src^='data:image']"; "img.screenshot"; ".screenshot img"; ".test-img img";
   ".media img"].

(** The screenshots of one selector: [imgEls.forEach((img, imgIdx) => ...)];
    [count] is [testCases.length]. *)
Fixpoint pushScreenshots (count : nat) (imgEls : list Element) (imgIdx : nat)
         (screenshots : list Screenshot) : list Screenshot :=
  match imgEls with
  | [] => screenshots
  | img :: rest =>
      pushScreenshots count rest (S imgIdx)
        (match src img with
         | Some s =>
             if startsWith s "data:image" then
               match search false dataUriRe s with
               | Some m =>
                   match capture 1 (groups m), capture 2 (groups m) with
                   | Some mime, Some data =>
                       screenshots ++
                       [mkScreenshot
                          ("screenshot-" ++ showNat (count + 1) ++ "-" ++
                           showNat (imgIdx + 1) ++ ".png")%string
                          mime data]
                   | _, _ => screenshots
                   end
               | None => screenshots
               end
             else screenshots
         | None => screenshots
         end)
  end.

Definition extractScreenshots (count : nat) (node : Element) : list Screenshot :=
  fold_left (fun shots sel => pushScreenshots count (querySelectorAll node sel) 0 shots)
            imgSelectors [].

Definition pushScreenshotLink (logs : list string) (link : Element) : list string :=
  match href link with
  | Some h =>
      if truthy h && (includes h ".png" || includes h ".jpg" || includes h ".jpeg")
      then logs ++ [("Screenshot available: " ++ h)%string]
      else logs
  | None => logs
  end.

Definition classSelectors : list string :=
  [".class-name"; ".category"; ".test-class"; ".package"].

Definition extractClassName (node : Element) : string :=
  let className := firstText node classSelectors in
  if negb (truthy className) then "Test Suite" else className.

Definition extractDuration (node : Element) : Q :=
  let durationText :=
    match querySelector node ".duration, .time, [class*='time'], .test-time" with
    | Some durationEl => orElse (textContent durationEl) "0"
    | None => "0"
    end in
  parseDuration durationText.

(** [name && name.length > 2]: the name is meaningful. *)
Definition meaningfulName (name : string) : bool :=
  truthy name && (2 <? String.length name)%nat.

(** The callback of [testNodes.forEach] (lines 43 to 201): the test cases
    after the node of index [index] has been handled. *)
Definition processNode (testCases : list TestCase) (node : Element) (index : nat)
  : list TestCase :=
  let name := extractName node index in
  let status := classifyStatus node in
  let scan := scanErrors node in
  let stepsToReproduce := extractSteps node in
  let screenshots := extractScreenshots (List.length testCases) node in
  let logs :=
    fold_left pushScreenshotLink
      (querySelectorAll node
         "a[href*='screenshot'], a[href*='image'], .screenshot-link")
      (scanLogs scan) in
  let className := extractClassName node in
  let duration := extractDuration node in
  if meaningfulName name
  then testCases ++
       [mkTestCase ("test-" ++ showNat (index + 1))%string name className status duration
          (orUndefined (scanErrorMessage scan))
          (orUndefined (scanStackTrace scan))
          (nonEmpty logs) (nonEmpty stepsToReproduce) (nonEmpty screenshots)
          (Some (now index))]
  else testCases.

(** [testNodes.forEach((node, index) => ...)], from index [index] on. *)
Fixpoint processNodes (testCases : list TestCase) (testNodes : list Element)
         (index : nat) : list TestCase :=
  match testNodes with
  | [] => testCases
  | node :: rest => processNodes (processNode testCases node index) rest (S index)
  end.

(** The nodes with their [forEach] indices. *)
Definition indexed (testNodes : list Element) : list (nat * Element) :=
  combine (seq 0 (List.length testNodes)) testNodes.

(** The id, the name and the status of a record. *)
Definition summaryOfCase (t : TestCase) : string * string * Status :=
  (id t, name t, status t).

(** The same for the node of index [fst p], had it a record: the id
    [test-(index + 1)], the extracted name and the status. *)
Definition entryOf (p : nat * Element) : string * string * Status :=
  (("test-" ++ showNat (fst p + 1))%string, extractName (snd p) (fst p),
   classifyStatus (snd p)).

(** The node passes the guard of line 186. *)
Definition kept (p : nat * Element) : bool :=
  meaningfulName (extractName (snd p) (fst p)).

(** The structural pass: the records of the nodes of the cascade. *)
Definition structuralPass (doc : Document) : list TestCase :=
  processNodes [] (selectTestNodes doc) 0.

(** [m ? parseInt(m[1]) : 0] *)
Definition countOf (re : regex) (bodyText : string) : N :=
  match search true re bodyText with
  | Some m => match capture 1 (groups m) with
              | Some digits => parseInt digits
              | None => 0%N
              end
  | None => 0%N
  end.

Definition fallbackStatus (i failCount skipCount : nat) : Status :=
  let status := Pass in
  if (i <? failCount)%nat then Fail
  else if (i <? failCount + skipCount)%nat then Skip
  else status.

Definition fallbackName (testNameMatches : list string) (i : nat) : string :=
  match nth_error testNameMatches i with
  | Some m => orElse (trim (removeFirst true testNamePrefixRe m))
                     ("Test Case " ++ showNat (i + 1))
  | None => "Test Case " ++ showNat (i + 1)
  end.

(** [doc.body?.textContent || htmlContent] *)
Definition bodyTextOf (doc : Document) (htmlContent : string) : string :=
  match body doc with
  | Some b => orElse (textContent b) htmlContent
  | None => htmlContent
  end.

(** The regex fallback (lines 205 to 231). *)
Definition regexFallback (doc : Document) (htmlContent : string) : list TestCase :=
  let bodyText := bodyTextOf doc htmlContent in
  let passCount := N.to_nat (countOf passRe bodyText) in
  let failCount := N.to_nat (countOf failRe bodyText) in
  let skipCount := N.to_nat (countOf skipRe bodyText) in
  let testNameMatches := matchAll true testNameRe htmlContent in
  map (fun i =>
         mkTestCase ("extracted-" ++ showNat (i + 1))%string
                    (fallbackName testNameMatches i)
                    "Extracted from report"
                    (fallbackStatus i failCount skipCount)
                    0%Q None None None None None None)
      (seq 0 (Nat.max (passCount + failCount + skipCount)
                      (Nat.max (List.length testNameMatches) 1))).

(** [parseSparkExtentReport(htmlContent)], [doc] being the document that
    [DOMParser.parseFromString(htmlContent, 'text/html')] returns. *)
Definition parseSparkExtentReport (doc : Document) (htmlContent : string)
  : list TestCase :=
  let testCases := structuralPass doc in
  if (List.length testCases =? 0)%nat
  then testCases ++ regexFallback doc htmlContent
  else testCases.

End WithDom.
End ParseReport.

(* ================================================================== *)
(** * The report parser (the variant without steps and screenshots) *)
(* ================================================================== *)

Module ParseReportBasic.
Import Js Regex.

(** [/pass[ed]*\s*[:\s]*(\d+)/i] *)
Definition passRe : regex :=
  seqs [Lit "pass"; Star (ASet false [CChar "e"; CChar "d"]); Star aSpace;
        Star (ASet false [CChar ":"; CSpace]); Group 1 (Plus aDigit)].

(** [/fail[ed]*\s*[:\s]*(\d+)/i] *)
Definition failRe : regex :=
  seqs [Lit "fail"; Star (ASet false [CChar "e"; CChar "d"]); Star aSpace;
        Star (ASet false [CChar ":"; CSpace]); Group 1 (Plus aDigit)].

(** [/skip[ped]*\s*[:\s]*(\d+)/i] *)
Definition skipRe : regex :=
  seqs [Lit "skip"; Star (ASet false [CChar "p"; CChar "e"; CChar "d"]); Star aSpace;
        Star (ASet false [CChar ":"; CSpace]); Group 1 (Plus aDigit)].

Section WithDom.
Context `{D : Dom}.

Variable now : nat -> string.

Definition nodeStatus (node : Element) (statusEl : option Element) : Status :=
  let status := Pass in
  let statusText :=
    match statusEl with
    | Some el => toLowerCase (textContent el)
    | None => EmptyString
    end in
  let nodeClasses := toLowerCase (className node) in
  if includes statusText "fail" || includes statusText "error" ||
     includes nodeClasses "fail" || includes nodeClasses "error"
  then Fail
  else if includes statusText "skip" || includes nodeClasses "skip"
  then Skip
  else status.

Record LogScan : Type := mkLogScan {
  scanLogs : list string;
  scanErrorMessage : string;
  scanStackTrace : string
}.

(** The callback of [logNodes.forEach] (lines 312 to 329). *)
Definition scanLog (status : Status) (st : LogScan) (log : Element) : LogScan :=
  let text := trim (textContent log) in
  if truthy text then
    let logs := scanLogs st ++ [text] in
    if Status_eqb status Fail then
      let stackTrace :=
        if includes text "Exception" || includes text "Error" || includes text "at "
        then (if negb (truthy (scanStackTrace st)) then text
              else (scanStackTrace st ++ String newline EmptyString ++ text)%string)
        else scanStackTrace st in
      let errorMessage :=
        if negb (truthy (scanErrorMessage st)) &&
           (includes text "AssertionError" || includes text "expected" ||
            includes text "Error:")
        then firstLine text
        else scanErrorMessage st in
      mkLogScan logs errorMessage stackTrace
    else mkLogScan logs (scanErrorMessage st) (scanStackTrace st)
  else st.

(** The callback of [testNodes.forEach] (lines 292 to 351). *)
Definition processNode (node : Element) (index : nat) : TestCase :=
  let nameEl := querySelector node ".test-name, .name, h5, .card-title" in
  let statusEl := querySelector node ".status, .badge, [class*='status']" in
  let logNodes := querySelectorAll node ".log, .step, pre, code" in
  let status := nodeStatus node statusEl in
  let scan := fold_left (scanLog status) logNodes (mkLogScan [] EmptyString EmptyString) in
  let durationText :=
    match querySelector node ".duration, .time, [class*='time']" with
    | Some durationEl => orElse (textContent durationEl) "0"
    | None => "0"
    end in
  let duration := parseDuration durationText in
  let className :=
    match querySelector node ".class-name, .category, .test-class" with
    | Some classNameEl => orElse (trim (textContent classNameEl)) "Unknown Class"
    | None => "Unknown Class"
    end in
  mkTestCase ("test-" ++ showNat (index + 1))%string
    (match nameEl with
     | Some el => orElse (trim (textContent el)) ("Test Case " ++ showNat (index + 1))
     | None => ("Test Case " ++ showNat (index + 1))%string
     end)
    className status duration
    (orUndefined (scanErrorMessage scan))
    (orUndefined (scanStackTrace scan))
    (nonEmpty (scanLogs scan))
    None None
    (Some (now index)).

(** [testNodes.forEach((node, index) => ...)], from index [index] on. *)
Fixpoint processNodes (testCases : list TestCase) (testNodes : list Element)
         (index : nat) : list TestCase :=
  match testNodes with
  | [] => testCases
  | node :: rest => processNodes (testCases ++ [processNode node index]) rest (S index)
  end.

Definition structuralPass (doc : Document) : list TestCase :=
  processNodes [] (docQuerySelectorAll doc ".test-content, .test, [data-test]") 0.

Definition countOf (re : regex) (bodyText : string) : N :=
  match search true re bodyText with
  | Some m => match capture 1 (groups m) with
              | Some digits => parseInt digits
              | None => 0%N
              end
  | None => 0%N
  end.

(** One of the three loops of lines 366 to 395: [count] summary records. *)
Definition summaryCases (count : nat) (idPrefix namePrefix : string) (st : Status)
           (errorMessage : option string) : list TestCase :=
  map (fun i =>
         mkTestCase (idPrefix ++ showNat (i + 1))%string
                    (namePrefix ++ showNat (i + 1))%string
                    "Parsed from summary" st 0%Q errorMessage
                    None None None None None)
      (seq 0 count).

(** The fallback on the summary counts (lines 354 to 396). *)
Definition summaryFallback (doc : Document) : list TestCase :=
  let bodyText :=
    match body doc with
    | Some b => textContent b
    | None => EmptyString
    end in
  let passCount := N.to_nat (countOf passRe bodyText) in
  let failCount := N.to_nat (countOf failRe bodyText) in
  let skipCount := N.to_nat (countOf skipRe bodyText) in
  summaryCases passCount "pass-" "Passed Test " Pass None ++
  summaryCases failCount "fail-" "Failed Test " Fail
               (Some "Error details not available from summary") ++
  summaryCases skipCount "skip-" "Skipped Test " Skip None.

(** [parseSparkExtentReport(htmlContent)] on the parsed document [doc]. *)
Definition parseSparkExtentReport (doc : Document) (htmlContent : string)
  : list TestCase :=
  let testCases := structuralPass doc in
  if (List.length testCases =? 0)%nat
  then testCases ++ summaryFallback doc
  else testCases.

End WithDom.
End ParseReportBasic.

(* ================================================================== *)
(** * A tree model of the DOM *)
(* ================================================================== *)

(** HTML documents as trees, with the selectors, the text and the
    serialisation that the parser asks of the browser.  Tag and attribute
    names are in lower case, as the HTML parser leaves them; class selectors
    compare case-sensitively (documents in no-quirks mode); [src] and [href]
    are the attribute values (absolute URLs resolve to themselves). *)
Module TreeDom.
Import Js.

#[warnings="-register-all"]
Inductive node : Type :=
| Elem (tag : string) (attrs : list (string * string)) (children : list node)
| Text (s : string)
| Comment (s : string).

(** What selectors look at in an element: its tag, its attributes and
    whether it is the first element child of its parent. *)
Record Info : Type := mkInfo {
  iTag : string;
  iAttrs : list (string * string);
  iFirst : bool
}.

(** An element in its document: its children and its ancestors, nearest
    first. *)
Record TElement : Type := mkTElement {
  info : Info;
  kids : list node;
  ancestors : list Info
}.

Definition isElem (n : node) : bool :=
  match n with Elem _ _ _ => true | _ => false end.

(** The elements of the subtree of [n], [n] included, in document order. *)
Fixpoint elementsOf (anc : list Info) (first : bool) (n : node) : list TElement :=
  match n with
  | Elem tag attrs children =>
      let me := mkInfo tag attrs first in
      mkTElement me children anc ::
      (fix go (ks : list node) (first : bool) : list TElement :=
         match ks with
         | [] => []
         | k :: ks' => elementsOf (me :: anc) first k ++ go ks' (first && negb (isElem k))
         end) children true
  | _ => []
  end.

(** The descendants of an element, in document order. *)
Fixpoint elementsOfList (anc : list Info) (first : bool) (ks : list node)
  : list TElement :=
  match ks with
  | [] => []
  | k :: ks' => elementsOf anc first k ++ elementsOfList anc (first && negb (isElem k)) ks'
  end.

Definition descendants (e : TElement) : list TElement :=
  elementsOfList (info e :: ancestors e) true (kids e).

Fixpoint getAttr (a : string) (attrs : list (string * string)) : option string :=
  match attrs with
  | [] => None
  | (k, v) :: rest => if String.eqb k a then Some v else getAttr a rest
  end.

(** ** Selectors *)

Inductive simple : Type :=
| STag (t : string)
| SClass (c : string)
| SAttrExists (a : string)
| SAttrEq (a v : string)
| SAttrContains (a v : string)
| SAttrPrefix (a v : string)
| SFirstChild.

Definition compound : Type := list simple.
(** Compounds joined by the descendant combinator, the subject last. *)
Definition complex : Type := list compound.

(** The white-space separated tokens of a class attribute. *)
Fixpoint tokens (cur : string) (s : string) : list string :=
  match s with
  | EmptyString => if truthy cur then [cur] else []
  | String c s' =>
      if isSpace c
      then (if truthy cur then [cur] else []) ++ tokens EmptyString s'
      else tokens (cur ++ String c EmptyString)%string s'
  end.

Definition matchSimple (i : Info) (s : simple) : bool :=
  match s with
  | STag t => String.eqb (toLowerCase t) (iTag i)
  | SClass c =>
      match getAttr "class" (iAttrs i) with
      | Some v => existsb (String.eqb c) (tokens EmptyString v)
      | None => false
      end
  | SAttrExists a =>
      match getAttr a (iAttrs i) with Some _ => true | None => false end
  | SAttrEq a v =>
      match getAttr a (iAttrs i) with Some w => String.eqb w v | None => false end
  | SAttrContains a v =>
      match getAttr a (iAttrs i) with
      | Some w => truthy v && includes w v
      | None => false
      end
  | SAttrPrefix a v =>
      match getAttr a (iAttrs i) with
      | Some w => truthy v && startsWith w v
      | None => false
      end
  | SFirstChild => iFirst i
  end.

Definition matchCompound (i : Info) (c : compound) : bool :=
  forallb (matchSimple i) c.

(** The compounds left of the subject, nearest first, against the
    ancestors, nearest first. *)
Fixpoint matchAncestors (cs : list compound) (anc : list Info) : bool :=
  match cs with
  | [] => true
  | c :: cs' =>
      (fix find (anc : list Info) : bool :=
         match anc with
         | [] => false
         | a :: anc' => if matchCompound a c then matchAncestors cs' anc' else find anc'
         end) anc
  end.

Definition matchComplex (e : TElement) (cx : complex) : bool :=
  match rev cx with
  | [] => false
  | subject :: outer => matchCompound (info e) subject && matchAncestors outer (ancestors e)
  end.

Definition matchSelector (e : TElement) (sel : list complex) : bool :=
  existsb (matchComplex e) sel.

(** ** Reading a selector string *)

Definition isIdentChar (c : ascii) : bool :=
  isDigit c || isUpper c || isLower c || Ascii.eqb c "-" || Ascii.eqb c "_".

Fixpoint readIdent (s : string) : string * string :=
  match s with
  | String c s' =>
      if isIdentChar c
      then let '(i, rest) := readIdent s' in (String c i, rest)
      else (EmptyString, s)
  | EmptyString => (EmptyString, s)
  end.

(** The text up to the closing quote [q], and what follows the quote. *)
Fixpoint readQuoted (q : ascii) (s : string) : option (string * string) :=
  match s with
  | String c s' =>
      if Ascii.eqb c q then Some (EmptyString, s')
      else match readQuoted q s' with
           | Some (v, rest) => Some (String c v, rest)
           | None => None
           end
  | EmptyString => None
  end.

Definition isQuote (c : ascii) : bool := Ascii.eqb c "'" || Ascii.eqb c dquote.

(** What follows the attribute name inside [[...]]. *)
Definition readAttrTail (a : string) (s : string) : option (simple * string) :=
  let value (mk : string -> simple) (s : string) :=
    match s with
    | String q s' =>
        if isQuote q then
          match readQuoted q s' with
          | Some (v, String "]" rest) => Some (mk v, rest)
          | _ => None
          end
        else None
    | EmptyString => None
    end in
  match s with
  | String "]" rest => Some (SAttrExists a, rest)
  | String "=" rest => value (SAttrEq a) rest
  | String "*" (String "=" rest) => value (SAttrContains a) rest
  | String "^" (String "=" rest) => value (SAttrPrefix a) rest
  | _ => None
  end.

(** The simple selectors of one compound, after an optional tag name. *)
Fixpoint readSimples (fuel : nat) (s : string) : option (compound * string) :=
  match fuel with
  | O => None
  | S fuel' =>
      match s with
      | String "." s' =>
          let '(c, rest) := readIdent s' in
          if truthy c then
            match readSimples fuel' rest with
            | Some (l, rest') => Some (SClass c :: l, rest')
            | None => None
            end
          else None
      | String "[" s' =>
          let '(a, rest) := readIdent s' in
          if truthy a then
            match readAttrTail a rest with
            | Some (x, rest') =>
                match readSimples fuel' rest' with
                | Some (l, rest'') => Some (x :: l, rest'')
                | None => None
                end
            | None => None
            end
          else None
      | String ":" s' =>
          let '(p, rest) := readIdent s' in
          if String.eqb p "first-child" then
            match readSimples fuel' rest with
            | Some (l, rest') => Some (SFirstChild :: l, rest')
            | None => None
            end
          else None
      | _ => Some ([], s)
      end
  end.

Definition readCompound (s : string) : option (compound * string) :=
  let '(t, rest) := readIdent s in
  match readSimples (S (String.length rest)) rest with
  | Some (l, rest') =>
      let c := if truthy t then STag t :: l else l in
      match c with [] => None | _ => Some (c, rest') end
  | None => None
  end.

(** Compounds separated by white space, up to a comma or the end. *)
Fixpoint readComplex (fuel : nat) (s : string) : option (complex * string) :=
  match fuel with
  | O => None
  | S fuel' =>
      match readCompound (trimStart s) with
      | Some (c, rest) =>
          match trimStart rest with
          | EmptyString => Some ([c], EmptyString)
          | String "," rest' => Some ([c], String "," rest')
          | more =>
              match readComplex fuel' more with
              | Some (cs, rest') => Some (c :: cs, rest')
              | None => None
              end
          end
      | None => None
      end
  end.

Fixpoint readList (fuel : nat) (s : string) : option (list complex) :=
  match fuel with
  | O => None
  | S fuel' =>
      match readComplex (S (String.length s)) s with
      | Some (cx, EmptyString) => Some [cx]
      | Some (cx, String "," rest) =>
          match readList fuel' rest with
          | Some l => Some (cx :: l)
          | None => None
          end
      | _ => None
      end
  end.

Definition readSelector (s : string) : option (list complex) :=
  readList (S (String.length s)) s.

(** The elements of [els] that the selector string matches; a string that
    is not a selector (the browser throws) selects nothing here. *)
Definition select (sel : string) (els : list TElement) : list TElement :=
  match readSelector sel with
  | Some l => filter (fun e => matchSelector e l) els
  | None => []
  end.

(** ** Text and serialisation *)

Fixpoint textOf (n : node) : string :=
  match n with
  | Elem _ _ children =>
      (fix go (ks : list node) : string :=
         match ks with
         | [] => EmptyString
         | k :: ks' => (textOf k ++ go ks')%string
         end) children
  | Text s => s
  | Comment _ => EmptyString
  end.

Fixpoint textOfList (ks : list node) : string :=
  match ks with
  | [] => EmptyString
  | k :: ks' => (textOf k ++ textOfList ks')%string
  end.

Fixpoint escape (inAttr : bool) (s : string) : string :=
  match s with
  | EmptyString => EmptyString
  | String c s' =>
      ((if Ascii.eqb c "&" then "&amp;"
        else if inAttr && Ascii.eqb c dquote then "&quot;"
        else if negb inAttr && Ascii.eqb c "<" then "&lt;"
        else if negb inAttr && Ascii.eqb c ">" then "&gt;"
        else String c EmptyString) ++ escape inAttr s')%string
  end.

Definition voidTags : list string :=
  ["area"; "base"; "br"; "col"; "embed"; "hr"; "img"; "input"; "link"; "meta";
   "source"; "track"; "wbr"].

Definition rawTextTags : list string :=
  ["style"; "script"; "xmp"; "iframe"; "noembed"; "noframes"; "plaintext"].

Definition memStr (x : string) (l : list string) : bool := existsb (String.eqb x) l.

Fixpoint serializeAttrs (attrs : list (string * string)) : string :=
  match attrs with
  | [] => EmptyString
  | (k, v) :: rest =>
      (" " ++ k ++ "=" ++ String dquote (escape true v) ++ String dquote EmptyString
       ++ serializeAttrs rest)%string
  end.

(** The HTML serialisation of a node; [raw] tells that the parent holds raw
    text. *)
Fixpoint serialize (raw : bool) (n : node) : string :=
  match n with
  | Elem tag attrs children =>
      ("<" ++ tag ++ serializeAttrs attrs ++ ">" ++
       (if memStr tag voidTags then EmptyString
        else
          (fix go (ks : list node) : string :=
             match ks with
             | [] => EmptyString
             | k :: ks' => serialize (memStr tag rawTextTags) k ++ go ks'
             end) children ++ "</" ++ tag ++ ">"))%string
  | Text s => if raw then s else escape false s
  | Comment s => ("<!--" ++ s ++ "-->")%string
  end.

Fixpoint serializeList (raw : bool) (ks : list node) : string :=
  match ks with
  | [] => EmptyString
  | k :: ks' => (serialize raw k ++ serializeList raw ks')%string
  end.

Definition attrOr (a : string) (e : TElement) : string :=
  match getAttr a (iAttrs (info e)) with Some v => v | None => EmptyString end.

(** A document is its root element. *)
Definition docElements (root : node) : list TElement := elementsOf [] true root.

(** The child elements of an element. *)
Fixpoint childElements (anc : list Info) (first : bool) (ks : list node)
  : list TElement :=
  match ks with
  | [] => []
  | Elem tag attrs children :: ks' =>
      mkTElement (mkInfo tag attrs first) children anc :: childElements anc false ks'
  | _ :: ks' => childElements anc first ks'
  end.

(** [document.body]: the first [body] child of the root element. *)
Definition docBody (root : node) : option TElement :=
  match root with
  | Elem tag attrs children =>
      hd_error (filter (fun e => String.eqb (iTag (info e)) "body")
                       (childElements [mkInfo tag attrs true] true children))
  | _ => None
  end.

#[export] Instance treeDom : Dom := {|
  Document := node;
  Element := TElement;
  docQuerySelectorAll := fun doc sel => select sel (docElements doc);
  body := docBody;
  querySelectorAll := fun e sel => select sel (descendants e);
  textContent := fun e => textOfList (kids e);
  className := attrOr "class";
  innerHTML := fun e => serializeList (memStr (iTag (info e)) rawTextTags) (kids e);
  src := fun e => if String.eqb (iTag (info e)) "img" then Some (attrOr "src" e) else None;
  href := fun e => if String.eqb (iTag (info e)) "a" then Some (attrOr "href" e) else None
|}.

End TreeDom.

(* ================================================================== *)
(** * JSON values *)
(* ================================================================== *)

Module Json.
Import Js.

#[warnings="-register-all"]
Inductive value : Type :=
| JNull
| JBool (b : bool)
| JNum (q : Q)
| JStr (s : string)
| JArr (items : list value)
| JObj (fields : list (string * value)).

Fixpoint lookup (key : string) (fields : list (string * value)) : option value :=
  match fields with
  | [] => None
  | (k, v) :: rest => if String.eqb k key then Some v else lookup key rest
  end.

(** [v.key] on a value that is neither [null] nor [undefined]; [None] is
    [undefined].  Only objects have named properties here. *)
Definition prop (v : value) (key : string) : option value :=
  match v with
  | JObj fields => lookup key fields
  | _ => None
  end.

(** [v?.key], [v] possibly [undefined]. *)
Definition optProp (v : option value) (key : string) : option value :=
  match v with
  | None | Some JNull => None
  | Some w => prop w key
  end.

(** [v?.[0]] *)
Definition optFirst (v : option value) : option value :=
  match v with
  | Some (JArr items) => hd_error items
  | Some (JStr (String c _)) => Some (JStr (String c EmptyString))
  | Some (JObj fields) => lookup "0" fields
  | _ => None
  end.

(** Truthiness of a value that may be [undefined]. *)
Definition truthy (v : option value) : bool :=
  match v with
  | None | Some JNull | Some (JBool false) | Some (JStr EmptyString) => false
  | Some (JNum q) => negb (Qeq_bool q 0)
  | Some _ => true
  end.

(** [v || d] *)
Definition orDefault (v : option value) (d : value) : value :=
  match v with
  | Some w => if truthy v then w else d
  | None => d
  end.

(** An object literal; properties whose value is [undefined] are left out,
    as [JSON.stringify] does. *)
Fixpoint object (fields : list (string * option value)) : value :=
  match fields with
  | [] => JObj []
  | (k, Some v) :: rest =>
      match object rest with
      | JObj l => JObj ((k, v) :: l)
      | other => other
      end
  | (_, None) :: rest => object rest
  end.

Definition ofOptString (s : option string) : option value := option_map JStr s.

Definition ofStrings (l : list string) : value := JArr (map JStr l).

Definition ofNat (n : nat) : value := JNum (inject_Z (Z.of_nat n)).

End Json.

(* ================================================================== *)
(** * The analyze-report handler *)
(* ================================================================== *)

Module AnalyzeReport.
Import Js Regex Json.
Local Open Scope string_scope.

Definition nl : string := String newline EmptyString.

(** [/```(?:json)?\s*([\s\S]*?)```/] *)
Definition fenceRe : regex :=
  seqs [Lit "```"; Opt (Lit "json"); Star aSpace;
        Group 1 (StarLazy (ASet false [CSpace; CNonSpace])); Lit "```"].

Record Payload : Type := mkPayload {
  testCases : option (list TestCase);   (* [None]: absent or not an array *)
  rawContent : option string
}.

Record Request : Type := mkRequest {
  method : string;
  payload : option Payload              (* [None]: line 25 throws, as [req.json()]
                                           rejects or the body is [null] *)
}.

Record GatewayResponse : Type := mkGatewayResponse {
  ok : bool;
  gatewayStatus : nat;
  gatewayJson : option value            (* [None]: [response.json()] throws *)
}.

Inductive Body : Type :=
| NoBody
| ErrorBody (message : string)          (* [{ error: message }] *)
| ThrownBody                            (* [{ error: error.message }] of a caught exception *)
| ResultBody (result : value).

Record Response : Type := mkResponse {
  responseStatus : nat;
  responseBody : Body
}.

Definition statusName (s : Status) : string :=
  match s with Pass => "pass" | Fail => "fail" | Skip => "skip" end.

Definition screenshotJson (s : Screenshot) : value :=
  JObj [("name", JStr (shotName s)); ("mimeType", JStr (mimeType s));
        ("base64Data", JStr (base64Data s))].

(** A submitted test case as it is written back into the response. *)
Definition testCaseJson (t : TestCase) : value :=
  object [("id", Some (JStr (id t))); ("name", Some (JStr (name t)));
          ("className", Some (JStr (className_ t)));
          ("status", Some (JStr (statusName (status t))));
          ("duration", Some (JNum (duration t)));
          ("errorMessage", ofOptString (errorMessage t));
          ("stackTrace", ofOptString (stackTrace t));
          ("logs", option_map ofStrings (logs t));
          ("stepsToReproduce", option_map ofStrings (stepsToReproduce t));
          ("screenshots", option_map (fun l => JArr (map screenshotJson l)) (screenshots t));
          ("timestamp", ofOptString (timestamp t))].

(** [s || d] on an optional string. *)
Definition strOr (s : option string) (d : string) : string :=
  match s with Some x => orElse x d | None => d end.

Definition hasStatus (s : Status) (t : TestCase) : bool := Status_eqb (status t) s.

Section Handler.

(** The platform: [JSON.parse] ([None] when it throws), the formatting
    [x.toFixed(1)], the value of [LOVABLE_API_KEY], the system prompt (a
    constant text) and [fetch] to the gateway, given the user prompt
    ([None] when it rejects). *)
Variable JSON_parse : string -> option value.
Variable toFixed1 : Q -> string.
Variable LOVABLE_API_KEY : option string.
Variable fetch : string -> option GatewayResponse.

Definition failureDetail (t : TestCase) : string :=
  nl ++ "Test: " ++ name t ++ nl ++
  "Class: " ++ className_ t ++ nl ++
  "Error: " ++ strOr (errorMessage t) "No error message" ++ nl ++
  "Stack Trace: " ++ strOr (stackTrace t) "No stack trace" ++ nl ++
  "Logs: " ++ strOr (option_map (join nl) (logs t)) "No logs" ++ nl.

Definition userPrompt (failedTests passedTests skippedTests : list TestCase)
           (rawContent : option string) : string :=
  let context (label : string) (n : nat) :=
    match rawContent with
    | Some raw => if Js.truthy raw then label ++ nl ++ substring0 n raw else EmptyString
    | None => EmptyString
    end in
  if (0 <? List.length failedTests)%nat
  then "Analyze these " ++ showNat (List.length failedTests) ++ " test failures:" ++
       nl ++ nl ++
       join (nl ++ "---" ++ nl) (map failureDetail failedTests) ++
       nl ++ nl ++
       context "Additional context from the report:" 5000 ++
       nl ++ nl ++
       "Provide a comprehensive root cause analysis for each failure."
  else "The test report shows " ++ showNat (List.length passedTests) ++
       " passed tests and " ++ showNat (List.length skippedTests) ++
       " skipped tests, with no failures. Provide recommendations for the skipped tests if any." ++
       nl ++ nl ++
       context "Context from the report:" 2000.

(** The [try] block of lines 163 to 170; [None] when it throws. *)
Definition tryParse (content : option value) : option value :=
  match content with
  | Some (JStr c) =>
      let jsonStr :=
        match search false fenceRe c with
        | Some m => match capture 1 (groups m) with
                    | Some g => trim g
                    | None => c
                    end
        | None => c
        end in
      JSON_parse jsonStr
  | _ => None
  end.

(** The fallback analysis of the [catch] block (lines 176 to 194). *)
Definition fallbackAnalysis (failedTests : list TestCase) : value :=
  JObj
    [("failures",
      JArr (map (fun t =>
                   JObj [("testId", JStr (id t));
                         ("rootCause",
                          JStr (strOr (errorMessage t)
                                      "Unable to determine root cause automatically"));
                         ("category", JStr "automation_script_defect");
                         ("confidence", JStr "low");
                         ("evidence",
                          JArr [JStr (strOr (errorMessage t) "No error message available")]);
                         ("suggestedFix",
                          JStr "Review the test implementation and logs manually")])
                failedTests));
     ("patterns", JArr []);
     ("recommendations",
      JArr [JObj [("priority", JStr "high");
                  ("title", JStr "Manual Review Required");
                  ("description",
                   JStr "AI analysis was unable to parse the failures completely. Manual review is recommended.");
                  ("actionItems",
                   JArr [JStr "Review each failure manually";
                         JStr "Check test logs for more context"])]])].

Definition sumDurations (testCases : list TestCase) : Q :=
  fold_left (fun sum t => Qplus sum (duration t)) testCases 0%Q.

(** The summary (lines 198 to 206). *)
Definition summaryOf (testCases passedTests failedTests skippedTests : list TestCase)
  : value :=
  let totalDuration := sumDurations testCases in
  JObj [("total", ofNat (List.length testCases));
        ("passed", ofNat (List.length passedTests));
        ("failed", ofNat (List.length failedTests));
        ("skipped", ofNat (List.length skippedTests));
        ("duration",
         JStr (if Qlt_le_dec 60 totalDuration
               then toFixed1 (Qdiv totalDuration 60) ++ "m"
               else toFixed1 totalDuration ++ "s"));
        ("passRate",
         JNum (if (0 <? List.length testCases)%nat
               then Qmult (Qdiv (inject_Z (Z.of_nat (List.length passedTests)))
                                (inject_Z (Z.of_nat (List.length testCases))))
                          100
               else 0%Q))].

Definition sameId (f : value) (t : TestCase) : bool :=
  match prop f "testId" with
  | Some (JStr s) => String.eqb (id t) s
  | _ => false
  end.

(** The callback of [analysisResult.failures.map] (lines 209 to 219);
    [None] when it throws. *)
Definition mapFailure (failedTests : list TestCase) (f : value) : option value :=
  match f with
  | JNull => None
  | _ =>
      let testCase :=
        match find (sameId f) failedTests with
        | Some t => Some t
        | None => hd_error failedTests
        end in
      Some (object [("testCase", option_map testCaseJson testCase);
                    ("rootCause", prop f "rootCause");
                    ("category", prop f "category");
                    ("confidence", prop f "confidence");
                    ("evidence", Some (orDefault (prop f "evidence") (JArr [])));
                    ("suggestedFix", prop f "suggestedFix")])
  end.

Fixpoint mapAll {A B : Type} (f : A -> option B) (l : list A) : option (list B) :=
  match l with
  | [] => Some []
  | x :: rest =>
      match f x, mapAll f rest with
      | Some y, Some ys => Some (y :: ys)
      | _, _ => None
      end
  end.

(** Lines 197 to 226: the response body from the analysis; [None] when a
    property access or [map] throws. *)
Definition buildResult (testCases : list TestCase) (analysisResult : value)
  : option value :=
  let failedTests := filter (hasStatus Fail) testCases in
  let skippedTests := filter (hasStatus Skip) testCases in
  let passedTests := filter (hasStatus Pass) testCases in
  match analysisResult with
  | JNull => None
  | _ =>
      match prop analysisResult "failures" with
      | Some (JArr failures) =>
          match mapAll (mapFailure failedTests) failures with
          | Some mappedFailures =>
              Some (JObj [("summary",
                           summaryOf testCases passedTests failedTests skippedTests);
                          ("failures", JArr mappedFailures);
                          ("patterns",
                           orDefault (prop analysisResult "patterns") (JArr []));
                          ("recommendations",
                           orDefault (prop analysisResult "recommendations") (JArr []))])
          | None => None
          end
      | _ => None
      end
  end.

Definition thrown : Response := mkResponse 500 ThrownBody.

(** The request handler passed to [serve]. *)
Definition handler (req : Request) : Response :=
  if String.eqb (method req) "OPTIONS" then mkResponse 200 NoBody
  else
    match payload req with
    | None => thrown
    | Some p =>
        match testCases p with
        | None => mkResponse 400 (ErrorBody "Test cases array is required")
        | Some tcs =>
            if negb (Js.truthy (strOr LOVABLE_API_KEY EmptyString))
            then mkResponse 500 (ErrorBody "AI service not configured")
            else
              let failedTests := filter (hasStatus Fail) tcs in
              let skippedTests := filter (hasStatus Skip) tcs in
              let passedTests := filter (hasStatus Pass) tcs in
              match fetch (userPrompt failedTests passedTests skippedTests (rawContent p)) with
              | None => thrown
              | Some response =>
                  if negb (ok response) then
                    if (gatewayStatus response =? 429)%nat
                    then mkResponse 429
                           (ErrorBody "Rate limit exceeded. Please try again in a moment.")
                    else if (gatewayStatus response =? 402)%nat
                    then mkResponse 402
                           (ErrorBody "AI credits exhausted. Please add credits to continue.")
                    else mkResponse 500 (ErrorBody "AI analysis failed")
                  else
                    match gatewayJson response with
                    | None | Some JNull => thrown
                    | Some aiResponse =>
                        let content :=
                          optProp (optProp (optFirst (prop aiResponse "choices"))
                                           "message") "content" in
                        let analysisResult :=
                          match tryParse content with
                          | Some parsed => parsed
                          | None => fallbackAnalysis failedTests
                          end in
                        match buildResult tcs analysisResult with
                        | Some result => mkResponse 200 (ResultBody result)
                        | None => thrown
                        end
                    end
              end
        end
    end.

End Handler.

(** A reader for the JSON literals [null], [true] and [false]: it is used to
    run the handler on replies that are no JSON text at all, which
    [JSON.parse] rejects. *)
Definition parseLiteral (s : string) : option value :=
  if String.eqb (trim s) "null" then Some JNull
  else if String.eqb (trim s) "true" then Some (JBool true)
  else if String.eqb (trim s) "false" then Some (JBool false)
  else None.

End AnalyzeReport.

(* ================================================================== *)
(** * Sample reports *)
(* ================================================================== *)

(** Small reports, each with its HTML text and the document the browser
    parses it to. *)
Module Samples.
Import TreeDom.

Definition page (bodyChildren : list node) : @Document treeDom :=
  Elem "html" [] [Elem "head" [] []; Elem "body" [] bodyChildren].

Definition clock : nat -> string := fun _ => "2024-01-01T00:00:00.000Z".

(** A summary line with the three counts. *)
Definition summaryLine : string := "Failed: 3, Passed: 7, Skipped: 2".

Definition summaryHtml : string :=
  "<html><head></head><body>Failed: 3, Passed: 7, Skipped: 2</body></html>".
Definition summaryDoc : @Document treeDom := page [Text summaryLine].

(** The summary line after another count. *)
Definition laterSummaryHtml : string :=
  "<html><head></head><body>Passed: 1. Failed: 3, Passed: 7, Skipped: 2</body></html>".
Definition laterSummaryDoc : @Document treeDom :=
  page [Text "Passed: 1. Failed: 3, Passed: 7, Skipped: 2"].

(** A report with neither test elements nor counts. *)
Definition plainHtml : string :=
  "<html><head></head><body>Nothing to report</body></html>".
Definition plainDoc : @Document treeDom := page [Text "Nothing to report"].

(** Two test elements, the first with a two-letter name. *)
Definition shortNameHtml : string :=
  "<html><head></head><body><div class='test'>ab</div><div class='test'>Login works</div></body></html>".
Definition shortNameDoc : @Document treeDom :=
  page [Elem "div" [("class", "test")] [Text "ab"];
        Elem "div" [("class", "test")] [Text "Login works"]].

(** Two test elements without failure: one logs a sentence with the word
    at, the other a step that starts with Assert. *)
Definition quietLogsHtml : string :=
  "<html><head></head><body><div class='test'><h5>Opens the page</h5><pre>look at this</pre></div><div class='test'><h5>Checks the title</h5><pre>Assert that the title is shown</pre></div></body></html>".
Definition quietLogsDoc : @Document treeDom :=
  page [Elem "div" [("class", "test")]
          [Elem "h5" [] [Text "Opens the page"]; Elem "pre" [] [Text "look at this"]];
        Elem "div" [("class", "test")]
          [Elem "h5" [] [Text "Checks the title"];
           Elem "pre" [] [Text "Assert that the title is shown"]]].

(** One [.test-content] element and, inside it, two [.node] elements. *)
Definition nestedHtml : string :=
  "<html><head></head><body><div class='test-content'><h5>Checkout suite</h5><div class='node'>Adds an item</div><div class='node'>Pays the order</div></div></body></html>".
Definition nestedDoc : @Document treeDom :=
  page [Elem "div" [("class", "test-content")]
          [Elem "h5" [] [Text "Checkout suite"];
           Elem "div" [("class", "node")] [Text "Adds an item"];
           Elem "div" [("class", "node")] [Text "Pays the order"]]].

(** No listed selector matches; one element has a status class. *)
Definition statusOnlyHtml : string :=
  "<html><head></head><body><p class='passed'>Login works</p></body></html>".
Definition statusOnlyDoc : @Document treeDom :=
  page [Elem "p" [("class", "passed")] [Text "Login works"]].

(** A lone element of a document, for the status classifier. *)
Definition lone (tag : string) (attrs : list (string * string)) (children : list node)
  : @Element treeDom :=
  mkTElement (mkInfo tag attrs true) children [mkInfo "body" [] false; mkInfo "html" [] true].

(** [<div class='test'>Login works <span class='badge badge-danger'>x</span></div>] *)
Definition dangerBadgeNode : @Element treeDom :=
  lone "div" [("class", "test")]
       [Text "Login works "; Elem "span" [("class", "badge badge-danger")] [Text "x"]].

(** [<div class='test fail'>Login <span class='badge'>PASSED</span></div>] *)
Definition passBadgeNode : @Element treeDom :=
  lone "div" [("class", "test fail")]
       [Text "Login "; Elem "span" [("class", "badge")] [Text "PASSED"]].

(** Requests to the handler: two submitted test cases, one of them failed. *)
Definition failedCase : TestCase :=
  mkTestCase "test-1" "Login works" "Test Suite" Fail 0%Q
             (Some "AssertionError: expected true") None None None None None.
Definition passedCase : TestCase :=
  mkTestCase "test-2" "Logout works" "Test Suite" Pass 0%Q None None None None None None.

Definition sampleRequest : AnalyzeReport.Request :=
  AnalyzeReport.mkRequest "POST"
    (Some (AnalyzeReport.mkPayload (Some [failedCase; passedCase]) None)).

(** A gateway reply whose message is prose, not JSON. *)
Definition proseReply : AnalyzeReport.GatewayResponse :=
  AnalyzeReport.mkGatewayResponse true 200
    (Some (Json.JObj
       [("choices",
         Json.JArr [Json.JObj
           [("message",
             Json.JObj [("content", Json.JStr "Sorry, I cannot analyse this report.")])]])])).

(** One decimal place by exact rounding of a non-negative rational, half
    up: the formatting used to run the handler on the samples. *)
Definition showDuration (x : Q) : string :=
  let n := Z.to_nat (Qfloor (Qplus (Qmult x 10) (Qmake 1 2))) in
  (Js.showNat (n / 10) ++ "." ++ Js.showNat (n mod 10))%string.

End Samples.

From Stdlib Require Import DecimalNat FinFun.

(* ================================================================== *)
(** * The raw content digest *)
(* ================================================================== *)

(** A DOM whose elements can be removed: [removeAll doc sel] is the document
    after [doc.querySelectorAll(sel).forEach(el => el.remove())]. *)
Class DomRemove `{D : Dom} : Type := {
  removeAll : Document -> string -> Document
}.

(** [extractRawContent] of the parser with steps and screenshots (lines 237
    to 281). *)
Module RawContent.
Import Js.

Definition nl : string := String newline EmptyString.

Section WithDom.
Context `{R : DomRemove}.

Definition mainSelectors : list string :=
  [".test-content"; ".report-content"; ".container"; ".card"; "table"; "main"; "body"].

(** [elements.forEach(el => { const text = el.textContent?.trim();
      if (text && text.length > minLength) texts.push(text); })] *)
Definition longTexts (minLength : nat) (elements : list Element) : list string :=
  filter (fun text => truthy text && (minLength <? String.length text)%nat)
         (map (fun el => trim (textContent el)) elements).

(** The loop over [mainSelectors]: it stops at the first selector that
    contributes a content area. *)
Fixpoint firstContentAreas (doc : Document) (sels : list string) : list string :=
  match sels with
  | [] => []
  | selector :: rest =>
      let elements := docQuerySelectorAll doc selector in
      if (0 <? List.length elements)%nat then
        let contentAreas := longTexts 50 elements in
        if (0 <? List.length contentAreas)%nat then contentAreas
        else firstContentAreas doc rest
      else firstContentAreas doc rest
  end.

(** [doc.body?.innerHTML?.substring(0, 15000) || ''] *)
#[warnings="-abstract-large-number"]
Definition htmlSnippet (doc : Document) : string :=
  match body doc with
  | Some b => orElse (substring0 15000 (innerHTML b)) EmptyString
  | None => EmptyString
  end.

Definition areaSeparator : string := (nl ++ nl ++ "---" ++ nl ++ nl)%string.

(** [extractRawContent(htmlContent)], [doc] being the parsed document. *)
Definition extractRawContent (doc : Document) (htmlContent : string) : string :=
  let doc := removeAll doc "script, style, link" in
  let contentAreas := firstContentAreas doc mainSelectors in
  (nl ++ "=== EXTRACTED TEXT CONTENT ===" ++ nl ++
   join areaSeparator (firstn 10 contentAreas) ++ nl ++
   nl ++ "=== HTML STRUCTURE (for reference) ===" ++ nl ++
   htmlSnippet doc ++ nl)%string.

End WithDom.
End RawContent.

(** [extractRawContent] of the parser without steps (lines 401 to 429). *)
Module RawContentBasic.
Import Js.

Section WithDom.
Context `{R : DomRemove}.

Definition testContainers : string :=
  ".test, .test-content, .card, [class*='test'], table tbody tr".

Definition extractRawContent (doc : Document) (htmlContent : string) : string :=
  let doc := removeAll doc "script, style" in
  match body doc with
  | None => htmlContent
  | Some b =>
      let sections := RawContent.longTexts 10 (querySelectorAll b testContainers) in
      if (0 <? List.length sections)%nat
      then join RawContent.areaSeparator sections
      else orElse (textContent b) htmlContent
  end.

End WithDom.
End RawContentBasic.

(** Removal in the tree model: the elements that the selector matches in
    the document go, with their subtrees; the root element stays. *)
Module TreeDomRemove.
Import Js TreeDom.

Fixpoint prune (sel : list complex) (anc : list Info) (first : bool) (n : node) : node :=
  match n with
  | Elem tag attrs children =>
      let me := mkInfo tag attrs first in
      Elem tag attrs
        ((fix go (ks : list node) (first : bool) : list node :=
            match ks with
            | [] => []
            | k :: ks' =>
                (match k with
                 | Elem t a c =>
                     if matchSelector (mkTElement (mkInfo t a first) c (me :: anc)) sel
                     then []
                     else [prune sel (me :: anc) first k]
                 | _ => [k]
                 end) ++ go ks' (first && negb (isElem k))
            end) children true)
  | _ => n
  end.

Definition removeMatching (doc : node) (sel : string) : node :=
  match readSelector sel with
  | Some l => prune l [] true doc
  | None => doc
  end.

#[export] Instance treeDomRemove : @DomRemove treeDom := {|
  removeAll := removeMatching
|}.

End TreeDomRemove.

(* ================================================================== *)
(** * The page that calls the parser *)
(* ================================================================== *)

(** The first stage of [handleFileSelect] (lines 24 to 51 of the page): the
    file content is parsed, the digest is extracted, a notice is shown when
    no test case was found, and the two are the body of the request to
    [analyze-report].  The page imports its two functions from
    [@/lib/parseReport]; they are parameters here, applied to the document
    the file content parses to. *)
Module IndexPage.

Record Submission : Type := mkSubmission {
  noticeShown : bool;                     (* the toast No test cases found *)
  request : AnalyzeReport.Request
}.

Section WithDom.
Context `{D : Dom}.
Variable parseSparkExtentReport : Document -> string -> list TestCase.
Variable extractRawContent : Document -> string -> string.

Definition prepareAnalysis (doc : Document) (content : string) : Submission :=
  let testCases := parseSparkExtentReport doc content in
  let rawContent := extractRawContent doc content in
  mkSubmission
    (List.length testCases =? 0)%nat
    (AnalyzeReport.mkRequest "POST"
       (Some (AnalyzeReport.mkPayload (Some testCases) (Some rawContent)))).

End WithDom.
End IndexPage.

(* ================================================================== *)
(** * What the handler receives *)
(* ================================================================== *)

(** Line 25 of the handler, [const { testCases, rawContent } = await
    req.json()], by what the request carries. *)
Module RequestBody.
Import AnalyzeReport.

Inductive Received : Type :=
| NotJson                       (* [req.json()] rejects *)
| NullBody                      (* the JSON text [null]: the destructuring throws *)
| JsonBody (p : Payload).       (* another JSON value, with the two properties read *)

Definition destructure (r : Received) : option Payload :=
  match r with
  | NotJson | NullBody => None
  | JsonBody p => Some p
  end.

Definition incoming (method : string) (r : Received) : Request :=
  mkRequest method (destructure r).

End RequestBody.

(* ================================================================== *)
(** * More sample reports *)
(* ================================================================== *)

Module MoreSamples.
Import TreeDom TreeDomRemove Samples.

(** A [.container] with a short text and a [table] with a long one. *)
Definition tableHtml : string :=
  "<html><head><style>td { color: red }</style></head><body><div class='container'>Report</div><table><tbody><tr><td>Login works and the dashboard is shown after the redirect to the home page</td></tr></tbody></table></body></html>".
Definition tableDoc : @Document treeDom :=
  Elem "html" []
    [Elem "head" [] [Elem "style" [] [Text "td { color: red }"]];
     Elem "body" []
       [Elem "div" [("class", "container")] [Text "Report"];
        Elem "table" []
          [Elem "tbody" []
             [Elem "tr" []
                [Elem "td" []
                   [Text "Login works and the dashboard is shown after the redirect to the home page"]]]]]].

(** Two inline images, the first with the class [screenshot], the second
    inside a [.media] element. *)
Definition galleryNode : @Element treeDom :=
  lone "div" [("class", "test")]
       [Elem "img" [("class", "screenshot"); ("src", "data:image/png;base64,QUJD")] [];
        Elem "div" [("class", "media")]
             [Elem "img" [("src", "data:image/jpeg;base64,WFla")] []]].

(** The MIME type and the payload of the images of [galleryNode]. *)
Definition galleryParts (img : @Element treeDom) : option (string * string) :=
  match src img with
  | Some s =>
      if Js.startsWith s "data:image/png" then Some ("image/png", "QUJD")
      else if Js.startsWith s "data:image/jpeg" then Some ("image/jpeg", "WFla")
      else None
  | None => None
  end.

(** [<div class='test'>Login works <span class='badge'>smoke</span>
    <span class='badge badge-danger'>x</span></div>], without the line break. *)
Definition twoBadgeNode : @Element treeDom :=
  lone "div" [("class", "test")]
       [Text "Login works "; Elem "span" [("class", "badge")] [Text "smoke"];
        Elem "span" [("class", "badge badge-danger")] [Text "x"]].

(** [<div class='test'><span class='test-name'> </span><h5>Login works</h5></div>] *)
Definition blankNameNode : @Element treeDom :=
  lone "div" [("class", "test")]
       [Elem "span" [("class", "test-name")] [Text " "];
        Elem "h5" [] [Text "Login works"]].

(** A gateway reply whose message is the JSON text [null]. *)
Definition nullReply : AnalyzeReport.GatewayResponse :=
  AnalyzeReport.mkGatewayResponse true 200
    (Some (Json.JObj
       [("choices",
         Json.JArr [Json.JObj
           [("message", Json.JObj [("content", Json.JStr "null")])]])])).

End MoreSamples.

(* ================================================================== *)
(** * Notions used in the statements that follow *)
(* ================================================================== *)

Module Notions.
Import Js Regex.

(** Every character of the text passes the test. *)
Fixpoint allChars (ok : ascii -> bool) (s : string) : bool :=
  match s with
  | EmptyString => true
  | String c s' => ok c && allChars ok s'
  end.

(** The text stops a repetition: it is empty or begins with a character
    that the repeated atom refuses. *)
Definition stops (ok : ascii -> bool) (s : string) : bool :=
  match s with
  | EmptyString => true
  | String c _ => negb (ok c)
  end.

(** A character other than the semicolon. *)
Definition notSemicolon (c : ascii) : bool := negb (Ascii.eqb ";" c).

(** A colon or a white space character: what may stand between a count
    label and its number. *)
Definition isColonOrSpace (c : ascii) : bool := Ascii.eqb ":" c || isSpace c.

(** A character other than the backtick. *)
Definition notBacktick (c : ascii) : bool := negb (Ascii.eqb "`" c).

Section WithDom.
Context `{D : Dom}.

(** What [parts] says of an image holds of its [src]: the image is inline,
    [data:<mime>;base64,<payload>] with a MIME type that begins with
    [image] and has no semicolon and a payload that is not empty and has
    no line terminator, or its [src] does not begin with [data:image]. *)
Definition describes (parts : Element -> option (string * string)) (img : Element)
  : Prop :=
  match parts img with
  | Some (mime, payload) =>
      src img = Some ("data:" ++ mime ++ ";base64," ++ payload)%string /\
      startsWith mime "image" = true /\
      allChars notSemicolon mime = true /\
      payload <> EmptyString /\
      allChars (fun c => negb (isLineTerminator c)) payload = true
  | None =>
      match src img with
      | Some s => startsWith s "data:image" = false
      | None => True
      end
  end.

(** The screenshot of the image [snd p], the match of index [fst p] of
    its selector, when [count] records exist. *)
Definition shotOf (count : nat) (parts : Element -> option (string * string))
           (p : nat * Element) : list Screenshot :=
  match parts (snd p) with
  | Some (mime, payload) =>
      [mkScreenshot
         ("screenshot-" ++ showNat (count + 1) ++ "-" ++ showNat (fst p + 1) ++ ".png")%string
         mime payload]
  | None => []
  end.

(** What the scan keeps true: a stack trace is one of the logs, an error
    message is the first line of one. *)
Definition scanSound (st : ParseReport.ErrorScan) : Prop :=
  (truthy (ParseReport.scanStackTrace st) = true -> In (ParseReport.scanStackTrace st) (ParseReport.scanLogs st)) /\
  (truthy (ParseReport.scanErrorMessage st) = true ->
   exists text, In text (ParseReport.scanLogs st) /\ ParseReport.scanErrorMessage st = firstLine text).

End WithDom.
End Notions.

(* ================================================================== *)
(** * Facts on strings and matching *)
(* ================================================================== *)

Unset Implicit Arguments.

Section StringFacts.
Import Js.

Lemma toLowerCase_app (a b : string) :
  toLowerCase (a ++ b) = (toLowerCase a ++ toLowerCase b)%string.
Proof.
  induction a as [|c a IH]; simpl; [reflexivity | now rewrite IH].
Qed.

Lemma startsWith_app_false (x : string) :
  forall kw y,
    x <> EmptyString ->
    startsWith x kw = false ->
    straddles y kw = false ->
    startsWith (x ++ y) kw = false.
Proof.
  induction x as [|a x IH]; intros kw y Hne Hx Hy; [congruence|].
  destruct kw as [|k kw]; [discriminate Hx|].
  simpl in *.
  destruct (Ascii.eqb k a); simpl in *; [|reflexivity].
  apply orb_false_elim in Hy as [Hy1 Hy2].
  destruct x as [|b x].
  - destruct kw as [|k' kw]; [discriminate Hx|].
    simpl in Hy1. exact Hy1.
  - apply IH; [discriminate | exact Hx | exact Hy2].
Qed.

End StringFacts.

Section MatchFacts.
Import Js Regex.

(** Matching literal text under the [i] flag. *)
Lemma rmatch_Lit (R : Type) (kw : string) :
  forall pos s caps (k : nat -> string -> captures -> option R),
    rmatch true (Lit kw) pos s caps k =
    if startsWith (toLowerCase s) (toLowerCase kw)
    then k (pos + String.length kw) (dropChars (String.length kw) s) caps
    else None.
Proof.
  induction kw as [|c kw IH]; intros pos s caps k.
  - simpl. rewrite Nat.add_0_r. destruct s; reflexivity.
  - destruct s as [|x s]; [reflexivity|].
    simpl. unfold charOk.
    destruct (Ascii.eqb (lowerChar c) (lowerChar x)); [|reflexivity].
    rewrite IH. simpl. rewrite Nat.add_succ_r. reflexivity.
Qed.

Lemma groups_shift (c : ascii) (m : option MatchResult) :
  option_map groups (option_map (shift c) m) = option_map groups m.
Proof. destruct m; reflexivity. Qed.

(** A regex that begins with the literal [kw] cannot match where the text
    does not begin with [kw]. *)
Lemma matchAt_keyword_None (kw : string) (r : regex) (s : string) :
  startsWith (toLowerCase s) (toLowerCase kw) = false ->
  matchAt true (Seq (Lit kw) r) s = None.
Proof.
  intros H. unfold matchAt. simpl. rewrite rmatch_Lit, H. reflexivity.
Qed.

(** The search passes over a prefix that does not contain the keyword. *)
Lemma search_skips_prefix (kw : string) (r : regex) (rest : string) :
  straddles (toLowerCase rest) (toLowerCase kw) = false ->
  forall pre,
    includes (toLowerCase pre) (toLowerCase kw) = false ->
    option_map groups (search true (Seq (Lit kw) r) (pre ++ rest)) =
    option_map groups (search true (Seq (Lit kw) r) rest).
Proof.
  intros Hrest pre. induction pre as [|c pre IH]; intros Hpre; [reflexivity|].
  simpl in Hpre. apply orb_false_elim in Hpre as [Hhere Hlater].
  change ((String c pre ++ rest)%string) with (String c (pre ++ rest)).
  cbn [search].
  rewrite matchAt_keyword_None.
  - rewrite groups_shift. apply IH. exact Hlater.
  - change (String c (pre ++ rest)) with ((String c pre ++ rest)%string).
    rewrite toLowerCase_app.
    apply startsWith_app_false; [discriminate | exact Hhere | exact Hrest].
Qed.

End MatchFacts.

(* ================================================================== *)
(** * The regex fallback *)
(* ================================================================== *)

Section FallbackFacts.
Import Js Regex ParseReport.
Context `{D : Dom}.
Variable now : nat -> string.

Lemma countOf_groups (re : regex) (s : string) (g : captures) :
  option_map groups (search true re s) = Some g ->
  countOf re s =
  match capture 1 g with Some digits => parseInt digits | None => 0%N end.
Proof.
  unfold countOf. destruct (search true re s) as [m|]; simpl; [|discriminate].
  intros H. injection H as ->. reflexivity.
Qed.

Lemma countOf_None (re : regex) (s : string) :
  search true re s = None -> countOf re s = 0%N.
Proof. unfold countOf. now intros ->. Qed.

(** The count read after a prefix without the keyword. *)
Lemma count_after_prefix (kw : string) (r : regex) (pre rest : string) (g : captures) :
  straddles (toLowerCase rest) (toLowerCase kw) = false ->
  includes (toLowerCase pre) (toLowerCase kw) = false ->
  option_map groups (search true (Seq (Lit kw) r) rest) = Some g ->
  countOf (Seq (Lit kw) r) (pre ++ rest) =
  match capture 1 g with Some digits => parseInt digits | None => 0%N end.
Proof.
  intros Hrest Hpre Hg. apply countOf_groups.
  rewrite (search_skips_prefix kw r rest Hrest pre Hpre). exact Hg.
Qed.

Lemma no_nodes_no_records (doc : Document) :
  selectTestNodes doc = [] -> structuralPass now doc = [].
Proof. unfold structuralPass. now intros ->. Qed.

Lemma summary_fail_count (pre post : string) :
  includes (toLowerCase pre) "fail" = false ->
  countOf failRe (pre ++ Samples.summaryLine ++ post) = 3%N.
Proof.
  intros H. unfold failRe. cbn [seqs].
  rewrite (@count_after_prefix "fail" _ pre _ [(1, "3")]); auto.
Qed.

Lemma summary_pass_count (pre post : string) :
  includes (toLowerCase pre) "pass" = false ->
  countOf passRe (pre ++ Samples.summaryLine ++ post) = 7%N.
Proof.
  intros H. unfold passRe. cbn [seqs].
  rewrite (@count_after_prefix "pass" _ pre _ [(1, "7")]); auto.
Qed.

Lemma summary_skip_count (pre post : string) :
  includes (toLowerCase pre) "skip" = false ->
  startsWithDigit post = false ->
  countOf skipRe (pre ++ Samples.summaryLine ++ post) = 2%N.
Proof.
  intros H Hpost. unfold skipRe. cbn [seqs].
  rewrite (@count_after_prefix "skip" _ pre _ [(1, "2")]); auto.
  destruct post as [|c post]; [vm_compute; reflexivity|].
  destruct c as [[] [] [] [] [] [] [] []]; try discriminate Hpost;
    vm_compute; reflexivity.
Qed.

Lemma empty_pass_falls_back (doc : Document) (htmlContent : string) :
  structuralPass now doc = [] ->
  parseSparkExtentReport now doc htmlContent = regexFallback doc htmlContent.
Proof. unfold parseSparkExtentReport. now intros ->. Qed.

(** C1 (amended).  When the cascade selects no node, the HTML text has no
    test-name token, and the body text contains
    [Failed: 3, Passed: 7, Skipped: 2] with no [pass], [fail] or [skip] (in
    any letter case) before it and no digit right after it, the parser
    returns exactly 12 records: 3 fail, then 2 skip, then 7 pass. *)
Theorem summary_line_gives_twelve_records
        (doc : Document) (htmlContent pre post : string) :
  selectTestNodes doc = [] ->
  bodyTextOf doc htmlContent =
  (pre ++ "Failed: 3, Passed: 7, Skipped: 2" ++ post)%string ->
  includes (toLowerCase pre) "pass" = false ->
  includes (toLowerCase pre) "fail" = false ->
  includes (toLowerCase pre) "skip" = false ->
  startsWithDigit post = false ->
  matchAll true testNameRe htmlContent = [] ->
  List.length (parseSparkExtentReport now doc htmlContent) = 12 /\
  map status (parseSparkExtentReport now doc htmlContent) =
  [Fail; Fail; Fail; Skip; Skip; Pass; Pass; Pass; Pass; Pass; Pass; Pass].
Proof.
  intros Hnodes Hbody Hpass Hfail Hskip Hpost Hnames.
  rewrite (empty_pass_falls_back doc htmlContent (no_nodes_no_records doc Hnodes)).
  unfold regexFallback. rewrite Hbody, Hnames.
  change "Failed: 3, Passed: 7, Skipped: 2" with Samples.summaryLine.
  rewrite (summary_pass_count pre post Hpass), (summary_fail_count pre post Hfail),
    (summary_skip_count pre post Hskip Hpost).
  split; reflexivity.
Qed.

(** C3.  When the structural pass yields no record, no count pattern
    matches the body text and no test-name token matches the HTML text, the
    parser returns exactly one record, a placeholder with status pass. *)
Theorem placeholder_when_nothing_matches (doc : Document) (htmlContent : string) :
  structuralPass now doc = [] ->
  search true passRe (bodyTextOf doc htmlContent) = None ->
  search true failRe (bodyTextOf doc htmlContent) = None ->
  search true skipRe (bodyTextOf doc htmlContent) = None ->
  matchAll true testNameRe htmlContent = [] ->
  parseSparkExtentReport now doc htmlContent =
  [mkTestCase "extracted-1" "Test Case 1" "Extracted from report" Pass 0%Q
              None None None None None None].
Proof.
  intros Hpass0 Hp Hf Hs Hnames.
  rewrite (empty_pass_falls_back doc htmlContent Hpass0).
  unfold regexFallback.
  rewrite (countOf_None _ _ Hp), (countOf_None _ _ Hf), (countOf_None _ _ Hs), Hnames.
  reflexivity.
Qed.

End FallbackFacts.

Section FallbackSamples.
Import Js Regex ParseReport Samples.

Lemma summary_line_gives_twelve_records_witness :
  selectTestNodes summaryDoc = [] /\
  bodyTextOf summaryDoc summaryHtml = "Failed: 3, Passed: 7, Skipped: 2" /\
  matchAll true testNameRe summaryHtml = [] /\
  List.length (parseSparkExtentReport clock summaryDoc summaryHtml) = 12 /\
  map status (parseSparkExtentReport clock summaryDoc summaryHtml) =
  [Fail; Fail; Fail; Skip; Skip; Pass; Pass; Pass; Pass; Pass; Pass; Pass].
Proof.
  split; [reflexivity|]. split; [reflexivity|]. split; [reflexivity|].
  apply (summary_line_gives_twelve_records clock summaryDoc summaryHtml
           EmptyString EmptyString); reflexivity.
Defined.

(** C1 as stated fails: the body text of this report contains the summary
    line after an earlier count, [Passed: 1], which is the one the pass
    pattern finds; six records come out. *)
Lemma summary_line_after_count_counterexample :
  ~ (forall (doc : @Document TreeDom.treeDom) (htmlContent : string),
        selectTestNodes doc = [] ->
        includes (bodyTextOf doc htmlContent) "Failed: 3, Passed: 7, Skipped: 2" = true ->
        matchAll true testNameRe htmlContent = [] ->
        map status (parseSparkExtentReport clock doc htmlContent) =
        [Fail; Fail; Fail; Skip; Skip; Pass; Pass; Pass; Pass; Pass; Pass; Pass]).
Proof.
  intros H.
  specialize (H laterSummaryDoc laterSummaryHtml eq_refl eq_refl eq_refl).
  vm_compute in H. discriminate H.
Qed.

Lemma placeholder_when_nothing_matches_witness :
  structuralPass clock plainDoc = [] /\
  parseSparkExtentReport clock plainDoc plainHtml =
  [mkTestCase "extracted-1" "Test Case 1" "Extracted from report" Pass 0%Q
              None None None None None None].
Proof.
  split; [reflexivity|].
  apply (placeholder_when_nothing_matches clock plainDoc plainHtml); reflexivity.
Defined.

End FallbackSamples.

(* ================================================================== *)
(** * The node selector cascade *)
(* ================================================================== *)

Section CascadeFacts.
Import Js ParseReport.
Context `{D : Dom}.

Lemma firstNonEmpty_first (doc : Document) (pre : list string) :
  forall sel post,
    Forall (fun s => docQuerySelectorAll doc s = []) pre ->
    docQuerySelectorAll doc sel <> [] ->
    firstNonEmpty doc (pre ++ sel :: post) = docQuerySelectorAll doc sel.
Proof.
  induction pre as [|s pre IH]; intros sel post Hpre Hsel; simpl.
  - destruct (docQuerySelectorAll doc sel); [congruence | reflexivity].
  - inversion Hpre as [|? ? Hs Hrest]; subst.
    rewrite Hs. simpl. apply IH; assumption.
Qed.

Lemma firstNonEmpty_none (doc : Document) (sels : list string) :
  Forall (fun s => docQuerySelectorAll doc s = []) sels ->
  firstNonEmpty doc sels = [].
Proof.
  induction 1 as [|s sels Hs _ IH]; simpl; [reflexivity|].
  rewrite Hs. exact IH.
Qed.

(** C7.  The cascade returns the nodes of the first listed selector that
    matches an element, whatever the later selectors match; when no listed
    selector matches, it returns the elements with a status-like class. *)
Theorem cascade_first_match_wins (doc : Document) :
  (forall pre sel post,
      selectors = pre ++ sel :: post ->
      Forall (fun s => docQuerySelectorAll doc s = []) pre ->
      docQuerySelectorAll doc sel <> [] ->
      selectTestNodes doc = docQuerySelectorAll doc sel) /\
  (Forall (fun s => docQuerySelectorAll doc s = []) selectors ->
   selectTestNodes doc =
   docQuerySelectorAll doc
     "[class*='pass'], [class*='fail'], [class*='skip'], [class*='error']").
Proof.
  split.
  - intros pre sel post Hsel Hpre Hne. unfold selectTestNodes.
    rewrite Hsel, (firstNonEmpty_first doc pre sel post Hpre Hne).
    destruct (docQuerySelectorAll doc sel); [congruence | reflexivity].
  - intros Hnone. unfold selectTestNodes.
    rewrite (firstNonEmpty_none doc selectors Hnone). reflexivity.
Qed.

End CascadeFacts.

Section CascadeSamples.
Import Js ParseReport Samples.

(** In the nested report [.test-content] matches one element and the later
    [.node] matches two: the cascade returns the one.  In the status-only
    report no listed selector matches. *)
Lemma cascade_first_match_wins_witness :
  (List.length (docQuerySelectorAll nestedDoc ".node") = 2 /\
   selectTestNodes nestedDoc = docQuerySelectorAll nestedDoc ".test-content" /\
   List.length (selectTestNodes nestedDoc) = 1) /\
  (selectTestNodes statusOnlyDoc =
   docQuerySelectorAll statusOnlyDoc
     "[class*='pass'], [class*='fail'], [class*='skip'], [class*='error']" /\
   List.length (selectTestNodes statusOnlyDoc) = 1).
Proof.
  split.
  - split; [reflexivity|].
    assert (H : selectTestNodes nestedDoc = docQuerySelectorAll nestedDoc ".test-content").
    { apply (proj1 (cascade_first_match_wins nestedDoc) [".test"] ".test-content"
                   (skipn 2 selectors)).
      - reflexivity.
      - repeat constructor.
      - vm_compute. discriminate. }
    split; [exact H | rewrite H; reflexivity].
  - assert (H : selectTestNodes statusOnlyDoc =
                docQuerySelectorAll statusOnlyDoc
                  "[class*='pass'], [class*='fail'], [class*='skip'], [class*='error']").
    { apply (proj2 (cascade_first_match_wins statusOnlyDoc)).
      repeat constructor. }
    split; [exact H | rewrite H; reflexivity].
Defined.

End CascadeSamples.

(* ================================================================== *)
(** * The status classifier *)
(* ================================================================== *)

Section StatusFacts.
Import Js ParseReport.
Context `{D : Dom}.

(** C2 (amended).  A node whose whole-node evidence gives pass and whose
    status badge, the first element of the node that matches the badge
    selector, carries [fail] in its text or class (or the class [danger])
    is classified fail. *)
Theorem badge_fail_overrides_pass (node badge : Element) :
  wholeNodeStatus node = Pass ->
  querySelector node ".status, .badge, [class*='status'], .test-status" = Some badge ->
  includes (toLowerCase (textContent badge)) "fail" = true \/
  includes (toLowerCase (className badge)) "fail" = true \/
  includes (toLowerCase (className badge)) "danger" = true ->
  classifyStatus node = Fail.
Proof.
  intros _ Hbadge Hfail. unfold classifyStatus, statusBadgeSelector.
  rewrite Hbadge. unfold badgeStatus.
  destruct Hfail as [H | [H | H]]; rewrite H; simpl;
    rewrite ?orb_true_r; reflexivity.
Qed.

(** C10.  The badge stage returns the verdict it was given, or fail, or
    skip: it never turns a verdict into pass.  A node that is fail as a whole
    and whose badge carries no fail or skip indicator stays fail. *)
Theorem badge_stage_never_passes :
  (forall (status : Status) (statusEl : option Element),
      (badgeStatus status statusEl = status \/
       badgeStatus status statusEl = Fail \/
       badgeStatus status statusEl = Skip) /\
      (badgeStatus status statusEl = Pass -> status = Pass)) /\
  (forall (node badge : Element),
      wholeNodeStatus node = Fail ->
      querySelector node ".status, .badge, [class*='status'], .test-status" = Some badge ->
      includes (toLowerCase (textContent badge)) "fail" = false ->
      includes (toLowerCase (className badge)) "fail" = false ->
      includes (toLowerCase (className badge)) "danger" = false ->
      includes (toLowerCase (textContent badge)) "skip" = false ->
      includes (toLowerCase (className badge)) "skip" = false ->
      includes (toLowerCase (className badge)) "warning" = false ->
      classifyStatus node = Fail).
Proof.
  split.
  - intros status [el|]; simpl; [|split; [left; reflexivity | trivial]].
    destruct (includes (toLowerCase (textContent el)) "fail" ||
              includes (toLowerCase (className el)) "fail" ||
              includes (toLowerCase (className el)) "danger").
    + split; [right; left; reflexivity | discriminate].
    + destruct (includes (toLowerCase (textContent el)) "skip" ||
                includes (toLowerCase (className el)) "skip" ||
                includes (toLowerCase (className el)) "warning").
      * split; [right; right; reflexivity | discriminate].
      * split; [left; reflexivity | trivial].
  - intros node badge Hwhole Hbadge Hf1 Hf2 Hf3 Hs1 Hs2 Hs3.
    unfold classifyStatus, statusBadgeSelector. rewrite Hbadge, Hwhole.
    unfold badgeStatus. rewrite Hf1, Hf2, Hf3, Hs1, Hs2, Hs3. reflexivity.
Qed.

End StatusFacts.

Section StatusSamples.
Import Js ParseReport Samples.

Lemma badge_fail_overrides_pass_witness :
  wholeNodeStatus dangerBadgeNode = Pass /\ classifyStatus dangerBadgeNode = Fail.
Proof.
  split; [reflexivity|].
  destruct (querySelector dangerBadgeNode
              ".status, .badge, [class*='status'], .test-status") as [badge|] eqn:Hq;
    [|discriminate Hq].
  apply (badge_fail_overrides_pass dangerBadgeNode badge); [reflexivity | exact Hq |].
  injection Hq as <-. right; right; reflexivity.
Defined.

Lemma badge_stage_never_passes_witness :
  wholeNodeStatus passBadgeNode = Fail /\ classifyStatus passBadgeNode = Fail.
Proof.
  split; [reflexivity|].
  destruct (querySelector passBadgeNode
              ".status, .badge, [class*='status'], .test-status") as [badge|] eqn:Hq;
    [|discriminate Hq].
  apply (proj2 badge_stage_never_passes passBadgeNode badge);
    try reflexivity; try exact Hq; injection Hq as <-; reflexivity.
Defined.

End StatusSamples.

(* ================================================================== *)
(** * The structural pass *)
(* ================================================================== *)

Section StructuralFacts.
Import Js ParseReport.
Context `{D : Dom}.

Lemma processNodes_entries (now : nat -> string) (testNodes : list Element) :
  forall testCases index,
    map summaryOfCase (processNodes now testCases testNodes index) =
    map summaryOfCase testCases ++
    map entryOf (filter kept (combine (seq index (List.length testNodes)) testNodes)).
Proof.
  induction testNodes as [|node rest IH]; intros testCases index; simpl.
  - now rewrite app_nil_r.
  - rewrite IH. unfold processNode, kept at 2. simpl.
    destruct (meaningfulName (extractName node index)); simpl.
    + rewrite map_app, <- app_assoc. reflexivity.
    + reflexivity.
Qed.

(** C5 (amended).  The structural pass yields one record for every node of
    the cascade whose name is meaningful (more than two characters), and
    none for the others; the records follow the document order of their
    nodes and carry the position of their node in their id. *)
Theorem structural_pass_keeps_named_nodes (now : nat -> string) (doc : Document) :
  map summaryOfCase (structuralPass now doc) =
  map entryOf (filter kept (indexed (selectTestNodes doc))) /\
  List.length (structuralPass now doc) =
  List.length (filter kept (indexed (selectTestNodes doc))).
Proof.
  assert (H : map summaryOfCase (structuralPass now doc) =
              map entryOf (filter kept (indexed (selectTestNodes doc)))).
  { unfold structuralPass. rewrite processNodes_entries. reflexivity. }
  split; [exact H|].
  rewrite <- (length_map summaryOfCase), H, length_map. reflexivity.
Qed.

Lemma processNodes_clock (now1 now2 : nat -> string) (testNodes : list Element) :
  forall acc1 acc2 index,
    map withoutTimestamp acc1 = map withoutTimestamp acc2 ->
    map withoutTimestamp (processNodes now1 acc1 testNodes index) =
    map withoutTimestamp (processNodes now2 acc2 testNodes index).
Proof.
  induction testNodes as [|node rest IH]; intros acc1 acc2 index Hacc; simpl.
  - exact Hacc.
  - apply IH. unfold processNode.
    assert (Hlen : List.length acc1 = List.length acc2).
    { rewrite <- (length_map withoutTimestamp acc1), Hacc. apply length_map. }
    rewrite Hlen.
    destruct (meaningfulName (extractName node index)); [|exact Hacc].
    rewrite !map_app, Hacc. reflexivity.
Qed.

Lemma kept_index_bound (testNodes : list Element) (p : nat * Element) :
  In p (filter kept (indexed testNodes)) -> fst p < List.length testNodes.
Proof.
  intros Hin. apply filter_In in Hin as [Hin _].
  destruct p as [i node]. unfold indexed in Hin.
  apply in_combine_l in Hin. apply in_seq in Hin. simpl. lia.
Qed.

(** C6.  Two runs of the parser on the same document, whatever the clock
    shows, return lists of the same length that agree on every field but the
    timestamp; the id of a record of the structural pass is the position of
    its node. *)
Theorem parse_deterministic_up_to_timestamps
        (now1 now2 : nat -> string) (doc : Document) (htmlContent : string) :
  map withoutTimestamp (parseSparkExtentReport now1 doc htmlContent) =
  map withoutTimestamp (parseSparkExtentReport now2 doc htmlContent) /\
  List.length (parseSparkExtentReport now1 doc htmlContent) =
  List.length (parseSparkExtentReport now2 doc htmlContent) /\
  (forall t, In t (structuralPass now1 doc) ->
             exists i, i < List.length (selectTestNodes doc) /\
                       id t = ("test-" ++ showNat (i + 1))%string).
Proof.
  assert (Hs : map withoutTimestamp (structuralPass now1 doc) =
               map withoutTimestamp (structuralPass now2 doc)).
  { unfold structuralPass. apply processNodes_clock. reflexivity. }
  assert (Hlen : List.length (structuralPass now1 doc) =
                 List.length (structuralPass now2 doc)).
  { rewrite <- (length_map withoutTimestamp (structuralPass now1 doc)), Hs.
    apply length_map. }
  assert (H : map withoutTimestamp (parseSparkExtentReport now1 doc htmlContent) =
              map withoutTimestamp (parseSparkExtentReport now2 doc htmlContent)).
  { unfold parseSparkExtentReport. rewrite Hlen.
    destruct (List.length (structuralPass now2 doc) =? 0)%nat; [|exact Hs].
    rewrite !map_app, Hs. reflexivity. }
  split; [exact H|]. split.
  - rewrite <- (length_map withoutTimestamp (parseSparkExtentReport now1 doc htmlContent)), H.
    apply length_map.
  - intros t Hin.
    apply (in_map summaryOfCase) in Hin.
    unfold structuralPass in Hin. rewrite processNodes_entries in Hin.
    simpl in Hin. fold (indexed (selectTestNodes doc)) in Hin.
    apply in_map_iff in Hin as [p [Hp Hin]].
    exists (fst p). split; [exact (kept_index_bound _ _ Hin)|].
    unfold summaryOfCase, entryOf in Hp. congruence.
Qed.

End StructuralFacts.

Section StructuralSamples.
Import Js ParseReport Samples.

(** C5 as stated fails: the cascade selects both [.test] elements of this
    report, and the first, whose name is [ab], yields no record. *)
Lemma short_name_counterexample :
  ~ (forall doc : @Document TreeDom.treeDom,
        List.length (structuralPass clock doc) = List.length (selectTestNodes doc)).
Proof.
  intros H. specialize (H shortNameDoc). vm_compute in H. discriminate H.
Qed.

(** C4, at a report without failure.  Both records have status pass; the
    first carries a stack trace and the second an error message as well,
    taken from log text with the words at and Assert. *)
Theorem quiet_logs_carry_error_fields :
  map (fun t => (status t, errorMessage t, stackTrace t))
      (parseSparkExtentReport clock quietLogsDoc quietLogsHtml) =
  [(Pass, None, Some "look at this");
   (Pass, Some "Assert that the title is shown", Some "Assert that the title is shown")].
Proof. vm_compute. reflexivity. Qed.

(** C8.  The two parsers differ on the report that holds the summary line:
    one returns the failed records first, the other the passed ones. *)
Theorem parser_variants_differ :
  exists (doc : @Document TreeDom.treeDom) (htmlContent : string),
    forall now1 now2 : nat -> string,
      map withoutTimestamp (ParseReport.parseSparkExtentReport now1 doc htmlContent) <>
      map withoutTimestamp (ParseReportBasic.parseSparkExtentReport now2 doc htmlContent).
Proof.
  exists summaryDoc, summaryHtml. intros now1 now2 H.
  vm_compute in H. discriminate H.
Qed.

End StructuralSamples.

(* ================================================================== *)
(** * The variant without steps: error details of failed tests only *)
(* ================================================================== *)

Section BasicFacts.
Import Js ParseReportBasic.
Context `{D : Dom}.

Lemma scanLog_quiet (st : Status) (logNodes : list Element) :
  st <> Fail ->
  forall scan,
    scanErrorMessage scan = EmptyString ->
    scanStackTrace scan = EmptyString ->
    scanErrorMessage (fold_left (scanLog st) logNodes scan) = EmptyString /\
    scanStackTrace (fold_left (scanLog st) logNodes scan) = EmptyString.
Proof.
  intros Hst. induction logNodes as [|logEl rest IH]; intros scan He Hs; simpl.
  - split; assumption.
  - apply IH; unfold scanLog;
      destruct (truthy (trim (textContent logEl))); try assumption;
      destruct st; simpl; congruence.
Qed.

Lemma processNode_quiet (now : nat -> string) (node : Element) (index : nat) :
  status (processNode now node index) <> Fail ->
  errorMessage (processNode now node index) = None /\
  stackTrace (processNode now node index) = None.
Proof.
  unfold processNode. simpl. intros Hst.
  destruct (scanLog_quiet _ (querySelectorAll node ".log, .step, pre, code") Hst
              (mkLogScan [] EmptyString EmptyString) eq_refl eq_refl) as [He Hs].
  rewrite He, Hs. split; reflexivity.
Qed.

Lemma processNodes_quiet (now : nat -> string) (testNodes : list Element) :
  forall testCases index,
    Forall (fun t => status t <> Fail -> errorMessage t = None /\ stackTrace t = None)
           testCases ->
    Forall (fun t => status t <> Fail -> errorMessage t = None /\ stackTrace t = None)
           (processNodes now testCases testNodes index).
Proof.
  induction testNodes as [|node rest IH]; intros testCases index Hacc; simpl.
  - exact Hacc.
  - apply IH. apply Forall_app. split; [exact Hacc|].
    constructor; [|constructor]. apply processNode_quiet.
Qed.

(** In this variant error details are kept for failed tests only. *)
Lemma basic_error_fields_only_on_fail
      (now : nat -> string) (doc : Document) (htmlContent : string) :
  Forall (fun t => status t <> Fail -> errorMessage t = None /\ stackTrace t = None)
         (parseSparkExtentReport now doc htmlContent).
Proof.
  assert (Hs : Forall (fun t => status t <> Fail ->
                                errorMessage t = None /\ stackTrace t = None)
                      (structuralPass now doc)).
  { unfold structuralPass. apply processNodes_quiet. constructor. }
  unfold parseSparkExtentReport.
  destruct (List.length (structuralPass now doc) =? 0)%nat; [|exact Hs].
  apply Forall_app. split; [exact Hs|].
  unfold summaryFallback, summaryCases.
  repeat (apply Forall_app; split); apply Forall_map, Forall_forall;
    intros i _ Hst; simpl in *; try (split; reflexivity); congruence.
Qed.

End BasicFacts.

(* ================================================================== *)
(** * The analyze-report handler on a reply that is not JSON *)
(* ================================================================== *)

Section HandlerFacts.
Import Js Json AnalyzeReport.
Local Open Scope string_scope.

Variable JSON_parse : string -> option value.
Variable toFixed1 : Q -> string.
Variable LOVABLE_API_KEY : option string.
Variable fetch : string -> option GatewayResponse.

(** Every entry of the fallback analysis is mapped to an entry of the
    response, with the same category and confidence. *)
Lemma mapAll_fallback (failedTests : list TestCase) (l : list TestCase) :
  exists entries,
    mapAll (mapFailure failedTests)
           (map (fun t =>
                   JObj [("testId", JStr (id t));
                         ("rootCause",
                          JStr (strOr (errorMessage t)
                                      "Unable to determine root cause automatically"));
                         ("category", JStr "automation_script_defect");
                         ("confidence", JStr "low");
                         ("evidence",
                          JArr [JStr (strOr (errorMessage t) "No error message available")]);
                         ("suggestedFix",
                          JStr "Review the test implementation and logs manually")])
                l) = Some entries /\
    Forall2 (fun t e =>
               prop e "category" = Some (JStr "automation_script_defect") /\
               prop e "confidence" = Some (JStr "low"))
            l entries.
Proof.
  induction l as [|t l [entries [Hmap Hall]]]; simpl.
  - exists []. split; [reflexivity | constructor].
  - rewrite Hmap.
    eexists. split; [reflexivity|].
    constructor; [|exact Hall].
    destruct (option_map testCaseJson _); simpl; split; reflexivity.
Qed.

(** C9.  A well-formed request whose gateway reply carries a message that
    the [try] block cannot turn into JSON gets a success response.  Its body
    is built from the submitted test cases alone: one failure entry per
    failed test, with category automation_script_defect and confidence low,
    no pattern, and the one fixed high-priority recommendation. *)
Theorem unparsable_reply_gets_fallback_analysis
        (req : Request) (p : Payload) (tcs : list TestCase)
        (response : GatewayResponse) (aiResponse : value) :
  String.eqb (method req) "OPTIONS" = false ->
  payload req = Some p ->
  testCases p = Some tcs ->
  Js.truthy (strOr LOVABLE_API_KEY EmptyString) = true ->
  fetch (userPrompt (filter (hasStatus Fail) tcs) (filter (hasStatus Pass) tcs)
                    (filter (hasStatus Skip) tcs) (rawContent p)) = Some response ->
  ok response = true ->
  gatewayJson response = Some aiResponse ->
  aiResponse <> JNull ->
  tryParse JSON_parse
           (optProp (optProp (optFirst (prop aiResponse "choices")) "message") "content")
  = None ->
  exists result entries,
    handler JSON_parse toFixed1 LOVABLE_API_KEY fetch req =
    mkResponse 200 (ResultBody result) /\
    buildResult toFixed1 tcs (fallbackAnalysis (filter (hasStatus Fail) tcs)) = Some result /\
    prop result "failures" = Some (JArr entries) /\
    Forall2 (fun t e =>
               prop e "category" = Some (JStr "automation_script_defect") /\
               prop e "confidence" = Some (JStr "low"))
            (filter (hasStatus Fail) tcs) entries /\
    prop result "patterns" = Some (JArr []) /\
    prop result "recommendations" =
    Some (JArr [JObj [("priority", JStr "high");
                      ("title", JStr "Manual Review Required");
                      ("description",
                       JStr "AI analysis was unable to parse the failures completely. Manual review is recommended.");
                      ("actionItems",
                       JArr [JStr "Review each failure manually";
                             JStr "Check test logs for more context"])]]).
Proof.
  intros Hmethod Hpayload Hcases Hkey Hfetch Hok Hjson Hnotnull Hparse.
  destruct (mapAll_fallback (filter (hasStatus Fail) tcs) (filter (hasStatus Fail) tcs))
    as [entries [Hmap Hall]].
  assert (Hbuild :
    buildResult toFixed1 tcs (fallbackAnalysis (filter (hasStatus Fail) tcs)) =
    Some (JObj [("summary",
                 summaryOf toFixed1 tcs (filter (hasStatus Pass) tcs)
                           (filter (hasStatus Fail) tcs) (filter (hasStatus Skip) tcs));
                ("failures", JArr entries);
                ("patterns", JArr []);
                ("recommendations",
                 JArr [JObj [("priority", JStr "high");
                             ("title", JStr "Manual Review Required");
                             ("description",
                              JStr "AI analysis was unable to parse the failures completely. Manual review is recommended.");
                             ("actionItems",
                              JArr [JStr "Review each failure manually";
                                    JStr "Check test logs for more context"])]])])).
  { unfold buildResult, fallbackAnalysis. cbn [prop lookup String.eqb Ascii.eqb Bool.eqb].
    simpl prop. unfold fallbackAnalysis in Hmap. rewrite Hmap. reflexivity. }
  eexists. exists entries. split; [|split; [exact Hbuild|]].
  - unfold handler. rewrite Hmethod, Hpayload, Hcases, Hkey. simpl negb. cbv iota.
    rewrite Hfetch, Hok, Hjson. simpl negb. cbv iota.
    rewrite Hparse, Hbuild.
    destruct aiResponse; try reflexivity. congruence.
  - repeat split; try reflexivity. exact Hall.
Qed.

End HandlerFacts.

Section HandlerSamples.
Import Js Json AnalyzeReport Samples.

Lemma unparsable_reply_gets_fallback_analysis_witness :
  exists result entries,
    handler parseLiteral showDuration (Some "key") (fun _ => Some proseReply) sampleRequest =
    mkResponse 200 (ResultBody result) /\
    prop result "failures" = Some (JArr entries) /\
    List.length entries = 1.
Proof.
  destruct (unparsable_reply_gets_fallback_analysis
              parseLiteral showDuration (Some "key"%string) (fun _ => Some proseReply)
              sampleRequest
              (mkPayload (Some [failedCase; passedCase]) None)
              [failedCase; passedCase] proseReply
              (JObj [("choices"%string,
                      JArr [JObj [("message"%string,
                                   JObj [("content"%string,
                                          JStr "Sorry, I cannot analyse this report.")])]])])
              eq_refl eq_refl eq_refl eq_refl eq_refl eq_refl eq_refl
              ltac:(discriminate) eq_refl)
    as [result [entries [Hresp [_ [Hfail [Hall _]]]]]].
  exists result, entries. split; [exact Hresp|]. split; [exact Hfail|].
  apply Forall2_length in Hall. symmetry. exact Hall.
Defined.

End HandlerSamples.

(* ================================================================== *)
(** * Further facts on the report parser *)
(* ================================================================== *)

Section ShowNatFacts.
Import Js.

Lemma showNat_injective (a b : nat) : showNat a = showNat b -> a = b.
Proof.
  unfold showNat. intros H.
  assert (Hu : Nat.to_uint a = Nat.to_uint b).
  { apply (f_equal NilEmpty.uint_of_string) in H.
    rewrite !NilEmpty.usu in H. congruence. }
  apply (f_equal Nat.of_uint) in Hu.
  rewrite !DecimalNat.Unsigned.of_to in Hu. exact Hu.
Qed.

Lemma append_injective (p a b : string) : (p ++ a = p ++ b)%string -> a = b.
Proof.
  induction p as [|c p IH]; simpl; intros H; [exact H|].
  injection H as H. exact (IH H).
Qed.

Lemma numbered_injective (p : string) (a b : nat) :
  (p ++ showNat (a + 1) = p ++ showNat (b + 1))%string -> a = b.
Proof.
  intros H. apply append_injective, showNat_injective in H. lia.
Qed.

Lemma NoDup_numbered (p : string) (l : list nat) :
  NoDup l -> NoDup (map (fun i => (p ++ showNat (i + 1))%string) l).
Proof.
  induction 1 as [|i l Hin _ IH]; simpl; constructor; [|exact IH].
  intros Hi. apply in_map_iff in Hi as [j [Hj Hjl]].
  apply numbered_injective in Hj. subst j. exact (Hin Hjl).
Qed.

End ShowNatFacts.

Section ListFacts.

Lemma map_const_seq {A : Type} (f : nat -> A) (x : A) (start len : nat) :
  (forall i, start <= i < start + len -> f i = x) ->
  map f (seq start len) = repeat x len.
Proof.
  revert start. induction len as [|len IH]; intros start H; simpl; [reflexivity|].
  rewrite H by lia. f_equal. apply IH. intros i Hi. apply H. lia.
Qed.

Lemma filter_keeps_distinct_keys {A B : Type} (key : A -> B) (keep : A -> bool) :
  forall xs : list A, NoDup (map key xs) -> NoDup (map key (filter keep xs)).
Proof.
  intros xs. induction xs as [|x xs IH]; intros Hnd; cbn [filter map] in *.
  - constructor.
  - inversion Hnd as [|? ? Hfresh Hrest]; subst.
    destruct (keep x); cbn [map]; [|exact (IH Hrest)].
    constructor; [|exact (IH Hrest)].
    intros Hx. apply Hfresh. apply in_map_iff in Hx as [y [Hy Hyl]].
    apply filter_In in Hyl as [Hyl _]. apply in_map_iff. exists y. split; assumption.
Qed.

Lemma map_fst_combine_seq {A : Type} (l : list A) (start : nat) :
  map fst (combine (seq start (List.length l)) l) = seq start (List.length l).
Proof.
  revert start. induction l as [|x l IH]; intros start; simpl; [reflexivity|].
  now rewrite IH.
Qed.

End ListFacts.

Section ParserInvariants.
Import Js Regex ParseReport.
Context `{D : Dom}.
Variable now : nat -> string.

(** A property of every record pushed by a node holds of every record of
    the structural pass. *)
Lemma processNodes_Forall (P : TestCase -> Prop) :
  (forall testCases node index,
      Forall P testCases -> Forall P (processNode now testCases node index)) ->
  forall testNodes testCases index,
    Forall P testCases -> Forall P (processNodes now testCases testNodes index).
Proof.
  intros Hstep testNodes. induction testNodes as [|node rest IH];
    intros testCases index Hacc; simpl; [exact Hacc|].
  apply IH, Hstep, Hacc.
Qed.

Lemma firstNonEmpty_nil_inv (doc : Document) (sels : list string) :
  firstNonEmpty doc sels = [] ->
  Forall (fun s => docQuerySelectorAll doc s = []) sels.
Proof.
  induction sels as [|s sels IH]; simpl; intros H; [constructor|].
  destruct (docQuerySelectorAll doc s) as [|n ns] eqn:Hs; simpl in H.
  - constructor; [exact Hs | exact (IH H)].
  - discriminate H.
Qed.

(** The cascade comes back empty exactly when no listed selector and no
    status-like class matches anything. *)
Theorem cascade_empty_iff (doc : Document) :
  selectTestNodes doc = [] <->
  Forall (fun s => docQuerySelectorAll doc s = []) selectors /\
  docQuerySelectorAll doc
    "[class*='pass'], [class*='fail'], [class*='skip'], [class*='error']" = [].
Proof.
  unfold selectTestNodes, statusIndicatorSelector. split.
  - intros H. destruct (firstNonEmpty doc selectors) as [|n ns] eqn:Hf; simpl in H.
    + split; [exact (firstNonEmpty_nil_inv doc selectors Hf) | exact H].
    + discriminate H.
  - intros [Hall Hstatus]. rewrite (firstNonEmpty_none doc selectors Hall). exact Hstatus.
Qed.

Lemma regexFallback_length (doc : Document) (htmlContent : string) :
  List.length (regexFallback doc htmlContent) =
  Nat.max (N.to_nat (countOf passRe (bodyTextOf doc htmlContent)) +
           N.to_nat (countOf failRe (bodyTextOf doc htmlContent)) +
           N.to_nat (countOf skipRe (bodyTextOf doc htmlContent)))
          (Nat.max (List.length (matchAll true testNameRe htmlContent)) 1).
Proof. unfold regexFallback. now rewrite length_map, length_seq. Qed.

Lemma parse_not_nil (doc : Document) (htmlContent : string) :
  parseSparkExtentReport now doc htmlContent <> [].
Proof.
  unfold parseSparkExtentReport.
  destruct (structuralPass now doc) as [|t ts] eqn:Hs; simpl; [|discriminate].
  intros H. apply (f_equal (@List.length TestCase)) in H.
  rewrite regexFallback_length in H. simpl in H. lia.
Qed.

(** The parser never returns the empty list. *)
Theorem parse_never_empty (doc : Document) (htmlContent : string) :
  parseSparkExtentReport now doc htmlContent <> [].
Proof. exact (parse_not_nil doc htmlContent). Qed.

(** The regex fallback in general: as many records as the larger of the
    sum of the three counts, the number of name tokens, and one; the first
    [failCount] are fail, the next [skipCount] skip, the others pass. *)
Theorem fallback_statuses (doc : Document) (htmlContent : string) :
  structuralPass now doc = [] ->
  let passCount := N.to_nat (countOf passRe (bodyTextOf doc htmlContent)) in
  let failCount := N.to_nat (countOf failRe (bodyTextOf doc htmlContent)) in
  let skipCount := N.to_nat (countOf skipRe (bodyTextOf doc htmlContent)) in
  let total := Nat.max (passCount + failCount + skipCount)
                       (Nat.max (List.length (matchAll true testNameRe htmlContent)) 1) in
  map status (parseSparkExtentReport now doc htmlContent) =
  repeat Fail failCount ++ repeat Skip skipCount ++
  repeat Pass (total - failCount - skipCount).
Proof.
  intros Hs passCount failCount skipCount total.
  rewrite (empty_pass_falls_back now doc htmlContent Hs).
  unfold regexFallback. rewrite map_map. cbn [status].
  fold passCount failCount skipCount total.
  assert (Hle : failCount + skipCount <= total) by (unfold total; lia).
  replace total with (failCount + (skipCount + (total - failCount - skipCount))) at 1 by lia.
  rewrite !seq_app, !map_app. f_equal; [|f_equal].
  - apply map_const_seq. intros i Hi. unfold fallbackStatus.
    destruct (Nat.ltb_spec i failCount); [reflexivity | lia].
  - apply map_const_seq. intros i Hi. unfold fallbackStatus.
    destruct (Nat.ltb_spec i failCount); [lia|].
    destruct (Nat.ltb_spec i (failCount + skipCount)); [reflexivity | lia].
  - apply map_const_seq. intros i Hi. unfold fallbackStatus.
    destruct (Nat.ltb_spec i failCount); [lia|].
    destruct (Nat.ltb_spec i (failCount + skipCount)); [lia | reflexivity].
Qed.

End ParserInvariants.

Section RecordInvariants.
Import Js Regex ParseReport.
Context `{D : Dom}.
Variable now : nat -> string.

Lemma fold_left_Forall {A B : Type} (P : A -> Prop) (f : list A -> B -> list A) :
  (forall acc x, Forall P acc -> Forall P (f acc x)) ->
  forall l init, Forall P init -> Forall P (fold_left f l init).
Proof.
  intros Hf l. induction l as [|x l IH]; intros init Hinit; simpl; [exact Hinit|].
  apply IH, Hf, Hinit.
Qed.

Lemma forEachMatch_Forall {A : Type} (P : A -> Prop) (f : list A -> Element -> list A)
      (node : Element) (sels : list string) (init : list A) :
  (forall acc x, Forall P acc -> Forall P (f acc x)) ->
  Forall P init -> Forall P (forEachMatch node sels f init).
Proof.
  intros Hf. unfold forEachMatch. revert init.
  induction sels as [|sel sels IH]; intros init Hinit; simpl; [exact Hinit|].
  apply IH, fold_left_Forall; assumption.
Qed.

Lemma orElse_truthy (s d : string) : d <> EmptyString -> orElse s d <> EmptyString.
Proof.
  intros Hd. unfold orElse. destruct s; simpl; [exact Hd | discriminate].
Qed.

Lemma fallbackName_nonempty (testNameMatches : list string) (i : nat) :
  fallbackName testNameMatches i <> EmptyString.
Proof.
  unfold fallbackName. destruct (nth_error testNameMatches i).
  - apply orElse_truthy. discriminate.
  - discriminate.
Qed.

Lemma meaningfulName_length (name : string) :
  meaningfulName name = true -> 2 < String.length name.
Proof.
  unfold meaningfulName. intros H. apply andb_prop in H as [_ H].
  now apply Nat.ltb_lt in H.
Qed.

(** Every record has a name: a record of the structural pass one of more
    than two characters, a record of the fallback a match or the placeholder
    [Test Case N]. *)
Theorem names_never_empty (doc : Document) (htmlContent : string) :
  Forall (fun t => name t <> EmptyString) (parseSparkExtentReport now doc htmlContent) /\
  Forall (fun t => 2 < String.length (name t)) (structuralPass now doc).
Proof.
  assert (Hs : Forall (fun t => 2 < String.length (name t)) (structuralPass now doc)).
  { unfold structuralPass. apply processNodes_Forall; [|constructor].
    intros testCases node index Hacc. unfold processNode.
    destruct (meaningfulName (extractName node index)) eqn:Hname; [|exact Hacc].
    apply Forall_app. split; [exact Hacc|].
    constructor; [|constructor]. simpl. exact (meaningfulName_length _ Hname). }
  split; [|exact Hs].
  assert (Hs' : Forall (fun t => name t <> EmptyString) (structuralPass now doc)).
  { generalize Hs. apply Forall_impl.
    intros t Ht Hn. rewrite Hn in Ht. simpl in Ht. lia. }
  unfold parseSparkExtentReport.
  destruct (List.length (structuralPass now doc) =? 0)%nat; [|exact Hs'].
  apply Forall_app. split; [exact Hs'|].
  unfold regexFallback. apply Forall_map, Forall_forall. intros i _. simpl.
  apply fallbackName_nonempty.
Qed.

Lemma structuralPass_ids (doc : Document) :
  map id (structuralPass now doc) =
  map (fun i => ("test-" ++ showNat (i + 1))%string)
      (map fst (filter kept (indexed (selectTestNodes doc)))).
Proof.
  unfold structuralPass.
  transitivity (map (fun x : string * string * Status => fst (fst x))
                    (map summaryOfCase (processNodes now [] (selectTestNodes doc) 0))).
  - rewrite map_map. reflexivity.
  - rewrite processNodes_entries. simpl. rewrite !map_map. reflexivity.
Qed.

Lemma parse_ids_NoDup (doc : Document) (htmlContent : string) :
  NoDup (map id (parseSparkExtentReport now doc htmlContent)).
Proof.
  assert (Hs : NoDup (map id (structuralPass now doc))).
  { rewrite structuralPass_ids. apply NoDup_numbered, filter_keeps_distinct_keys.
    unfold indexed. rewrite map_fst_combine_seq. apply seq_NoDup. }
  unfold parseSparkExtentReport.
  destruct (structuralPass now doc) as [|t ts] eqn:Hsp; simpl List.length; cbv iota;
    [|exact Hs].
  simpl. unfold regexFallback. rewrite map_map. simpl.
  apply (NoDup_numbered "extracted-"), seq_NoDup.
Qed.

(** The ids of the records are pairwise distinct. *)
Theorem ids_unique (doc : Document) (htmlContent : string) :
  NoDup (map id (parseSparkExtentReport now doc htmlContent)).
Proof. exact (parse_ids_NoDup doc htmlContent). Qed.

Lemma Qmake_nonneg (n : N) (d : positive) : (0 <= Qmake (Z.of_N n) d)%Q.
Proof. unfold Qle. simpl. lia. Qed.

Lemma parseDuration_nonneg (durationText : string) :
  (0 <= parseDuration durationText)%Q.
Proof.
  unfold parseDuration, parseFloat.
  destruct (readDigits 0 (removeAllChars false notNumeric durationText)) as [ip rest].
  destruct rest as [|c frac].
  - destruct (_ =? 0)%nat; simpl; [apply Qle_refl | apply Qmake_nonneg].
  - destruct (Ascii.ascii_dec c "."%char) as [->|Hc].
    + destruct (readDigits 0 frac) as [fp rest'].
      destruct (_ =? 0)%nat; [apply Qle_refl|].
      unfold orZero. rewrite Qred_correct.
      apply (Qplus_le_compat 0 _ 0 _); apply Qmake_nonneg.
    + assert (Hgoal : (0 <= orZero
               (if (countDigits (removeAllChars false notNumeric durationText) =? 0)%nat
                then None
                else Some (Qmake (Z.of_N ip) 1)))%Q).
      { destruct (_ =? 0)%nat; simpl; [apply Qle_refl | apply Qmake_nonneg]. }
      destruct c as [[] [] [] [] [] [] [] []]; try exact Hgoal; congruence.
Qed.

(** No record has a negative duration. *)
Theorem durations_never_negative (doc : Document) (htmlContent : string) :
  Forall (fun t => (0 <= duration t)%Q) (parseSparkExtentReport now doc htmlContent).
Proof.
  assert (Hs : Forall (fun t => (0 <= duration t)%Q) (structuralPass now doc)).
  { unfold structuralPass. apply processNodes_Forall; [|constructor].
    intros testCases node index Hacc. unfold processNode.
    destruct (meaningfulName (extractName node index)); [|exact Hacc].
    apply Forall_app. split; [exact Hacc|].
    constructor; [|constructor]. simpl. apply parseDuration_nonneg. }
  unfold parseSparkExtentReport.
  destruct (List.length (structuralPass now doc) =? 0)%nat; [|exact Hs].
  apply Forall_app. split; [exact Hs|].
  unfold regexFallback. apply Forall_map, Forall_forall. intros i _. simpl.
  apply Qle_refl.
Qed.

Lemma pushStep_bounds (limit : nat) (flag : bool) (steps : list string) (el : Element) :
  limit <= 500 ->
  Forall (fun s => 5 < String.length s < 500) steps ->
  Forall (fun s => 5 < String.length s < 500) (pushStep limit flag steps el).
Proof.
  intros Hlimit Hsteps. unfold pushStep.
  destruct (truthy (trim (textContent el)) &&
            (5 <? String.length (trim (textContent el)))%nat &&
            (String.length (trim (textContent el)) <? limit)%nat &&
            (negb flag || negb (includes (trim (textContent el)) "Exception"))) eqn:H;
    [|exact Hsteps].
  apply Forall_app. split; [exact Hsteps|]. constructor; [|constructor].
  apply andb_prop in H as [H _]. apply andb_prop in H as [H Hlt].
  apply andb_prop in H as [_ Hgt].
  apply Nat.ltb_lt in Hlt, Hgt. lia.
Qed.

Lemma extractSteps_bounds (node : Element) :
  Forall (fun s => 5 < String.length s < 500) (extractSteps node).
Proof.
  unfold extractSteps.
  assert (H : Forall (fun s => 5 < String.length s < 500)
                     (forEachMatch node stepSelectors (pushStep 500 false) [])).
  { apply forEachMatch_Forall; [|constructor].
    intros acc x. apply pushStep_bounds. lia. }
  destruct (List.length (forEachMatch node stepSelectors (pushStep 500 false) []) =? 0)%nat;
    [|exact H].
  apply fold_left_Forall; [|exact H].
  intros acc x. apply pushStep_bounds. lia.
Qed.

(** The steps to reproduce of a record, when present, are not empty and
    each step has more than 5 and fewer than 500 characters. *)
Theorem steps_within_bounds (doc : Document) (htmlContent : string) :
  Forall (fun t => forall steps,
              stepsToReproduce t = Some steps ->
              steps <> [] /\ Forall (fun s => 5 < String.length s < 500) steps)
         (parseSparkExtentReport now doc htmlContent).
Proof.
  assert (Hs : Forall (fun t => forall steps,
                          stepsToReproduce t = Some steps ->
                          steps <> [] /\ Forall (fun s => 5 < String.length s < 500) steps)
                      (structuralPass now doc)).
  { unfold structuralPass. apply processNodes_Forall; [|constructor].
    intros testCases node index Hacc. unfold processNode.
    destruct (meaningfulName (extractName node index)); [|exact Hacc].
    apply Forall_app. split; [exact Hacc|].
    constructor; [|constructor]. simpl. intros steps Hsteps.
    pose proof (extractSteps_bounds node) as Hb.
    destruct (extractSteps node) as [|s ss]; simpl in Hsteps; [discriminate|].
    injection Hsteps as <-. split; [discriminate | exact Hb]. }
  unfold parseSparkExtentReport.
  destruct (List.length (structuralPass now doc) =? 0)%nat; [|exact Hs].
  apply Forall_app. split; [exact Hs|].
  unfold regexFallback. apply Forall_map, Forall_forall. intros i _. simpl.
  intros steps H. discriminate H.
Qed.

End RecordInvariants.

Section ErrorScanFacts.
Import Js Regex ParseReport Notions.
Context `{D : Dom}.
Variable now : nat -> string.

Lemma scanErrorElement_sound (st : ErrorScan) (el : Element) :
  scanSound st -> scanSound (scanErrorElement st el).
Proof.
  intros [Hstack Herr]. unfold scanErrorElement.
  destruct (truthy (trim (textContent el))); [|split; assumption].
  split; cbn [scanStackTrace scanErrorMessage scanLogs].
  - destruct (includes _ "Exception" || includes _ "Error" || includes _ "at ").
    + destruct (truthy (scanStackTrace st)) eqn:Hs; simpl.
      * intros _. apply in_or_app. left. apply Hstack. reflexivity.
      * intros _. apply in_or_app. right. left. reflexivity.
    + intros H. apply in_or_app. left. exact (Hstack H).
  - destruct (negb (truthy (scanErrorMessage st)) && _) eqn:Hnew.
    + intros _. exists (trim (textContent el)). split; [|reflexivity].
      apply in_or_app. right. left. reflexivity.
    + intros H. destruct (Herr H) as [text [Hin Heq]].
      exists text. split; [|exact Heq]. apply in_or_app. left. exact Hin.
Qed.

Lemma fold_left_sound (els : list Element) :
  forall st, scanSound st -> scanSound (fold_left scanErrorElement els st).
Proof.
  induction els as [|el els IH]; intros st Hst; simpl; [exact Hst|].
  apply IH, scanErrorElement_sound, Hst.
Qed.

Lemma scanErrors_sound (node : Element) : scanSound (scanErrors node).
Proof.
  unfold scanErrors, forEachMatch.
  assert (H : forall sels st, scanSound st ->
              scanSound (fold_left (fun st sel =>
                                      fold_left scanErrorElement
                                                (querySelectorAll node sel) st) sels st)).
  { induction sels as [|sel sels IH]; intros st Hst; simpl; [exact Hst|].
    apply IH, fold_left_sound, Hst. }
  apply H. split; simpl; discriminate.
Qed.

Lemma pushScreenshotLink_keeps (links : list Element) :
  forall logs text, In text logs -> In text (fold_left pushScreenshotLink links logs).
Proof.
  induction links as [|link links IH]; intros logs text Hin; simpl; [exact Hin|].
  apply IH. unfold pushScreenshotLink.
  destruct (href link) as [h|]; [|exact Hin].
  destruct (truthy h && _); [|exact Hin].
  apply in_or_app. left. exact Hin.
Qed.

Lemma orUndefined_Some (s m : string) :
  orUndefined s = Some m -> s = m /\ truthy s = true.
Proof.
  unfold orUndefined. destruct (truthy s); [|discriminate].
  intros H. injection H as <-. split; reflexivity.
Qed.

Lemma nonEmpty_In {A : Type} (l : list A) (x : A) : In x l -> nonEmpty l = Some l.
Proof. destruct l; [contradiction | reflexivity]. Qed.

(** Error details come from the logs of the record: its stack trace is one
    of its logs, and its error message is the first line of one of them. *)
Theorem error_details_come_from_logs (doc : Document) (htmlContent : string) :
  Forall (fun t =>
            (forall trace, stackTrace t = Some trace ->
                           exists l, logs t = Some l /\ In trace l) /\
            (forall message, errorMessage t = Some message ->
                             exists l text, logs t = Some l /\ In text l /\
                                            message = firstLine text))
         (parseSparkExtentReport now doc htmlContent).
Proof.
  assert (Hs : Forall (fun t =>
            (forall trace, stackTrace t = Some trace ->
                           exists l, logs t = Some l /\ In trace l) /\
            (forall message, errorMessage t = Some message ->
                             exists l text, logs t = Some l /\ In text l /\
                                            message = firstLine text))
                      (structuralPass now doc)).
  { unfold structuralPass. apply processNodes_Forall; [|constructor].
    intros testCases node index Hacc. unfold processNode.
    destruct (meaningfulName (extractName node index)); [|exact Hacc].
    apply Forall_app. split; [exact Hacc|].
    constructor; [|constructor]. cbn [stackTrace errorMessage logs].
    destruct (scanErrors_sound node) as [Hstack Herr].
    set (links := querySelectorAll node _). split.
    - intros trace Htrace. apply orUndefined_Some in Htrace as [<- Ht].
      pose proof (pushScreenshotLink_keeps links _ _ (Hstack Ht)) as Hin.
      eexists. split; [exact (nonEmpty_In _ _ Hin) | exact Hin].
    - intros message Hmsg. apply orUndefined_Some in Hmsg as [<- Ht].
      destruct (Herr Ht) as [text [Hin Heq]].
      pose proof (pushScreenshotLink_keeps links _ _ Hin) as Hin'.
      eexists. exists text. split; [exact (nonEmpty_In _ _ Hin')|].
      split; [exact Hin' | exact Heq]. }
  unfold parseSparkExtentReport.
  destruct (List.length (structuralPass now doc) =? 0)%nat; [|exact Hs].
  apply Forall_app. split; [exact Hs|].
  unfold regexFallback. apply Forall_map, Forall_forall. intros i _.
  cbn [stackTrace errorMessage logs]. split; intros x H; discriminate H.
Qed.

End ErrorScanFacts.

Section ScreenshotFacts.
Import Js Regex ParseReport Notions.

Lemma substring0_app (a b : string) : substring0 (String.length a) (a ++ b) = a.
Proof.
  unfold substring0. induction a as [|c a IH]; simpl.
  - destruct b; reflexivity.
  - now rewrite IH.
Qed.

(** A greedy repetition runs to the end of the characters it accepts when
    what follows succeeds there. *)
Lemma starGreedy_run (R : Type) (ok : ascii -> bool) (a : string) :
  forall rest pos (k : nat -> string -> option R) r,
    allChars ok a = true ->
    stops ok rest = true ->
    k (pos + String.length a) rest = Some r ->
    starGreedy ok pos (a ++ rest) k = Some r.
Proof.
  induction a as [|c a IH]; intros rest pos k r Hall Hstop Hk; simpl in *.
  - rewrite Nat.add_0_r in Hk.
    destruct rest as [|x rest]; simpl; [exact Hk|].
    simpl in Hstop. apply negb_true_iff in Hstop. rewrite Hstop. exact Hk.
  - apply andb_prop in Hall as [Hc Hall]. rewrite Hc.
    rewrite (IH rest (S pos) k r Hall Hstop); [reflexivity|].
    rewrite <- Hk. f_equal. lia.
Qed.

(** A group of one or more characters captures the whole run. *)
Lemma rmatch_group_plus (R : Type) (ci : bool) (a : atom) (n : nat) (x rest : string)
      (pos : nat) (caps : captures) (k : nat -> string -> captures -> option R) (r : R) :
  x <> EmptyString ->
  allChars (atomOk ci a) x = true ->
  stops (atomOk ci a) rest = true ->
  k (pos + String.length x) rest ((n, x) :: caps) = Some r ->
  rmatch ci (Group n (Plus a)) pos (x ++ rest) caps k = Some r.
Proof.
  intros Hne Hall Hstop Hk. destruct x as [|c x]; [congruence|].
  simpl in Hall. apply andb_prop in Hall as [Hc Hall].
  cbn [rmatch Plus append]. rewrite Hc.
  apply starGreedy_run; [exact Hall | exact Hstop|].
  replace (S pos + String.length x - pos) with (S (String.length x)) by lia.
  change (substring0 (S (String.length x)) (String c (x ++ rest)))
    with (String c (substring0 (String.length x) (x ++ rest))).
  rewrite substring0_app. rewrite <- Hk. f_equal. simpl. lia.
Qed.

Lemma append_empty_r (s : string) : (s ++ EmptyString)%string = s.
Proof. induction s as [|c s IH]; simpl; [reflexivity | now rewrite IH]. Qed.

Lemma rmatch_group_plus_end (R : Type) (ci : bool) (a : atom) (n : nat) (x : string)
      (pos : nat) (caps : captures) (k : nat -> string -> captures -> option R) (r : R) :
  x <> EmptyString ->
  allChars (atomOk ci a) x = true ->
  k (pos + String.length x) EmptyString ((n, x) :: caps) = Some r ->
  rmatch ci (Group n (Plus a)) pos x caps k = Some r.
Proof.
  intros Hne Hall Hk.
  pose proof (rmatch_group_plus R ci a n x EmptyString pos caps k r Hne Hall eq_refl Hk) as H.
  rewrite append_empty_r in H. exact H.
Qed.

(** Matching literal text exactly. *)
Lemma rmatch_Lit_exact (R : Type) (kw : string) :
  forall pos s caps (k : nat -> string -> captures -> option R),
    rmatch false (Lit kw) pos (kw ++ s) caps k = k (pos + String.length kw) s caps.
Proof.
  induction kw as [|c kw IH]; intros pos s caps k; simpl.
  - now rewrite Nat.add_0_r.
  - unfold charOk. rewrite Ascii.eqb_refl, IH. f_equal. lia.
Qed.

Lemma atomOk_notSemicolon (c : ascii) :
  atomOk false (ASet true [CChar ";"]) c = notSemicolon c.
Proof.
  unfold atomOk, notSemicolon. cbn [existsb itemOk]. unfold charOk.
  destruct (Ascii.eqb ";" c); reflexivity.
Qed.

Lemma allChars_ext (f g : ascii -> bool) (s : string) :
  (forall c, f c = g c) -> allChars f s = allChars g s.
Proof. intros H. induction s as [|c s IH]; simpl; [reflexivity | now rewrite H, IH]. Qed.

Lemma rmatch_Seq (R : Type) (ci : bool) (r1 r2 : regex) (pos : nat) (s : string)
      (caps : captures) (k : nat -> string -> captures -> option R) :
  rmatch ci (Seq r1 r2) pos s caps k =
  rmatch ci r1 pos s caps (fun p1 s1 c1 => rmatch ci r2 p1 s1 c1 k).
Proof. reflexivity. Qed.

(** The captures of the data URI pattern on [data:<mime>;base64,<payload>]. *)
Lemma dataUri_groups (mime payload : string) :
  mime <> EmptyString -> payload <> EmptyString ->
  allChars notSemicolon mime = true ->
  allChars (fun c => negb (isLineTerminator c)) payload = true ->
  exists m,
    search false dataUriRe ("data:" ++ mime ++ ";base64," ++ payload) = Some m /\
    groups m = [(2, payload); (1, mime)].
Proof.
  intros Hm Hp Hmime Hpayload.
  assert (H : exists m,
             matchAt false dataUriRe ("data:" ++ mime ++ ";base64," ++ payload) = Some m /\
             groups m = [(2, payload); (1, mime)]).
  { eexists. split.
    - unfold matchAt, dataUriRe. cbn [seqs].
      rewrite rmatch_Seq, rmatch_Lit_exact, rmatch_Seq.
      apply rmatch_group_plus; [exact Hm | | reflexivity |].
      + rewrite (allChars_ext _ notSemicolon); [exact Hmime | apply atomOk_notSemicolon].
      + rewrite rmatch_Seq, rmatch_Lit_exact.
        apply rmatch_group_plus_end; [exact Hp | exact Hpayload |].
        reflexivity.
    - reflexivity. }
  destruct H as [m [Hmatch Hgroups]]. exists m. split; [|exact Hgroups].
  destruct ("data:" ++ mime ++ ";base64," ++ payload)%string eqn:Hsrc; [discriminate Hsrc|].
  cbn [search]. rewrite Hmatch. reflexivity.
Qed.

End ScreenshotFacts.

Section ScreenshotRoundTrip.
Import Js Regex ParseReport Notions.
Context `{D : Dom}.

Lemma startsWith_app_true (a b p : string) :
  startsWith a p = true -> startsWith (a ++ b) p = true.
Proof.
  revert a. induction p as [|c p IH]; intros a H; [destruct a, b; reflexivity|].
  destruct a as [|x a]; [discriminate H|].
  simpl in *. apply andb_prop in H as [Hc H]. rewrite Hc. simpl. exact (IH a H).
Qed.

Lemma pushScreenshots_step
      (count imgIdx : nat) (shots : list Screenshot) (img : Element)
      (parts : Element -> option (string * string)) :
  describes parts img ->
  pushScreenshots count [img] imgIdx shots = shots ++ shotOf count parts (imgIdx, img).
Proof.
  unfold describes, shotOf. cbn [pushScreenshots snd fst].
  destruct (parts img) as [[mime payload]|].
  - intros [Hsrc [Himage [Hmime [Hpayload Hlines]]]].
    assert (Hne : mime <> EmptyString) by (intros ->; discriminate Himage).
    destruct (dataUri_groups mime payload Hne Hpayload Hmime Hlines)
      as [m [Hsearch Hgroups]].
    rewrite Hsrc.
    assert (Hstart : startsWith ("data:" ++ mime ++ ";base64," ++ payload) "data:image"
                     = true).
    { change (startsWith (mime ++ ";base64," ++ payload) "image" = true).
      apply startsWith_app_true. exact Himage. }
    rewrite Hstart, Hsearch, Hgroups. reflexivity.
  - destruct (src img) as [s|]; [intros ->|intros _]; now rewrite app_nil_r.
Qed.

Lemma pushScreenshots_cons
      (count : nat) (img : Element) (rest : list Element) (imgIdx : nat)
      (shots : list Screenshot) :
  pushScreenshots count (img :: rest) imgIdx shots =
  pushScreenshots count rest (S imgIdx) (pushScreenshots count [img] imgIdx shots).
Proof. reflexivity. Qed.

Lemma pushScreenshots_described
      (count : nat) (parts : Element -> option (string * string)) (imgEls : list Element) :
  Forall (describes parts) imgEls ->
  forall imgIdx shots,
    pushScreenshots count imgEls imgIdx shots =
    shots ++ flat_map (shotOf count parts)
                      (combine (seq imgIdx (List.length imgEls)) imgEls).
Proof.
  induction 1 as [|img rest Himg _ IH]; intros imgIdx shots.
  - simpl. now rewrite app_nil_r.
  - rewrite pushScreenshots_cons, IH, (pushScreenshots_step _ _ _ _ parts Himg).
    cbn [List.length seq combine flat_map]. now rewrite <- app_assoc.
Qed.

(** Screenshots, one image selector after the other: when [parts] describes
    every image the selectors match, the screenshots are those of the
    inline images, once for every selector that matches the image, each with
    the MIME type and the payload of its [src] and named after the count of
    records and the position of the image among the matches of that
    selector. *)
Theorem inline_image_round_trip
        (count : nat) (node : Element) (parts : Element -> option (string * string)) :
  Forall (fun sel => Forall (describes parts) (querySelectorAll node sel)) imgSelectors ->
  extractScreenshots count node =
  flat_map (fun sel => flat_map (shotOf count parts) (indexed (querySelectorAll node sel)))
           imgSelectors.
Proof.
  unfold extractScreenshots.
  change (flat_map (fun sel => flat_map (shotOf count parts)
                                        (indexed (querySelectorAll node sel)))
                   imgSelectors)
    with ([] ++ flat_map (fun sel => flat_map (shotOf count parts)
                                              (indexed (querySelectorAll node sel)))
                         imgSelectors).
  generalize (@nil Screenshot) as shots. generalize imgSelectors as sels.
  induction sels as [|sel sels IH]; intros shots Hall.
  - simpl. now rewrite app_nil_r.
  - inversion Hall as [|? ? Hsel Hrest]; subst.
    cbn [fold_left flat_map]. rewrite (IH _ Hrest).
    rewrite (pushScreenshots_described count parts _ Hsel).
    unfold indexed. now rewrite <- app_assoc.
Qed.

End ScreenshotRoundTrip.

Section RoundTripSamples.
Import Js Regex ParseReport Notions Samples MoreSamples.

Lemma inline_image_round_trip_witness :
  Forall (fun sel => Forall (describes galleryParts) (querySelectorAll galleryNode sel))
         imgSelectors /\
  extractScreenshots 0 galleryNode =
  [mkScreenshot "screenshot-1-1.png" "image/png" "QUJD";
   mkScreenshot "screenshot-1-2.png" "image/jpeg" "WFla";
   mkScreenshot "screenshot-1-1.png" "image/png" "QUJD";
   mkScreenshot "screenshot-1-1.png" "image/jpeg" "WFla"].
Proof.
  assert (H : Forall (fun sel => Forall (describes galleryParts)
                                        (querySelectorAll galleryNode sel))
                     imgSelectors).
  { repeat (apply Forall_cons || apply Forall_nil);
      vm_compute; repeat (apply Forall_cons || apply Forall_nil);
      repeat split; discriminate. }
  split; [exact H|].
  rewrite (inline_image_round_trip 0 galleryNode galleryParts H). reflexivity.
Defined.

Lemma fallback_statuses_witness :
  structuralPass clock laterSummaryDoc = [] /\
  map status (parseSparkExtentReport clock laterSummaryDoc laterSummaryHtml) =
  [Fail; Fail; Fail; Skip; Skip; Pass].
Proof.
  split; [reflexivity|].
  exact (fallback_statuses clock laterSummaryDoc laterSummaryHtml eq_refl).
Defined.

End RoundTripSamples.

(* ================================================================== *)
(** * Further facts on the parser without steps *)
(* ================================================================== *)

Section BasicInvariants.
Import Js Regex ParseReportBasic.
Context `{D : Dom}.
Variable now : nat -> string.

Lemma processNodes_ids (testNodes : list Element) :
  forall testCases index,
    map id (processNodes now testCases testNodes index) =
    map id testCases ++
    map (fun i => ("test-" ++ showNat (i + 1))%string)
        (seq index (List.length testNodes)).
Proof.
  induction testNodes as [|node rest IH]; intros testCases index; simpl.
  - now rewrite app_nil_r.
  - rewrite IH, map_app, <- app_assoc. reflexivity.
Qed.

(** In this variant every selected node gives one record: the records are
    as many as the nodes, with the ids [test-1], [test-2], ... in document
    order. *)
Theorem basic_one_record_per_node (doc : Document) :
  map id (structuralPass now doc) =
  map (fun i => ("test-" ++ showNat (i + 1))%string)
      (seq 0 (List.length (docQuerySelectorAll doc ".test-content, .test, [data-test]"))) /\
  List.length (structuralPass now doc) =
  List.length (docQuerySelectorAll doc ".test-content, .test, [data-test]").
Proof.
  assert (H : map id (structuralPass now doc) =
              map (fun i => ("test-" ++ showNat (i + 1))%string)
                  (seq 0 (List.length
                            (docQuerySelectorAll doc ".test-content, .test, [data-test]")))).
  { unfold structuralPass. rewrite processNodes_ids. reflexivity. }
  split; [exact H|].
  rewrite <- (length_map id), H, length_map, length_seq. reflexivity.
Qed.

(** Without a selected node the records are the summary ones: the passed
    first, then the failed, then the skipped, as many of each as its count;
    without counts the result is empty. *)
Theorem basic_fallback_statuses (doc : Document) (htmlContent : string) :
  docQuerySelectorAll doc ".test-content, .test, [data-test]" = [] ->
  let bodyText := match body doc with Some b => textContent b | None => EmptyString end in
  map status (parseSparkExtentReport now doc htmlContent) =
  repeat Pass (N.to_nat (countOf passRe bodyText)) ++
  repeat Fail (N.to_nat (countOf failRe bodyText)) ++
  repeat Skip (N.to_nat (countOf skipRe bodyText)).
Proof.
  intros Hnone bodyText. unfold parseSparkExtentReport, structuralPass.
  rewrite Hnone. simpl. unfold summaryFallback, summaryCases. fold bodyText.
  rewrite !map_app, !map_map. cbn [status].
  f_equal; [|f_equal]; apply map_const_seq; reflexivity.
Qed.

Lemma basic_parse_length (doc : Document) (htmlContent : string) :
  let bodyText := match body doc with Some b => textContent b | None => EmptyString end in
  List.length (parseSparkExtentReport now doc htmlContent) =
  if (List.length (docQuerySelectorAll doc ".test-content, .test, [data-test]") =? 0)%nat
  then (N.to_nat (countOf passRe bodyText) + N.to_nat (countOf failRe bodyText) +
        N.to_nat (countOf skipRe bodyText))%nat
  else List.length (docQuerySelectorAll doc ".test-content, .test, [data-test]").
Proof.
  intros bodyText.
  assert (Hlen : List.length (structuralPass now doc) =
                 List.length (docQuerySelectorAll doc ".test-content, .test, [data-test]")).
  { rewrite <- (length_map id). unfold structuralPass. rewrite processNodes_ids.
    cbn [map app]. now rewrite length_map, length_seq. }
  unfold parseSparkExtentReport. rewrite Hlen.
  destruct (List.length (docQuerySelectorAll doc ".test-content, .test, [data-test]") =? 0)%nat
    eqn:Hzero; [|exact Hlen].
  rewrite length_app, Hlen. apply Nat.eqb_eq in Hzero. rewrite Hzero.
  unfold summaryFallback, summaryCases. fold bodyText.
  rewrite !length_app, !length_map, !length_seq. lia.
Qed.

End BasicInvariants.

Section BasicSamples.
Import Js Regex ParseReportBasic Samples.

Lemma basic_fallback_statuses_witness :
  docQuerySelectorAll plainDoc ".test-content, .test, [data-test]" = [] /\
  parseSparkExtentReport clock plainDoc plainHtml = [].
Proof.
  split; [reflexivity|].
  pose proof (basic_fallback_statuses clock plainDoc plainHtml eq_refl) as H.
  apply map_eq_nil in H. exact H.
Defined.

End BasicSamples.

(* ================================================================== *)
(** * The raw content digest *)
(* ================================================================== *)

Section RawContentFacts.
Import Js RawContent.
Context `{R : DomRemove}.

Lemma longTexts_nil (minLength : nat) : longTexts minLength [] = [].
Proof. reflexivity. Qed.

Lemma longTexts_long (minLength : nat) (elements : list Element) :
  Forall (fun text => minLength < String.length text) (longTexts minLength elements).
Proof.
  unfold longTexts. apply Forall_forall. intros text Hin.
  apply filter_In in Hin as [_ H]. apply andb_prop in H as [_ H].
  now apply Nat.ltb_lt in H.
Qed.

Lemma firstContentAreas_first (doc : Document) (pre : list string) :
  forall sel post,
    Forall (fun s => longTexts 50 (docQuerySelectorAll doc s) = []) pre ->
    longTexts 50 (docQuerySelectorAll doc sel) <> [] ->
    firstContentAreas doc (pre ++ sel :: post) =
    longTexts 50 (docQuerySelectorAll doc sel).
Proof.
  induction pre as [|s pre IH]; intros sel post Hpre Hsel; simpl.
  - destruct (docQuerySelectorAll doc sel) as [|e es]; [now rewrite longTexts_nil in Hsel|].
    cbn [List.length Nat.ltb Nat.leb].
    destruct (longTexts 50 (e :: es)); [congruence | reflexivity].
  - inversion Hpre as [|? ? Hs Hrest]; subst. rewrite Hs. simpl.
    destruct (0 <? List.length (docQuerySelectorAll doc s))%nat; apply IH; assumption.
Qed.

(** The content areas are the long texts (more than 50 characters after
    trimming) of the first main selector that has any; a selector whose
    elements only have shorter texts is passed over. *)
Theorem content_areas_first_long_text (doc : Document) (pre : list string)
        (sel : string) (post : list string) :
  mainSelectors = pre ++ sel :: post ->
  Forall (fun s => longTexts 50 (docQuerySelectorAll doc s) = []) pre ->
  longTexts 50 (docQuerySelectorAll doc sel) <> [] ->
  firstContentAreas doc mainSelectors = longTexts 50 (docQuerySelectorAll doc sel).
Proof.
  intros Hsel Hpre Hne. rewrite Hsel. apply firstContentAreas_first; assumption.
Qed.

Lemma substring0_length (n : nat) : forall s, String.length (substring0 n s) <= n.
Proof.
  unfold substring0. induction n as [|n IH]; intros s; simpl.
  - destruct s; simpl; lia.
  - destruct s as [|c s]; simpl; [lia|]. specialize (IH s). lia.
Qed.

Lemma firstContentAreas_long (doc : Document) (sels : list string) :
  Forall (fun area => 50 < String.length area) (firstContentAreas doc sels).
Proof.
  induction sels as [|s sels IH]; simpl; [constructor|].
  destruct (0 <? List.length (docQuerySelectorAll doc s))%nat; [|exact IH].
  destruct (0 <? List.length (longTexts 50 (docQuerySelectorAll doc s)))%nat; [|exact IH].
  apply longTexts_long.
Qed.

(** The digest is built from at most ten content areas, each longer than
    50 characters, and from at most 15000 characters of body markup. *)
#[warnings="-abstract-large-number"]
Theorem digest_parts_bounded (doc : Document) :
  List.length (firstn 10 (firstContentAreas doc mainSelectors)) <= 10 /\
  Forall (fun area => 50 < String.length area)
         (firstn 10 (firstContentAreas doc mainSelectors)) /\
  String.length (htmlSnippet doc) <= 15000.
Proof.
  split; [apply firstn_le_length|]. split.
  - pose proof (firstContentAreas_long doc mainSelectors) as H.
    rewrite <- (firstn_skipn 10 (firstContentAreas doc mainSelectors)) in H.
    apply Forall_app in H as [H _]. exact H.
  - unfold htmlSnippet. destruct (body doc) as [b|]; [|simpl; lia].
    unfold orElse.
    destruct (truthy _); [apply substring0_length | simpl; lia].
Qed.

End RawContentFacts.

Section RawContentBasicFacts.
Import Js RawContentBasic.
Context `{R : DomRemove}.

Lemma join_nonempty (sep x : string) (rest : list string) :
  x <> EmptyString -> join sep (x :: rest) <> EmptyString.
Proof.
  intros Hx. destruct x as [|c x]; [congruence|].
  destruct rest; simpl; discriminate.
Qed.

(** The digest of this variant is not empty unless the HTML text is. *)
Theorem basic_digest_not_empty (doc : Document) (htmlContent : string) :
  htmlContent <> EmptyString ->
  extractRawContent doc htmlContent <> EmptyString.
Proof.
  intros Hhtml. unfold extractRawContent.
  destruct (body (removeAll doc "script, style")) as [b|]; [|exact Hhtml].
  pose proof (longTexts_long 10 (querySelectorAll b testContainers)) as Hlong.
  destruct (RawContent.longTexts 10 (querySelectorAll b testContainers)) as [|x rest];
    cbn [List.length Nat.ltb Nat.leb].
  - apply orElse_truthy. exact Hhtml.
  - apply join_nonempty. inversion Hlong as [|? ? Hx _]; subst.
    intros ->. simpl in Hx. lia.
Qed.

End RawContentBasicFacts.

Section RawContentSamples.
Import Js TreeDom TreeDomRemove Samples MoreSamples.

Lemma content_areas_first_long_text_witness :
  RawContent.longTexts 50
    (docQuerySelectorAll (removeAll tableDoc "script, style, link") ".container") = [] /\
  List.length (docQuerySelectorAll (removeAll tableDoc "script, style, link") ".container") = 1 /\
  RawContent.firstContentAreas (removeAll tableDoc "script, style, link")
                               RawContent.mainSelectors =
  ["Login works and the dashboard is shown after the redirect to the home page"].
Proof.
  split; [reflexivity|]. split; [reflexivity|].
  rewrite (content_areas_first_long_text
             (removeAll tableDoc "script, style, link")
             [".test-content"; ".report-content"; ".container"; ".card"] "table"
             ["main"; "body"] eq_refl).
  - reflexivity.
  - repeat constructor.
  - discriminate.
Defined.

Lemma basic_digest_not_empty_witness :
  RawContentBasic.extractRawContent plainDoc plainHtml = "Nothing to report" /\
  RawContentBasic.extractRawContent plainDoc plainHtml <> EmptyString.
Proof.
  split; [reflexivity|].
  apply (basic_digest_not_empty plainDoc plainHtml). discriminate.
Defined.

End RawContentSamples.

(* ================================================================== *)
(** * Further facts on the analyze-report handler *)
(* ================================================================== *)

Section HandlerInvariants.
Import Js Regex Json AnalyzeReport.
Local Open Scope string_scope.

Variable JSON_parse : string -> option value.
Variable toFixed1 : Q -> string.
Variable LOVABLE_API_KEY : option string.
Variable fetch : string -> option GatewayResponse.

Lemma handler_statuses (req : Request) :
  In (responseStatus (handler JSON_parse toFixed1 LOVABLE_API_KEY fetch req))
     [200; 400; 402; 429; 500] /\
  (responseStatus (handler JSON_parse toFixed1 LOVABLE_API_KEY fetch req) = 400 <->
   String.eqb (method req) "OPTIONS" = false /\
   exists p, payload req = Some p /\ testCases p = None).
Proof.
  unfold handler.
  destruct (String.eqb (method req) "OPTIONS").
  { simpl. split; [tauto|]. split; [discriminate | intros [H _]; discriminate H]. }
  destruct (payload req) as [p|].
  2: { simpl. split; [tauto|]. split; [discriminate | intros [_ [p [H _]]]; discriminate H]. }
  destruct (testCases p) as [tcs|] eqn:Hcases.
  2: { simpl. split; [tauto|]. split; [|reflexivity].
       intros _. split; [reflexivity|]. exists p. split; [reflexivity | exact Hcases]. }
  assert (Hno : ~ (false = false /\ exists p0, Some p = Some p0 /\ testCases p0 = None)).
  { intros [_ [p0 [Hp Hnone]]]. injection Hp as <-. congruence. }
  destruct (negb (Js.truthy (strOr LOVABLE_API_KEY EmptyString))).
  { simpl. split; [tauto|]. split; [discriminate | intros H; destruct (Hno H)]. }
  destruct (fetch _) as [response|].
  2: { simpl. split; [tauto|]. split; [discriminate | intros H; destruct (Hno H)]. }
  destruct (negb (ok response)).
  { destruct (gatewayStatus response =? 429)%nat;
      [|destruct (gatewayStatus response =? 402)%nat];
      simpl; (split; [tauto|]); (split; [discriminate | intros H; destruct (Hno H)]). }
  destruct (gatewayJson response) as [aiResponse|].
  2: { simpl. split; [tauto|]. split; [discriminate | intros H; destruct (Hno H)]. }
  destruct aiResponse;
    try (destruct (buildResult toFixed1 tcs _));
    simpl; (split; [tauto|]); (split; [discriminate | intros H; destruct (Hno H)]).
Qed.

(** The handler answers with one of five status codes; with 400 exactly
    when the request is not OPTIONS and line 25 yields a body without a
    test case array; and when the body of such a request is not JSON, or is
    [null], with the 500 of the outer [catch]. *)
Theorem handler_status_codes (method : string) (r : RequestBody.Received) :
  let response :=
    handler JSON_parse toFixed1 LOVABLE_API_KEY fetch (RequestBody.incoming method r) in
  In (responseStatus response) [200; 400; 402; 429; 500] /\
  (responseStatus response = 400 <->
   String.eqb method "OPTIONS" = false /\
   exists p, r = RequestBody.JsonBody p /\ testCases p = None) /\
  (String.eqb method "OPTIONS" = false ->
   r = RequestBody.NotJson \/ r = RequestBody.NullBody ->
   response = thrown).
Proof.
  intros response. subst response.
  destruct (handler_statuses (RequestBody.incoming method r)) as [Hin Hiff].
  split; [exact Hin|]. split.
  - rewrite Hiff. cbn [RequestBody.incoming AnalyzeReport.method payload].
    split; intros [Hm [p [Hp Hnone]]]; (split; [exact Hm|]); exists p;
      (split; [|exact Hnone]).
    + destruct r; try discriminate Hp. injection Hp as ->. reflexivity.
    + rewrite Hp. reflexivity.
  - intros Hm Hr. unfold handler. cbn [RequestBody.incoming AnalyzeReport.method payload].
    rewrite Hm. destruct Hr as [-> | ->]; reflexivity.
Qed.

Lemma buildResult_without_failures (tcs : list TestCase) (parsed : value) :
  (forall l, prop parsed "failures" <> Some (JArr l)) ->
  buildResult toFixed1 tcs parsed = None.
Proof.
  intros H. unfold buildResult.
  destruct parsed; try reflexivity.
  destruct (prop (JObj fields) "failures") as [v|] eqn:Hf; [|reflexivity].
  destruct v; try reflexivity. destruct (H items). reflexivity.
Qed.

(** A reply that the [try] block does turn into JSON, but without an array
    of failures, is not replaced by the fallback analysis: the handler
    answers 500. *)
Theorem parsed_reply_without_failures_fails
        (req : Request) (p : Payload) (tcs : list TestCase)
        (response : GatewayResponse) (aiResponse parsed : value) :
  String.eqb (method req) "OPTIONS" = false ->
  payload req = Some p ->
  testCases p = Some tcs ->
  Js.truthy (strOr LOVABLE_API_KEY EmptyString) = true ->
  fetch (userPrompt (filter (hasStatus Fail) tcs) (filter (hasStatus Pass) tcs)
                    (filter (hasStatus Skip) tcs) (rawContent p)) = Some response ->
  ok response = true ->
  gatewayJson response = Some aiResponse ->
  tryParse JSON_parse
           (optProp (optProp (optFirst (prop aiResponse "choices")) "message") "content")
  = Some parsed ->
  (forall l, prop parsed "failures" <> Some (JArr l)) ->
  handler JSON_parse toFixed1 LOVABLE_API_KEY fetch req = mkResponse 500 ThrownBody.
Proof.
  intros Hmethod Hpayload Hcases Hkey Hfetch Hok Hjson Hparse Hnone.
  unfold handler. rewrite Hmethod, Hpayload, Hcases, Hkey. simpl negb. cbv iota.
  rewrite Hfetch, Hok, Hjson. simpl negb. cbv iota.
  rewrite Hparse, (buildResult_without_failures tcs parsed Hnone).
  destruct aiResponse; reflexivity.
Qed.



Lemma find_by_id (l : list TestCase) (t : TestCase) :
  In t l -> NoDup (map id l) ->
  find (fun u => String.eqb (id u) (id t)) l = Some t.
Proof.
  induction l as [|u l IH]; intros Hin Hnd; [contradiction|].
  simpl in *. inversion Hnd as [|? ? Hnotin Hrest]; subst.
  destruct Hin as [->|Hin].
  - now rewrite String.eqb_refl.
  - destruct (String.eqb (id u) (id t)) eqn:Heq.
    + apply String.eqb_eq in Heq. exfalso. apply Hnotin. rewrite Heq.
      apply in_map. exact Hin.
    + exact (IH Hin Hrest).
Qed.

Lemma fallback_entries (failedTests : list TestCase) (l : list TestCase) :
  NoDup (map id failedTests) ->
  (forall t, In t l -> In t failedTests) ->
  mapAll (mapFailure failedTests)
         (map (fun t =>
                 JObj [("testId", JStr (id t));
                       ("rootCause",
                        JStr (strOr (errorMessage t)
                                    "Unable to determine root cause automatically"));
                       ("category", JStr "automation_script_defect");
                       ("confidence", JStr "low");
                       ("evidence",
                        JArr [JStr (strOr (errorMessage t) "No error message available")]);
                       ("suggestedFix",
                        JStr "Review the test implementation and logs manually")])
              l) =
  Some (map (fun t =>
               JObj [("testCase", testCaseJson t);
                     ("rootCause",
                      JStr (strOr (errorMessage t)
                                  "Unable to determine root cause automatically"));
                     ("category", JStr "automation_script_defect");
                     ("confidence", JStr "low");
                     ("evidence",
                      JArr [JStr (strOr (errorMessage t) "No error message available")]);
                     ("suggestedFix",
                      JStr "Review the test implementation and logs manually")])
            l).
Proof.
  intros Hnd. induction l as [|t l IH]; intros Hsub; [reflexivity|].
  cbn [map mapAll]. rewrite IH by (intros u Hu; apply Hsub; right; exact Hu).
  unfold mapFailure at 1.
  change (sameId (JObj (("testId", JStr (id t)) :: _)))
    with (fun u : TestCase => String.eqb (id u) (id t)).
  rewrite (find_by_id failedTests t (Hsub t (or_introl eq_refl)) Hnd).
  reflexivity.
Qed.

Lemma fallback_result_entries (tcs : list TestCase) :
  NoDup (map id (filter (hasStatus Fail) tcs)) ->
  exists result,
    buildResult toFixed1 tcs (fallbackAnalysis (filter (hasStatus Fail) tcs)) = Some result /\
    prop result "failures" =
    Some (JArr (map (fun t =>
                       JObj [("testCase", testCaseJson t);
                             ("rootCause",
                              JStr (strOr (errorMessage t)
                                          "Unable to determine root cause automatically"));
                             ("category", JStr "automation_script_defect");
                             ("confidence", JStr "low");
                             ("evidence",
                              JArr [JStr (strOr (errorMessage t)
                                                "No error message available")]);
                             ("suggestedFix",
                              JStr "Review the test implementation and logs manually")])
                    (filter (hasStatus Fail) tcs))).
Proof.
  intros Hnd. eexists. split.
  - unfold buildResult, fallbackAnalysis.
    cbn [prop lookup String.eqb Ascii.eqb Bool.eqb].
    rewrite (fallback_entries (filter (hasStatus Fail) tcs) (filter (hasStatus Fail) tcs) Hnd
                              (fun t H => H)).
    reflexivity.
  - reflexivity.
Qed.

(** When the failed test cases have distinct ids, each entry of the
    fallback analysis comes back with its own test case. *)
Theorem fallback_entries_carry_their_test (tcs : list TestCase) :
  NoDup (map id (filter (hasStatus Fail) tcs)) ->
  exists result,
    buildResult toFixed1 tcs (fallbackAnalysis (filter (hasStatus Fail) tcs)) = Some result /\
    prop result "failures" =
    Some (JArr (map (fun t =>
                       JObj [("testCase", testCaseJson t);
                             ("rootCause",
                              JStr (strOr (errorMessage t)
                                          "Unable to determine root cause automatically"));
                             ("category", JStr "automation_script_defect");
                             ("confidence", JStr "low");
                             ("evidence",
                              JArr [JStr (strOr (errorMessage t)
                                                "No error message available")]);
                             ("suggestedFix",
                              JStr "Review the test implementation and logs manually")])
                    (filter (hasStatus Fail) tcs))).
Proof. exact (fallback_result_entries tcs). Qed.

End HandlerInvariants.

Section FenceFacts.
Import Js Regex Json AnalyzeReport Notions.
Local Open Scope string_scope.

Variable JSON_parse : string -> option value.

(** Matching literal text, letter case respected. *)
Lemma rmatch_Lit_cs (R : Type) (kw : string) :
  forall pos s caps (k : nat -> string -> captures -> option R),
    rmatch false (Lit kw) pos s caps k =
    if startsWith s kw
    then k (pos + String.length kw) (dropChars (String.length kw) s) caps
    else None.
Proof.
  induction kw as [|c kw IH]; intros pos s caps k.
  - simpl. rewrite Nat.add_0_r. destruct s; reflexivity.
  - destruct s as [|x s]; [reflexivity|].
    simpl. unfold charOk.
    destruct (Ascii.eqb c x); [|reflexivity].
    rewrite IH. simpl. rewrite Nat.add_succ_r. reflexivity.
Qed.

Lemma search_keyword_absent (kw : string) (r : regex) (s : string) :
  includes s kw = false -> search false (Seq (Lit kw) r) s = None.
Proof.
  induction s as [|c s IH]; intros H.
  - change (startsWith EmptyString kw || false = false) in H.
    apply orb_false_elim in H as [Hhere _]. cbn [search].
    unfold matchAt. rewrite rmatch_Seq, rmatch_Lit_cs, Hhere. reflexivity.
  - change (startsWith (String c s) kw || includes s kw = false) in H.
    apply orb_false_elim in H as [Hhere Hlater]. cbn [search].
    unfold matchAt. rewrite rmatch_Seq, rmatch_Lit_cs, Hhere.
    rewrite (IH Hlater). reflexivity.
Qed.

(** A message without a code fence is handed to [JSON.parse] as it is. *)
Theorem unfenced_reply_parsed_whole (content : string) :
  includes content "```" = false ->
  tryParse JSON_parse (Some (JStr content)) = JSON_parse content.
Proof.
  intros H. unfold tryParse, fenceRe. cbn [seqs].
  rewrite (search_keyword_absent "```" _ content H). reflexivity.
Qed.

(** A lazy repetition stops at the first place where what follows
    succeeds; it passes the characters where what follows fails. *)
Lemma starLazy_run (R : Type) (ok blocks : ascii -> bool) (a : string) :
  forall rest pos (k : nat -> string -> option R) r,
    (forall p ch s', blocks ch = true -> k p (String ch s') = None) ->
    allChars (fun ch => ok ch && blocks ch) a = true ->
    k (pos + String.length a) rest = Some r ->
    starLazy ok pos (a ++ rest) k = Some r.
Proof.
  induction a as [|c a IH]; intros rest pos k r Hblock Hall Hk.
  - simpl in *. rewrite Nat.add_0_r in Hk. destruct rest; simpl; rewrite Hk; reflexivity.
  - simpl in Hall. apply andb_prop in Hall as [Hc Hall].
    apply andb_prop in Hc as [Hok Hb].
    cbn [append starLazy]. rewrite (Hblock pos c (a ++ rest) Hb), Hok.
    apply IH; [exact Hblock | exact Hall|].
    rewrite <- Hk. f_equal. simpl. lia.
Qed.

Lemma rmatch_group_lazy (R : Type) (ci : bool) (a : atom) (blocks : ascii -> bool)
      (n : nat) (x rest : string) (pos : nat) (caps : captures)
      (k : nat -> string -> captures -> option R) (r : R) :
  (forall p ch s' c', blocks ch = true -> k p (String ch s') c' = None) ->
  allChars (fun ch => atomOk ci a ch && blocks ch) x = true ->
  k (pos + String.length x) rest ((n, x) :: caps) = Some r ->
  rmatch ci (Group n (StarLazy a)) pos (x ++ rest) caps k = Some r.
Proof.
  intros Hblock Hall Hk. cbn [rmatch].
  apply (starLazy_run R (atomOk ci a) blocks).
  - intros p ch s' Hb. apply Hblock. exact Hb.
  - exact Hall.
  - replace (pos + String.length x - pos) with (String.length x) by lia.
    rewrite substring0_app. exact Hk.
Qed.

Lemma fence_blocked (R : Type) (r : regex) (p : nat) (ch : ascii) (s' : string)
      (caps : captures) (k : nat -> string -> captures -> option R) :
  notBacktick ch = true ->
  rmatch false (Seq (Lit "```") r) p (String ch s') caps k = None.
Proof.
  intros H. rewrite rmatch_Seq, rmatch_Lit_cs.
  unfold notBacktick in H. apply negb_true_iff in H.
  cbn [startsWith]. rewrite H. reflexivity.
Qed.

Lemma search_passes_prose (r : regex) (pre rest : string) :
  allChars notBacktick pre = true ->
  option_map groups (search false (Seq (Lit "```") r) (pre ++ rest)) =
  option_map groups (search false (Seq (Lit "```") r) rest).
Proof.
  induction pre as [|c pre IH]; intros H; [reflexivity|].
  simpl in H. apply andb_prop in H as [Hc H].
  cbn [append search]. unfold matchAt at 1. rewrite (fence_blocked _ _ _ _ _ _ _ Hc).
  rewrite groups_shift. exact (IH H).
Qed.

Lemma allChars_and (f g : ascii -> bool) (s : string) :
  allChars f s = true -> allChars g s = true ->
  allChars (fun ch => f ch && g ch) s = true.
Proof.
  induction s as [|c s IH]; simpl; intros Hf Hg; [reflexivity|].
  apply andb_prop in Hf as [Hfc Hf]. apply andb_prop in Hg as [Hgc Hg].
  rewrite Hfc, Hgc. simpl. exact (IH Hf Hg).
Qed.

Lemma allChars_true (f : ascii -> bool) (s : string) :
  (forall ch, f ch = true) -> allChars f s = true.
Proof. intros H. induction s as [|c s IH]; simpl; [reflexivity | now rewrite H, IH]. Qed.

Lemma anyChar_ok (ch : ascii) : atomOk false (ASet false [CSpace; CNonSpace]) ch = true.
Proof.
  unfold atomOk. cbn [existsb itemOk xorb]. destruct (isSpace ch); reflexivity.
Qed.

Lemma atomOk_aSpace (ci : bool) (ch : ascii) : atomOk ci aSpace ch = isSpace ch.
Proof.
  unfold atomOk, aSpace. cbn [existsb itemOk xorb]. destruct (isSpace ch); reflexivity.
Qed.

Lemma rmatch_Opt_Some (R : Type) (ci : bool) (r1 : regex) (pos : nat) (s : string)
      (caps : captures) (k : nat -> string -> captures -> option R) (x : R) :
  rmatch ci r1 pos s caps k = Some x -> rmatch ci (Opt r1) pos s caps k = Some x.
Proof. intros H. cbn [rmatch]. rewrite H. reflexivity. Qed.

Lemma rmatch_Star_run (R : Type) (ci : bool) (a : atom) (ws rest : string) (pos : nat)
      (caps : captures) (k : nat -> string -> captures -> option R) (r : R) :
  allChars (atomOk ci a) ws = true ->
  stops (atomOk ci a) rest = true ->
  k (pos + String.length ws) rest caps = Some r ->
  rmatch ci (Star a) pos (ws ++ rest) caps k = Some r.
Proof.
  intros Hall Hstop Hk. cbn [rmatch].
  apply starGreedy_run; assumption.
Qed.

Lemma Lit_fence_blocked (R : Type) (p : nat) (ch : ascii) (s' : string)
      (caps : captures) (k : nat -> string -> captures -> option R) :
  notBacktick ch = true ->
  rmatch false (Lit "```") p (String ch s') caps k = None.
Proof.
  intros H. rewrite rmatch_Lit_cs.
  unfold notBacktick in H. apply negb_true_iff in H.
  cbn [startsWith]. rewrite H. reflexivity.
Qed.

(** The captured text of the fence pattern on a fenced message. *)
Lemma fence_groups (pre ws inner post : string) :
  allChars notBacktick pre = true ->
  allChars isSpace ws = true ->
  stops isSpace inner = true ->
  allChars notBacktick inner = true ->
  option_map groups
    (search false fenceRe (pre ++ "```json" ++ ws ++ inner ++ "```" ++ post)) =
  Some [(1, inner)].
Proof.
  intros Hpre Hws Hstart Hinner. unfold fenceRe. cbn [seqs].
  rewrite (search_passes_prose _ pre _ Hpre).
  assert (H : exists m,
             matchAt false
               (Seq (Lit "```")
                    (Seq (Opt (Lit "json"))
                         (Seq (Star aSpace)
                              (Seq (Group 1 (StarLazy (ASet false [CSpace; CNonSpace])))
                                   (Lit "```")))))
               ("```json" ++ ws ++ inner ++ "```" ++ post) = Some m /\
             groups m = [(1, inner)]).
  { eexists. split.
    - unfold matchAt.
      change ("```json" ++ ws ++ inner ++ "```" ++ post)
        with ("```" ++ "json" ++ ws ++ inner ++ "```" ++ post).
      rewrite rmatch_Seq, rmatch_Lit_exact, rmatch_Seq.
      apply rmatch_Opt_Some. rewrite rmatch_Lit_exact, rmatch_Seq.
      apply rmatch_Star_run.
      + rewrite (allChars_ext _ isSpace); [exact Hws | apply atomOk_aSpace].
      + destruct inner as [|c inner]; [reflexivity|].
        cbn [append stops] in Hstart |- *. rewrite atomOk_aSpace. exact Hstart.
      + rewrite rmatch_Seq.
        apply (rmatch_group_lazy _ false _ notBacktick).
        * intros p ch s' c' Hb. apply Lit_fence_blocked. exact Hb.
        * apply allChars_and; [|exact Hinner].
          apply allChars_true. apply anyChar_ok.
        * rewrite rmatch_Lit_exact. reflexivity.
    - reflexivity. }
  destruct H as [m [Hm Hg]].
  cbn [append search]. cbn [append] in Hm. rewrite Hm. simpl. rewrite Hg. reflexivity.
Qed.

(** A message that wraps its JSON in a [json] code fence is unwrapped: the
    text between the fences, trimmed, is what [JSON.parse] gets. *)
Theorem fenced_reply_unwrapped (pre ws inner post : string) :
  allChars notBacktick pre = true ->
  allChars isSpace ws = true ->
  stops isSpace inner = true ->
  allChars notBacktick inner = true ->
  tryParse JSON_parse
           (Some (JStr (pre ++ "```json" ++ ws ++ inner ++ "```" ++ post))) =
  JSON_parse (trim inner).
Proof.
  intros Hpre Hws Hstart Hinner. unfold tryParse.
  pose proof (fence_groups pre ws inner post Hpre Hws Hstart Hinner) as H.
  destruct (search false fenceRe _) as [m|]; [|discriminate H].
  simpl in H. injection H as ->. reflexivity.
Qed.

End FenceFacts.

Section HandlerSamples2.
Import Js Regex Json AnalyzeReport Notions Samples MoreSamples.
Local Open Scope string_scope.

Lemma parsed_reply_without_failures_fails_witness :
  handler parseLiteral showDuration (Some "key") (fun _ => Some nullReply) sampleRequest =
  mkResponse 500 ThrownBody.
Proof.
  apply (parsed_reply_without_failures_fails
           parseLiteral showDuration (Some "key") (fun _ => Some nullReply)
           sampleRequest (mkPayload (Some [failedCase; passedCase]) None)
           [failedCase; passedCase] nullReply
           (JObj [("choices",
                   JArr [JObj [("message", JObj [("content", JStr "null")])]])])
           JNull); try reflexivity.
  intros l H. discriminate H.
Defined.


Lemma fallback_entries_carry_their_test_witness :
  exists result,
    buildResult showDuration [failedCase; passedCase] (fallbackAnalysis [failedCase]) =
    Some result /\
    prop result "failures" =
    Some (JArr [JObj [("testCase", testCaseJson failedCase);
                      ("rootCause", JStr "AssertionError: expected true");
                      ("category", JStr "automation_script_defect");
                      ("confidence", JStr "low");
                      ("evidence", JArr [JStr "AssertionError: expected true"]);
                      ("suggestedFix",
                       JStr "Review the test implementation and logs manually")]]).
Proof.
  apply (fallback_entries_carry_their_test showDuration [failedCase; passedCase]).
  repeat constructor. intros H. exact H.
Defined.

Lemma unfenced_reply_parsed_whole_witness :
  tryParse parseLiteral (Some (JStr "null")) = Some JNull.
Proof.
  rewrite (unfenced_reply_parsed_whole parseLiteral "null" eq_refl). reflexivity.
Defined.

Lemma fenced_reply_unwrapped_witness :
  tryParse parseLiteral
           (Some (JStr ("Here is the analysis: " ++ "```json" ++ RawContent.nl ++
                        ("null" ++ RawContent.nl) ++ "```" ++ " Done."))) =
  Some JNull.
Proof.
  rewrite (fenced_reply_unwrapped parseLiteral "Here is the analysis: " RawContent.nl
                                  ("null" ++ RawContent.nl) " Done."
                                  eq_refl eq_refl eq_refl eq_refl).
  reflexivity.
Defined.

End HandlerSamples2.

(* ================================================================== *)
(** * From the page to the handler *)
(* ================================================================== *)

Section PageFacts.
Import Js Json AnalyzeReport IndexPage.
Context `{R : DomRemove}.
Variable now : nat -> string.

(** Whichever functions the page imports, the handler never answers the
    request of the page with 400.  With the parser with steps and
    screenshots the notice is never shown; with the parser without steps it
    is shown exactly when no element matches the test selector and the
    pass, fail and skip counts of the body text are all zero. *)
Theorem page_request_is_accepted (doc : Document) (content : string) :
  (forall parse extract JSON_parse toFixed1 LOVABLE_API_KEY fetch,
      responseStatus (handler JSON_parse toFixed1 LOVABLE_API_KEY fetch
                              (request (prepareAnalysis parse extract doc content)))
      <> 400) /\
  (forall extract,
      noticeShown (prepareAnalysis (ParseReport.parseSparkExtentReport now) extract
                                   doc content) = false) /\
  (forall extract,
      noticeShown (prepareAnalysis (ParseReportBasic.parseSparkExtentReport now) extract
                                   doc content) = true <->
      docQuerySelectorAll doc ".test-content, .test, [data-test]" = [] /\
      let bodyText :=
        match body doc with Some b => textContent b | None => EmptyString end in
      ParseReportBasic.countOf ParseReportBasic.passRe bodyText = 0%N /\
      ParseReportBasic.countOf ParseReportBasic.failRe bodyText = 0%N /\
      ParseReportBasic.countOf ParseReportBasic.skipRe bodyText = 0%N).
Proof.
  split; [|split].
  - intros parse extract JSON_parse toFixed1 key fetch H.
    apply (proj2 (handler_statuses JSON_parse toFixed1 key fetch _)) in H.
    destruct H as [_ [p [Hp Hnone]]].
    unfold prepareAnalysis in Hp. cbn [request payload] in Hp.
    injection Hp as <-. discriminate Hnone.
  - intros extract. unfold prepareAnalysis. cbn [noticeShown].
    pose proof (parse_not_nil now doc content) as H.
    destruct (ParseReport.parseSparkExtentReport now doc content); [congruence | reflexivity].
  - intros extract. unfold prepareAnalysis. cbn [noticeShown].
    rewrite Nat.eqb_eq, (basic_parse_length now doc content).
    destruct (docQuerySelectorAll doc ".test-content, .test, [data-test]") as [|el els];
      cbn [List.length Nat.eqb].
    + split.
      * intros H. split; [reflexivity|]. cbn zeta. lia.
      * intros [_ H]. cbn zeta in H. lia.
    + split; [discriminate | intros [H _]; discriminate H].
Qed.

(** The failed records of a parsed report have distinct ids, so each entry
    of the fallback analysis of the handler comes back with the record it
    was made from. *)
Theorem parsed_report_entries_carry_their_test
        (toFixed1 : Q -> string) (doc : Document) (content : string) :
  exists result,
    buildResult toFixed1 (ParseReport.parseSparkExtentReport now doc content)
                (fallbackAnalysis
                   (filter (hasStatus Fail)
                           (ParseReport.parseSparkExtentReport now doc content))) =
    Some result /\
    exists entries,
      prop result "failures" = Some (JArr entries) /\
      Forall2 (fun t e => prop e "testCase" = Some (testCaseJson t))
              (filter (hasStatus Fail) (ParseReport.parseSparkExtentReport now doc content))
              entries.
Proof.
  destruct (fallback_result_entries toFixed1
              (ParseReport.parseSparkExtentReport now doc content))
    as [result [Hbuild Hfail]].
  { apply filter_keeps_distinct_keys. apply parse_ids_NoDup. }
  exists result. split; [exact Hbuild|].
  eexists. split; [exact Hfail|].
  clear Hbuild Hfail.
  induction (filter (hasStatus Fail) (ParseReport.parseSparkExtentReport now doc content))
    as [|t l IH]; simpl; constructor; [reflexivity | exact IH].
Qed.

End PageFacts.

(* ================================================================== *)
(** * Reading counts, names and durations *)
(* ================================================================== *)

Section CountFacts.
Import Js Regex ParseReport Notions.

Lemma atomOk_aDigit (ci : bool) (ch : ascii) : atomOk ci aDigit ch = isDigit ch.
Proof.
  unfold atomOk, aDigit. cbn [existsb itemOk xorb]. destruct (isDigit ch); reflexivity.
Qed.

Lemma atomOk_colonSpace (ch : ascii) :
  atomOk true (ASet false [CChar ":"; CSpace]) ch = isColonOrSpace ch.
Proof. destruct ch as [[] [] [] [] [] [] [] []]; reflexivity. Qed.

Lemma digit_not_separator (ch : ascii) :
  isDigit ch = true -> isColonOrSpace ch = false /\ isSpace ch = false.
Proof.
  destruct ch as [[] [] [] [] [] [] [] []]; intros H;
    try discriminate H; split; reflexivity.
Qed.

Lemma rmatch_Alt_Some (R : Type) (ci : bool) (r1 r2 : regex) (pos : nat) (s : string)
      (caps : captures) (k : nat -> string -> captures -> option R) (x : R) :
  rmatch ci r1 pos s caps k = Some x -> rmatch ci (Alt r1 r2) pos s caps k = Some x.
Proof. intros H. cbn [rmatch]. rewrite H. reflexivity. Qed.

(** The separator and the number after a count label: white space, then
    colons and white space, then the digits, which are captured. *)
Lemma rmatch_count_tail (R : Type) (ws sep digits post : string) (pos : nat)
      (caps : captures) (k : nat -> string -> captures -> option R) (r : R) :
  allChars isSpace ws = true ->
  allChars isColonOrSpace sep = true ->
  stops isSpace sep = true ->
  digits <> EmptyString ->
  allChars isDigit digits = true ->
  stops isDigit post = true ->
  k (pos + String.length ws + String.length sep + String.length digits) post
    ((1, digits) :: caps) = Some r ->
  rmatch true
         (Seq (Star aSpace)
              (Seq (Star (ASet false [CChar ":"; CSpace])) (Group 1 (Plus aDigit))))
         pos (ws ++ sep ++ digits ++ post) caps k = Some r.
Proof.
  intros Hws Hsep Hstart Hne Hdigits Hpost Hk.
  destruct digits as [|d digits]; [congruence|].
  pose proof Hdigits as Hd. simpl in Hd. apply andb_prop in Hd as [Hd _].
  destruct (digit_not_separator d Hd) as [Hd1 Hd2].
  rewrite rmatch_Seq. apply rmatch_Star_run.
  - rewrite (allChars_ext _ isSpace); [exact Hws | apply atomOk_aSpace].
  - destruct sep as [|c sep]; cbn [append stops] in Hstart |- *;
      rewrite atomOk_aSpace; [now rewrite Hd2 | exact Hstart].
  - rewrite rmatch_Seq. apply rmatch_Star_run.
    + rewrite (allChars_ext _ isColonOrSpace); [exact Hsep | apply atomOk_colonSpace].
    + cbn [append stops]. rewrite atomOk_colonSpace, Hd1. reflexivity.
    + apply rmatch_group_plus; [discriminate | | |exact Hk].
      * rewrite (allChars_ext _ isDigit); [exact Hdigits | apply atomOk_aDigit].
      * destruct post as [|c post]; [reflexivity|].
        cbn [stops] in Hpost |- *. rewrite atomOk_aDigit. exact Hpost.
Qed.

Lemma toLowerCase_length (s : string) : String.length (toLowerCase s) = String.length s.
Proof. induction s as [|c s IH]; simpl; [reflexivity | now rewrite IH]. Qed.

Lemma startsWith_self_app (x y : string) : startsWith (x ++ y) x = true.
Proof.
  induction x as [|c x IH]; [destruct y; reflexivity|].
  simpl. rewrite Ascii.eqb_refl. exact IH.
Qed.

Lemma dropChars_app (x y : string) : dropChars (String.length x) (x ++ y) = y.
Proof. induction x as [|c x IH]; [destruct y; reflexivity | exact IH]. Qed.

(** Matching a keyword against a label that differs from it in letter case
    only. *)
Lemma rmatch_Lit_label (R : Type) (kw label rest : string) (pos : nat) (caps : captures)
      (k : nat -> string -> captures -> option R) :
  toLowerCase label = toLowerCase kw ->
  rmatch true (Lit kw) pos (label ++ rest) caps k = k (pos + String.length kw) rest caps.
Proof.
  intros H. rewrite rmatch_Lit, toLowerCase_app, H, startsWith_self_app.
  assert (Hlen : String.length kw = String.length label).
  { rewrite <- (toLowerCase_length kw), <- H. apply toLowerCase_length. }
  rewrite Hlen at 2. rewrite dropChars_app. reflexivity.
Qed.

Lemma search_here (ci : bool) (r : regex) (s : string) (m : MatchResult) :
  matchAt ci r s = Some m -> search ci r s = Some m.
Proof. intros H. destruct s; cbn [search]; rewrite H; reflexivity. Qed.

(** The counts of the fallback are the numbers written after the first
    [Passed], [Failed] and [Skipped] labels, whatever white space and colons
    stand in between. *)
Theorem counts_read_the_numbers (pre ws sep digits post : string) :
  allChars isSpace ws = true ->
  allChars isColonOrSpace sep = true ->
  stops isSpace sep = true ->
  digits <> EmptyString ->
  allChars isDigit digits = true ->
  stops isDigit post = true ->
  (includes (toLowerCase pre) "pass" = false ->
   countOf passRe (pre ++ "Passed" ++ ws ++ sep ++ digits ++ post) = parseInt digits) /\
  (includes (toLowerCase pre) "fail" = false ->
   countOf failRe (pre ++ "Failed" ++ ws ++ sep ++ digits ++ post) = parseInt digits) /\
  (includes (toLowerCase pre) "skip" = false ->
   countOf skipRe (pre ++ "Skipped" ++ ws ++ sep ++ digits ++ post) = parseInt digits).
Proof.
  intros Hws Hsep Hstart Hne Hdigits Hpost.
  repeat split; intros Hpre.
  - unfold passRe. cbn [seqs].
    rewrite (@count_after_prefix "pass" _ pre _ [(1, digits)]);
      [reflexivity | reflexivity | exact Hpre |].
    erewrite search_here; cycle 1.
    { unfold matchAt.
      change ("Passed" ++ ws ++ sep ++ digits ++ post)%string
        with ("Pass" ++ "ed" ++ ws ++ sep ++ digits ++ post)%string.
      rewrite rmatch_Seq, (rmatch_Lit_label _ "pass" "Pass") by reflexivity.
      rewrite rmatch_Seq. apply rmatch_Opt_Some.
      rewrite (rmatch_Lit_label _ "ed" "ed") by reflexivity.
      apply rmatch_count_tail; try assumption. reflexivity. }
    reflexivity.
  - unfold failRe. cbn [seqs].
    rewrite (@count_after_prefix "fail" _ pre _ [(1, digits)]);
      [reflexivity | reflexivity | exact Hpre |].
    erewrite search_here; cycle 1.
    { unfold matchAt.
      change ("Failed" ++ ws ++ sep ++ digits ++ post)%string
        with ("Fail" ++ "ed" ++ ws ++ sep ++ digits ++ post)%string.
      rewrite rmatch_Seq, (rmatch_Lit_label _ "fail" "Fail") by reflexivity.
      rewrite rmatch_Seq. apply rmatch_Opt_Some, rmatch_Alt_Some.
      rewrite (rmatch_Lit_label _ "ed" "ed") by reflexivity.
      apply rmatch_count_tail; try assumption. reflexivity. }
    reflexivity.
  - unfold skipRe. cbn [seqs].
    rewrite (@count_after_prefix "skip" _ pre _ [(1, digits)]);
      [reflexivity | reflexivity | exact Hpre |].
    erewrite search_here; cycle 1.
    { unfold matchAt.
      change ("Skipped" ++ ws ++ sep ++ digits ++ post)%string
        with ("Skip" ++ "ped" ++ ws ++ sep ++ digits ++ post)%string.
      rewrite rmatch_Seq, (rmatch_Lit_label _ "skip" "Skip") by reflexivity.
      rewrite rmatch_Seq. apply rmatch_Opt_Some.
      rewrite (rmatch_Lit_label _ "ped" "ped") by reflexivity.
      apply rmatch_count_tail; try assumption. reflexivity. }
    reflexivity.
Qed.

End CountFacts.

Section CountSamples.
Import Js Regex ParseReport Notions.

Lemma counts_read_the_numbers_witness :
  countOf passRe "Results: Passed: 42 tests" = 42%N.
Proof.
  apply (proj1 (counts_read_the_numbers "Results: " EmptyString ": " "42" " tests"
                  eq_refl eq_refl eq_refl ltac:(discriminate) eq_refl eq_refl)).
  reflexivity.
Defined.

End CountSamples.

Section NameFacts.
Import Js Regex ParseReport Notions.
Context `{D : Dom}.

Lemma firstText_first (node : Element) (pre : list string) :
  forall sel post el,
    Forall (fun s => match querySelector node s with
                     | Some e => trim (textContent e) = EmptyString
                     | None => True
                     end) pre ->
    querySelector node sel = Some el ->
    trim (textContent el) <> EmptyString ->
    firstText node (pre ++ sel :: post) = trim (textContent el).
Proof.
  induction pre as [|s pre IH]; intros sel post el Hpre Hsel Hne; simpl.
  - rewrite Hsel. destruct (trim (textContent el)); [congruence | reflexivity].
  - inversion Hpre as [|? ? Hs Hrest]; subst.
    destruct (querySelector node s) as [e|].
    + rewrite Hs. simpl. apply IH; assumption.
    + apply IH; assumption.
Qed.

(** The name of a node is the trimmed text of the first name selector, in
    the order of the list, whose first match has text; a selector whose first
    match is blank is passed over. *)
Theorem name_first_selector_with_text
        (node : Element) (index : nat) (pre : list string) (sel : string)
        (post : list string) (el : Element) :
  nameSelectors = pre ++ sel :: post ->
  Forall (fun s => match querySelector node s with
                   | Some e => trim (textContent e) = EmptyString
                   | None => True
                   end) pre ->
  querySelector node sel = Some el ->
  trim (textContent el) <> EmptyString ->
  extractName node index = trim (textContent el).
Proof.
  intros Hsels Hpre Hsel Hne. unfold extractName.
  rewrite Hsels, (firstText_first node pre sel post el Hpre Hsel Hne).
  destruct (trim (textContent el)); [congruence | reflexivity].
Qed.

End NameFacts.

Section DurationFacts.
Import Js Regex Notions.

Lemma kept_without_digit (c : ascii) :
  isDigit c = false -> atomOk false notNumeric c = false -> c = "."%char.
Proof.
  destruct c as [[] [] [] [] [] [] [] []]; intros H1 H2;
    try discriminate H1; try discriminate H2; reflexivity.
Qed.

Lemma removeAllChars_dots (text : string) :
  allChars (fun c => negb (isDigit c)) text = true ->
  allChars (Ascii.eqb ".") (removeAllChars false notNumeric text) = true.
Proof.
  induction text as [|c text IH]; intros H; [reflexivity|].
  simpl in H. apply andb_prop in H as [Hc H]. apply negb_true_iff in Hc.
  cbn [removeAllChars].
  destruct (atomOk false notNumeric c) eqn:Hk; [exact (IH H)|].
  rewrite (kept_without_digit c Hc Hk). cbn [allChars]. rewrite (IH H). reflexivity.
Qed.

Lemma parseFloat_dots (s : string) :
  allChars (Ascii.eqb ".") s = true -> parseFloat s = None.
Proof.
  intros H. destruct s as [|c s]; [reflexivity|].
  cbn [allChars] in H. apply andb_prop in H as [Hc H].
  apply Ascii.eqb_eq in Hc. subst c.
  destruct s as [|c s]; [reflexivity|].
  cbn [allChars] in H. apply andb_prop in H as [Hc _].
  apply Ascii.eqb_eq in Hc. subst c. reflexivity.
Qed.

(** A duration text without any digit gives the duration 0. *)
Theorem duration_without_digits_is_zero (durationText : string) :
  allChars (fun c => negb (isDigit c)) durationText = true ->
  parseDuration durationText = 0%Q.
Proof.
  intros H. unfold parseDuration.
  rewrite (parseFloat_dots _ (removeAllChars_dots durationText H)). reflexivity.
Qed.

End DurationFacts.

Section NameSamples.
Import Js Regex ParseReport Notions Samples MoreSamples.

Lemma name_first_selector_with_text_witness :
  extractName blankNameNode 0 = "Login works".
Proof.
  destruct (querySelector blankNameNode "h5") as [el|] eqn:Hq; [|discriminate Hq].
  rewrite (name_first_selector_with_text blankNameNode 0
             [".test-name"; ".name"; "td:first-child"] "h5"
             [".card-title"; ".test-title"; "a"] el eq_refl).
  - injection Hq as <-. reflexivity.
  - repeat constructor.
  - exact Hq.
  - injection Hq as <-. discriminate.
Defined.

Lemma duration_without_digits_is_zero_witness : parseDuration "abc" = 0%Q.
Proof. apply (duration_without_digits_is_zero "abc"). reflexivity. Defined.

End NameSamples.

(* ================================================================== *)
(** * The status badge and the request body, on samples *)
(* ================================================================== *)

Section BadgeSamples.
Import Js ParseReport Samples MoreSamples.

(** C2 as stated fails: this node is pass as a whole and contains a badge
    with the class [badge-danger], but an earlier badge, without any
    indicator, is the one [querySelector] returns; the node stays pass. *)
Lemma later_badge_counterexample :
  ~ (forall node badge : @Element TreeDom.treeDom,
        wholeNodeStatus node = Pass ->
        In badge (querySelectorAll node
                    ".status, .badge, [class*='status'], .test-status") ->
        includes (toLowerCase (textContent badge)) "fail" = true \/
        includes (toLowerCase (className badge)) "fail" = true \/
        includes (toLowerCase (className badge)) "danger" = true ->
        classifyStatus node = Fail).
Proof.
  intros H.
  destruct (querySelectorAll twoBadgeNode
              ".status, .badge, [class*='status'], .test-status")
    as [|first [|second rest]] eqn:Hq; try discriminate Hq.
  specialize (H twoBadgeNode second eq_refl).
  rewrite Hq in H. injection Hq as _ <- _.
  specialize (H (or_intror (or_introl eq_refl))
                (or_intror (or_intror eq_refl))).
  vm_compute in H. discriminate H.
Qed.

End BadgeSamples.

Section BodySamples.
Import Js Regex Json AnalyzeReport Samples MoreSamples.
Local Open Scope string_scope.

Lemma handler_status_codes_witness :
  handler parseLiteral showDuration (Some "key") (fun _ => Some nullReply)
          (RequestBody.incoming "POST" RequestBody.NullBody) = thrown.
Proof.
  apply (proj2 (proj2 (handler_status_codes
                         parseLiteral showDuration (Some "key") (fun _ => Some nullReply)
                         "POST" RequestBody.NullBody)));
    [reflexivity | right; reflexivity].
Defined.

End BodySamples.
